(** * Voting system: ballots, eligibility, vote casting, tally and export

    A shallow embedding of [src/voting_system.py].

    Conventions of the model:
    - a Python [str] is a Rocq [string] holding its UTF-8 bytes, so that
      [str.encode()] is the identity, [==] is [String.eqb] and the ordering
      of two [str] (by code point) is the byte-wise [String.ltb];
    - the SQLite database is a [store]: the rows of its three tables, in
      insertion order.  [init_db] only creates missing tables, so it does
      not change any row and is left out of the state;
    - the two sources of non-determinism, [datetime.now] and [uuid.uuid4],
      are explicit arguments of the operations that read them;
    - an operation is a computation [M A]: from a store to a result or an
      exception, together with the store left on disk. *)

From Stdlib Require Import List String Ascii ZArith NArith Arith Bool Lia.
From Stdlib Require Import Permutation.
Import ListNotations.

Local Open Scope string_scope.
Local Open Scope list_scope.

(** ** hashlib.sha256 (FIPS 180-4) *)

Module SHA256.

Local Open Scope Z_scope.

Definition wrap (x : Z) : Z := x mod 2 ^ 32.
Definition add (x y : Z) : Z := wrap (x + y).
Definition rotr (n x : Z) : Z := Z.lor (Z.shiftr x n) (wrap (Z.shiftl x (32 - n))).
Definition shr (n x : Z) : Z := Z.shiftr x n.

Definition Ch (x y z : Z) : Z := Z.lxor (Z.land x y) (Z.land (wrap (Z.lnot x)) z).
Definition Maj (x y z : Z) : Z :=
  Z.lxor (Z.lxor (Z.land x y) (Z.land x z)) (Z.land y z).
Definition Sigma0 (x : Z) : Z := Z.lxor (Z.lxor (rotr 2 x) (rotr 13 x)) (rotr 22 x).
Definition Sigma1 (x : Z) : Z := Z.lxor (Z.lxor (rotr 6 x) (rotr 11 x)) (rotr 25 x).
Definition sigma0 (x : Z) : Z := Z.lxor (Z.lxor (rotr 7 x) (rotr 18 x)) (shr 3 x).
Definition sigma1 (x : Z) : Z := Z.lxor (Z.lxor (rotr 17 x) (rotr 19 x)) (shr 10 x).

(** The constants of the standard are the first 32 bits of the fractional
    parts of the cube roots ([K]) and of the square roots ([H0]) of the first
    primes; they are computed here rather than listed. *)
Definition is_prime (n : Z) : bool :=
  (1 <? n) && forallb (fun d => negb (n mod d =? 0))
                      (map Z.of_nat (seq 2 (Z.to_nat n - 2))).

Definition primes_upto (bound : nat) : list Z :=
  filter is_prime (map Z.of_nat (seq 2 (bound - 1))).

(** The integer cube root, by bisection between [lo] and [hi]. *)
Fixpoint cbrt_between (fuel : nat) (lo hi n : Z) : Z :=
  match fuel with
  | O => lo
  | S fuel' =>
      let mid := (lo + hi) / 2 in
      if mid * mid * mid <=? n then cbrt_between fuel' mid hi n
      else cbrt_between fuel' lo mid n
  end.

Definition cbrt_frac32 (p : Z) : Z := cbrt_between 64 0 (2 ^ 40) (p * 2 ^ 96) mod 2 ^ 32.
Definition sqrt_frac32 (p : Z) : Z := Z.sqrt (p * 2 ^ 64) mod 2 ^ 32.

Definition K : list Z := Eval vm_compute in map cbrt_frac32 (primes_upto 311).

(** The eight 32-bit words of the chaining value. *)
Record state := State { ha : Z; hb : Z; hc : Z; hd : Z; he : Z; hf : Z; hg : Z; hh : Z }.

Definition H0 : state :=
  Eval vm_compute in
    State (sqrt_frac32 2) (sqrt_frac32 3) (sqrt_frac32 5) (sqrt_frac32 7)
          (sqrt_frac32 11) (sqrt_frac32 13) (sqrt_frac32 17) (sqrt_frac32 19).

Definition bytes_of_string (s : string) : list Z :=
  map (fun c => Z.of_N (N_of_ascii c)) (list_ascii_of_string s).

(** Big-endian encoding of [x] on [n] bytes. *)
Fixpoint be_bytes (n : nat) (x : Z) : list Z :=
  match n with
  | O => []
  | S n' => be_bytes n' (Z.shiftr x 8) ++ [x mod 256]
  end.

Definition pad (msg : list Z) : list Z :=
  let len := Z.of_nat (List.length msg) in
  let zeros := Z.to_nat ((55 - len) mod 64) in
  msg ++ [0x80] ++ repeat 0 zeros ++ be_bytes 8 ((8 * len) mod 2 ^ 64).

Fixpoint words (bs : list Z) : list Z :=
  match bs with
  | b0 :: b1 :: b2 :: b3 :: rest =>
      (Z.shiftl b0 24 + Z.shiftl b1 16 + Z.shiftl b2 8 + b3) :: words rest
  | _ => []
  end.

Fixpoint expand (n : nat) (w : list Z) : list Z :=
  match n with
  | O => w
  | S n' =>
      let t := List.length w in
      let wt := add (add (sigma1 (nth (t - 2) w 0)) (nth (t - 7) w 0))
                    (add (sigma0 (nth (t - 15) w 0)) (nth (t - 16) w 0)) in
      expand n' (w ++ [wt])
  end.

Definition round (s : state) (kw : Z * Z) : state :=
  let (k, w) := kw in
  let t1 := add (add (add (hh s) (Sigma1 (he s))) (add (Ch (he s) (hf s) (hg s)) k)) w in
  let t2 := add (Sigma0 (ha s)) (Maj (ha s) (hb s) (hc s)) in
  State (add t1 t2) (ha s) (hb s) (hc s) (add (hd s) t1) (he s) (hf s) (hg s).

Definition compress (h : state) (block : list Z) : state :=
  let w := expand 48 (words block) in
  let s := fold_left round (combine K w) h in
  State (add (ha h) (ha s)) (add (hb h) (hb s)) (add (hc h) (hc s)) (add (hd h) (hd s))
        (add (he h) (he s)) (add (hf h) (hf s)) (add (hg h) (hg s)) (add (hh h) (hh s)).

(** The padded message is consumed in blocks of 64 bytes. *)
Fixpoint blocks (n : nat) (h : state) (bs : list Z) : state :=
  match n with
  | O => h
  | S n' => blocks n' (compress h (firstn 64 bs)) (skipn 64 bs)
  end.

Definition digest (msg : list Z) : state :=
  let p := pad msg in
  blocks (List.length p / 64) H0 p.

Definition hexdigit (x : Z) : ascii :=
  let d := x mod 16 in
  ascii_of_N (Z.to_N (if d <? 10 then 48 + d else 87 + d)).

Definition hex8 (w : Z) (tail : string) : string :=
  String (hexdigit (Z.shiftr w 28)) (String (hexdigit (Z.shiftr w 24))
  (String (hexdigit (Z.shiftr w 20)) (String (hexdigit (Z.shiftr w 16))
  (String (hexdigit (Z.shiftr w 12)) (String (hexdigit (Z.shiftr w 8))
  (String (hexdigit (Z.shiftr w 4)) (String (hexdigit w) tail))))))).

Definition hex_of_state (s : state) : string :=
  hex8 (ha s) (hex8 (hb s) (hex8 (hc s) (hex8 (hd s)
  (hex8 (he s) (hex8 (hf s) (hex8 (hg s) (hex8 (hh s) EmptyString))))))).

(** [hashlib.sha256(data).hexdigest()] *)
Definition hexdigest (data : string) : string :=
  hex_of_state (digest (bytes_of_string data)).

End SHA256.

(** ** Dataclasses and table rows *)

Module Ballot.
Record t := mk {
  id : string;
  title : string;
  description : string;
  options : list string;
  start_time : string;
  end_time : string;
  is_active : bool;
  created_at : string
}.
End Ballot.

Module Vote.
Record t := mk {
  id : string;
  voter_id : string;
  ballot_id : string;
  choice : string;
  timestamp : string;
  signature : string
}.
End Vote.

(** A row of the table [eligible_voters]. *)
Module EligibleVoter.
Record t := mk {
  voter_id : string;
  ballot_id : string;
  registered_at : string
}.
End EligibleVoter.

(** The rows of the three tables created by [init_db]. *)
Record store := Store {
  ballots : list Ballot.t;
  votes : list Vote.t;
  eligible_voters : list EligibleVoter.t
}.

Definition empty_store : store := Store [] [] [].

(** ** Exceptions *)

(** The argument of each [raise ValueError(...)] of the source, before it is
    formatted; [message_text] gives the text. *)
Inductive message :=
| TooFewOptions
| BallotNotFound (ballot_id : string)
| BallotClosed (ballot_id : string)
| WindowNotOpened
| WindowClosed
| InvalidChoice (choice : string) (options : list string)
| NotRegistered (voter_id ballot_id : string)
| AlreadyVoted (voter_id ballot_id : string)
| MaxOfEmpty
| UnknownFormat (fmt : string).

(** [ValueError] is raised by the source itself; [IntegrityError] is
    [sqlite3.IntegrityError], raised by an INSERT that violates a PRIMARY KEY
    or UNIQUE constraint (its text names the constraint and is not kept). *)
Inductive exn :=
| ValueError (msg : message)
| IntegrityError.

Section MessageText.

(** Python's [repr] of a list of [str], used by one f-string only. *)
Variable repr : list string -> string.

Definition message_text (m : message) : string :=
  match m with
  | TooFewOptions => "A ballot must have at least 2 options."
  | BallotNotFound b => "Ballot '" ++ b ++ "' not found."
  | BallotClosed b => "Ballot '" ++ b ++ "' is closed."
  | WindowNotOpened => "Voting window has not opened yet."
  | WindowClosed => "Voting window has closed."
  | InvalidChoice c opts => "Invalid choice '" ++ c ++ "'. Valid: " ++ repr opts
  | NotRegistered v b =>
      "Voter '" ++ v ++ "' is not registered for ballot '" ++ b ++ "'."
  | AlreadyVoted v b =>
      "Voter '" ++ v ++ "' has already voted on ballot '" ++ b ++ "'."
  | MaxOfEmpty => "max() arg is an empty sequence"
  | UnknownFormat f => "Unknown format '" ++ f ++ "'. Use 'json' or 'csv'."
  end%string.

(** [str(exc)] for the exceptions raised by the source. *)
Definition exn_text (e : exn) : option string :=
  match e with
  | ValueError m => Some (message_text m)
  | IntegrityError => None
  end.

End MessageText.

(** The error taxonomy of the specification (section 7), as a
    classification of the exceptions of the source.  This definition follows
    the specification's words; the source has no such kinds, only
    [ValueError] with different texts.  A storage constraint violation is
    none of the kinds. *)
Inductive error_kind := NotFound | InvalidInput | InvalidState | Forbidden | Conflict.

Definition spec_error_kind (e : exn) : option error_kind :=
  match e with
  | ValueError (BallotNotFound _) => Some NotFound
  | ValueError TooFewOptions => Some InvalidInput
  | ValueError (InvalidChoice _ _) => Some InvalidInput
  | ValueError (UnknownFormat _) => Some InvalidInput
  | ValueError (BallotClosed _) => Some InvalidState
  | ValueError WindowNotOpened => Some InvalidState
  | ValueError WindowClosed => Some InvalidState
  | ValueError (NotRegistered _ _) => Some Forbidden
  | ValueError (AlreadyVoted _ _) => Some Conflict
  | ValueError MaxOfEmpty => None
  | IntegrityError => None
  end.

(** ** Computations on the database *)

Definition M (A : Type) : Type := store -> (exn + A) * store.

Definition ret {A : Type} (a : A) : M A := fun s => (inr a, s).

Definition raise {A : Type} (e : exn) : M A := fun s => (inl e, s).

Definition bind {A B : Type} (m : M A) (k : A -> M B) : M B :=
  fun s =>
    match m s with
    | (inl e, s') => (inl e, s')
    | (inr a, s') => k a s'
    end.

Declare Scope db_scope.
Delimit Scope db_scope with db.
Notation "x <- m ;; k" := (bind m (fun x => k))
  (at level 61, m at next level, right associativity) : db_scope.
Notation "m ;; k" := (bind m (fun _ => k))
  (at level 61, right associativity) : db_scope.
Local Open Scope db_scope.

(** What another caller commits while this computation is suspended: its
    effect on the store, whatever its outcome. *)
Definition concurrently {A : Type} (other : M A) : M unit :=
  fun s => (inr tt, snd (other s)).

(** ** SQL statements *)

Definition ballot_has_id (ballot_id : string) (b : Ballot.t) : bool :=
  (Ballot.id b =? ballot_id)%string.

Definition vote_of (voter_id ballot_id : string) (v : Vote.t) : bool :=
  (Vote.voter_id v =? voter_id)%string && (Vote.ballot_id v =? ballot_id)%string.

Definition vote_on (ballot_id : string) (v : Vote.t) : bool :=
  (Vote.ballot_id v =? ballot_id)%string.

Definition vote_has_id (vote_id : string) (v : Vote.t) : bool :=
  (Vote.id v =? vote_id)%string.

Definition eligible_of (voter_id ballot_id : string) (e : EligibleVoter.t) : bool :=
  (EligibleVoter.voter_id e =? voter_id)%string
  && (EligibleVoter.ballot_id e =? ballot_id)%string.

(** [SELECT * FROM ballots WHERE id=?] followed by [fetchone()]. *)
Definition select_ballot (ballot_id : string) : M (option Ballot.t) :=
  fun s => (inr (find (ballot_has_id ballot_id) (ballots s)), s).

(** [INSERT INTO ballots VALUES (...)], [id] being the PRIMARY KEY. *)
Definition insert_ballot (b : Ballot.t) : M unit :=
  fun s =>
    if existsb (ballot_has_id (Ballot.id b)) (ballots s)
    then (inl IntegrityError, s)
    else (inr tt, Store (ballots s ++ [b]) (votes s) (eligible_voters s)).

(** [UPDATE ballots SET is_active=0 WHERE id=?] *)
Definition deactivate (ballot_id : string) (b : Ballot.t) : Ballot.t :=
  if ballot_has_id ballot_id b
  then Ballot.mk (Ballot.id b) (Ballot.title b) (Ballot.description b)
                 (Ballot.options b) (Ballot.start_time b) (Ballot.end_time b)
                 false (Ballot.created_at b)
  else b.

Definition update_ballot_inactive (ballot_id : string) : M unit :=
  fun s =>
    (inr tt, Store (map (deactivate ballot_id) (ballots s)) (votes s) (eligible_voters s)).

(** [SELECT 1 FROM eligible_voters WHERE voter_id=? AND ballot_id=?]; the
    result tells whether [fetchone()] returned a row. *)
Definition select_eligible (voter_id ballot_id : string) : M bool :=
  fun s => (inr (existsb (eligible_of voter_id ballot_id) (eligible_voters s)), s).

(** [INSERT OR IGNORE INTO eligible_voters VALUES (?,?,?)], the pair
    [(voter_id, ballot_id)] being the PRIMARY KEY. *)
Definition insert_or_ignore_eligible (e : EligibleVoter.t) : M unit :=
  fun s =>
    if existsb (eligible_of (EligibleVoter.voter_id e) (EligibleVoter.ballot_id e))
               (eligible_voters s)
    then (inr tt, s)
    else (inr tt, Store (ballots s) (votes s) (eligible_voters s ++ [e])).

(** [SELECT 1 FROM votes WHERE voter_id=? AND ballot_id=?] *)
Definition select_vote (voter_id ballot_id : string) : M bool :=
  fun s => (inr (existsb (vote_of voter_id ballot_id) (votes s)), s).

(** [SELECT * FROM votes WHERE ballot_id=?] *)
Definition select_votes (ballot_id : string) : M (list Vote.t) :=
  fun s => (inr (filter (vote_on ballot_id) (votes s)), s).

(** [INSERT INTO votes VALUES (...)]: [id] is the PRIMARY KEY and the table
    has the constraint [UNIQUE(voter_id, ballot_id)]. *)
Definition insert_vote (v : Vote.t) : M unit :=
  fun s =>
    if existsb (vote_has_id (Vote.id v)) (votes s)
       || existsb (vote_of (Vote.voter_id v) (Vote.ballot_id v)) (votes s)
    then (inl IntegrityError, s)
    else (inr tt, Store (ballots s) (votes s ++ [v]) (eligible_voters s)).

(** ** Crypto helpers *)

(** The text that is hashed: [f"{voter_id}:{ballot_id}:{choice}:{timestamp}"]. *)
Definition raw (voter_id ballot_id choice timestamp : string) : string :=
  (voter_id ++ ":" ++ ballot_id ++ ":" ++ choice ++ ":" ++ timestamp)%string.

Definition _sign (voter_id ballot_id choice timestamp : string) : string :=
  SHA256.hexdigest (raw voter_id ballot_id choice timestamp).

Definition verify_vote (vote : Vote.t) : bool :=
  let expected :=
    _sign (Vote.voter_id vote) (Vote.ballot_id vote) (Vote.choice vote) (Vote.timestamp vote) in
  (Vote.signature vote =? expected)%string.

(** ** Core API *)

(** [c in options] for a list of [str]. *)
Definition mem (c : string) (l : list string) : bool := existsb (String.eqb c) l.

(** [str(uuid.uuid4())[:8]] *)
Definition short_id (uuid4 : string) : string := substring 0 8 uuid4.

Definition create_ballot (now uuid4 : string)
    (title description : string) (options : list string)
    (start_time end_time : string) : M Ballot.t :=
  if (List.length options <? 2)%nat then raise (ValueError TooFewOptions)
  else
    let ballot :=
      Ballot.mk (short_id uuid4) title description options start_time end_time true now in
    insert_ballot ballot ;;
    ret ballot.

Definition register_voter (now : string) (voter_id ballot_id : string) : M unit :=
  insert_or_ignore_eligible (EligibleVoter.mk voter_id ballot_id now).

Definition validate_eligibility (voter_id ballot_id : string) : M bool :=
  select_eligible voter_id ballot_id.

(** The body of [cast_vote] up to the construction of the vote: the guards,
    which only read the database. *)
Definition cast_vote_guards (now uuid4 : string)
    (ballot_id voter_id choice : string) : M Vote.t :=
  row <- select_ballot ballot_id ;;
  match row with
  | None => raise (ValueError (BallotNotFound ballot_id))
  | Some ballot =>
      if negb (Ballot.is_active ballot) then raise (ValueError (BallotClosed ballot_id))
      else if (now <? Ballot.start_time ballot)%string then raise (ValueError WindowNotOpened)
      else if (Ballot.end_time ballot <? now)%string then raise (ValueError WindowClosed)
      else if negb (mem choice (Ballot.options ballot))
           then raise (ValueError (InvalidChoice choice (Ballot.options ballot)))
      else
        eligible <- validate_eligibility voter_id ballot_id ;;
        if negb eligible then raise (ValueError (NotRegistered voter_id ballot_id))
        else
          dupe <- select_vote voter_id ballot_id ;;
          if dupe then raise (ValueError (AlreadyVoted voter_id ballot_id))
          else
            let timestamp := now in
            let sig := _sign voter_id ballot_id choice timestamp in
            ret (Vote.mk (short_id uuid4) voter_id ballot_id choice timestamp sig)
  end.

(** [cast_vote]: the guards, then the INSERT and its commit. *)
Definition cast_vote (now uuid4 : string)
    (ballot_id voter_id choice : string) : M Vote.t :=
  vote <- cast_vote_guards now uuid4 ballot_id voter_id choice ;;
  insert_vote vote ;;
  ret vote.

(** [cast_vote] when other callers commit between its last SELECT and its
    INSERT: the connection is in autocommit mode while it reads, so nothing
    holds the database between the two statements. *)
Definition cast_vote_racing {A : Type} (others : M A) (now uuid4 : string)
    (ballot_id voter_id choice : string) : M Vote.t :=
  vote <- cast_vote_guards now uuid4 ballot_id voter_id choice ;;
  concurrently others ;;
  insert_vote vote ;;
  ret vote.

(** ** Tally *)

(** A Python [dict] with [str] keys: the items in insertion order, each key
    once. *)
Definition dict (V : Type) : Type := list (string * V).

Fixpoint dict_get {V : Type} (k : string) (d : dict V) : option V :=
  match d with
  | [] => None
  | (k', v) :: d' => if (k' =? k)%string then Some v else dict_get k d'
  end.

(** [d[k] = v]: an existing key keeps its place, a new key goes last. *)
Fixpoint dict_set {V : Type} (k : string) (v : V) (d : dict V) : dict V :=
  match d with
  | [] => [(k, v)]
  | (k', v') :: d' =>
      if (k' =? k)%string then (k', v) :: d' else (k', v') :: dict_set k v d'
  end.

Definition dict_keys {V : Type} (d : dict V) : list string := map fst d.
Definition dict_values {V : Type} (d : dict V) : list V := map snd d.

(** [{opt: 0 for opt in options}], one item at a time. *)
Definition set_zero (d : dict nat) (opt : string) : dict nat := dict_set opt 0 d.

Definition init_counts (options : list string) : dict nat :=
  fold_left set_zero options [].

(** One turn of the loop over the vote rows:
    [if c in counts: counts[c] += 1]. *)
Definition count_choice (counts : dict nat) (c : string) : dict nat :=
  match dict_get c counts with
  | Some n => dict_set c (n + 1) counts
  | None => counts
  end.

(** [counts.get], applied to keys of [counts] only. *)
Definition counts_get (counts : dict nat) (k : string) : nat :=
  match dict_get k counts with
  | Some n => n
  | None => 0
  end.

(** [max(first :: rest, key=key)]: the first of the greatest elements. *)
Definition max_by (key : string -> nat) (first : string) (rest : list string) : string :=
  fold_left (fun best x => if (key best <? key x)%nat then x else best) rest first.

(** A percentage is kept as the expression the source evaluates, floating
    point arithmetic is not computed: either the literal [0.0] or
    [round(num / den, 2)]. *)
Inductive pyfloat :=
| FloatZero
| Round2 (num den : nat).

Module Summary.
Record t := mk {
  ballot_id : string;
  title : string;
  total_votes : nat;
  counts : dict nat;
  percentages : dict pyfloat;
  winner : option string
}.
End Summary.

Definition percentage (total cnt : nat) : pyfloat :=
  if (total =? 0)%nat then FloatZero else Round2 (100 * cnt) total.

Definition tally (ballot_id : string) : M Summary.t :=
  row <- select_ballot ballot_id ;;
  match row with
  | None => raise (ValueError (BallotNotFound ballot_id))
  | Some ballot =>
      vrows <- select_votes ballot_id ;;
      let counts :=
        fold_left count_choice (map Vote.choice vrows) (init_counts (Ballot.options ballot)) in
      let total := list_sum (dict_values counts) in
      let percentages := map (fun '(opt, cnt) => (opt, percentage total cnt)) counts in
      winner <-
        (if (total =? 0)%nat then ret None
         else match dict_keys counts with
              | [] => raise (ValueError MaxOfEmpty)
              | k :: ks => ret (Some (max_by (counts_get counts) k ks))
              end) ;;
      ret (Summary.mk ballot_id (Ballot.title ballot) total counts percentages winner)
  end.

(** ** Export *)

(** What [export_results] hands to [json.dumps] or, row by row, to
    [csv.writer]; the text these libraries produce is not modelled. *)
Inductive document :=
| JsonDocument (summary : Summary.t) (votes : list Vote.t)
| CsvDocument (rows : list (list string)).

Definition csv_header : list string :=
  ["voter_id"; "ballot_id"; "choice"; "timestamp"; "signature"]%string.

Definition csv_row (v : Vote.t) : list string :=
  [Vote.voter_id v; Vote.ballot_id v; Vote.choice v; Vote.timestamp v; Vote.signature v].

Definition export_results (ballot_id fmt : string) : M document :=
  summary <- tally ballot_id ;;
  votes <- select_votes ballot_id ;;
  if (fmt =? "json")%string then ret (JsonDocument summary votes)
  else if (fmt =? "csv")%string then ret (CsvDocument (csv_header :: map csv_row votes))
  else raise (ValueError (UnknownFormat fmt)).

(** The rows of a CSV document after its header. *)
Definition csv_data_rows (d : document) : list (list string) :=
  match d with
  | CsvDocument (_ :: rows) => rows
  | _ => []
  end.

(** ** Closing and reading ballots *)

Definition close_ballot (ballot_id : string) : M unit :=
  update_ballot_inactive ballot_id.

Definition get_ballot (ballot_id : string) : M (option Ballot.t) :=
  select_ballot ballot_id.

(** ** Runs of the system *)

(** A call of the API, with what it reads from the clock and from the
    random generator. *)
Inductive call :=
| CreateBallot (now uuid4 title description : string) (options : list string)
               (start_time end_time : string)
| RegisterVoter (now voter_id ballot_id : string)
| ValidateEligibility (voter_id ballot_id : string)
| CastVote (now uuid4 ballot_id voter_id choice : string)
| Tally (ballot_id : string)
| ExportResults (ballot_id fmt : string)
| CloseBallot (ballot_id : string)
| GetBallot (ballot_id : string).

(** The store after a call, whether it returned or raised. *)
Definition run (c : call) (s : store) : store :=
  match c with
  | CreateBallot now uuid4 title description options start_time end_time =>
      snd (create_ballot now uuid4 title description options start_time end_time s)
  | RegisterVoter now voter_id ballot_id => snd (register_voter now voter_id ballot_id s)
  | ValidateEligibility voter_id ballot_id => snd (validate_eligibility voter_id ballot_id s)
  | CastVote now uuid4 ballot_id voter_id choice =>
      snd (cast_vote now uuid4 ballot_id voter_id choice s)
  | Tally ballot_id => snd (tally ballot_id s)
  | ExportResults ballot_id fmt => snd (export_results ballot_id fmt s)
  | CloseBallot ballot_id => snd (close_ballot ballot_id s)
  | GetBallot ballot_id => snd (get_ballot ballot_id s)
  end.

(** The stores the API produces from an empty database. *)
Inductive reachable : store -> Prop :=
| reachable_empty : reachable empty_store
| reachable_run : forall c s, reachable s -> reachable (run c s).

(** ** Properties of a store *)

(** The pair of columns under the constraint [UNIQUE(voter_id, ballot_id)]. *)
Definition vote_key (v : Vote.t) : string * string := (Vote.voter_id v, Vote.ballot_id v).

(** At most one vote per pair [(voter_id, ballot_id)]. *)
Definition votes_unique (s : store) : Prop := NoDup (map vote_key (votes s)).

(** The number of stored votes of a voter on a ballot. *)
Definition votes_of_pair (voter_id ballot_id : string) (s : store) : nat :=
  List.length (filter (vote_of voter_id ballot_id) (votes s)).

(** The number of stored votes on a ballot for a choice. *)
Definition votes_for (ballot_id choice : string) (s : store) : nat :=
  List.length
    (filter (fun v => (Vote.choice v =? choice)%string) (filter (vote_on ballot_id) (votes s))).

(** Every stored vote is on a stored ballot and for one of its options. *)
Definition choices_declared (s : store) : Prop :=
  forall v, In v (votes s) ->
    exists b, find (ballot_has_id (Vote.ballot_id v)) (ballots s) = Some b
              /\ In (Vote.choice v) (Ballot.options b).


(** The ordered guards of [cast_vote] as the specification lists them
    (section 4.4): each guard with the error kind and the error it reports
    when it is the first to fail.  This definition follows the
    specification's words, to be compared with [cast_vote_guards]. *)
Definition spec_guards (s : store) (now ballot_id voter_id choice : string)
  : list (bool * (error_kind * exn)) :=
  let row := find (ballot_has_id ballot_id) (ballots s) in
  let on_ballot (p : Ballot.t -> bool) :=
    match row with Some b => p b | None => true end in
  let declared := match row with Some b => Ballot.options b | None => [] end in
  [ (match row with Some _ => true | None => false end,
     (NotFound, ValueError (BallotNotFound ballot_id)));
    (on_ballot Ballot.is_active,
     (InvalidState, ValueError (BallotClosed ballot_id)));
    (on_ballot (fun b => (Ballot.start_time b <=? now)%string),
     (InvalidState, ValueError WindowNotOpened));
    (on_ballot (fun b => (now <=? Ballot.end_time b)%string),
     (InvalidState, ValueError WindowClosed));
    (on_ballot (fun b => mem choice (Ballot.options b)),
     (InvalidInput, ValueError (InvalidChoice choice declared)));
    (existsb (eligible_of voter_id ballot_id) (eligible_voters s),
     (Forbidden, ValueError (NotRegistered voter_id ballot_id)));
    (negb (existsb (vote_of voter_id ballot_id) (votes s)),
     (Conflict, ValueError (AlreadyVoted voter_id ballot_id))) ].

(** The error of the first guard that does not hold, if any. *)
Definition first_failure (guards : list (bool * (error_kind * exn)))
  : option (error_kind * exn) :=
  option_map snd (find (fun g => negb (fst g)) guards).

(** An outcome that is an error of the given kind of the specification. *)
Definition fails_with {A : Type} (k : error_kind) (r : (exn + A) * store) : Prop :=
  exists e, fst r = inl e /\ spec_error_kind e = Some k.

(** ** Tampering with a vote *)



(** The sixteen characters of a hexadecimal digest. *)
Definition hex_alphabet : list ascii := list_ascii_of_string "0123456789abcdef".


(** ** A small database used in examples *)

Definition demo_ballot : Ballot.t :=
  Ballot.mk "0a1b2c3d" "Budget" "" ["Yes"; "No"]
            "2026-01-01T00:00:00+00:00" "2026-12-31T00:00:00+00:00" true
            "2025-12-24T08:30:00.250000+00:00".

Definition demo_store : store :=
  Store [demo_ballot] []
        [EligibleVoter.mk "v1" "0a1b2c3d" "2025-12-25T09:00:00.000100+00:00"].

Definition demo_now : string := "2026-06-15T12:00:00.123456+00:00".

(** The same database after voter [v1] has voted. *)
Definition demo_voted : store :=
  snd (cast_vote demo_now "5eed0001-aaaa-4bbb-8ccc-dddddddddddd" "0a1b2c3d" "v1" "Yes"
                 demo_store).

(** A ballot with options [X] and [Y] and one vote for each, the vote for
    [Y] cast first. *)
Definition tie_ballot : Ballot.t :=
  Ballot.mk "71e00001" "Tie" "" ["X"; "Y"]
            "2026-01-01T00:00:00+00:00" "2026-12-31T00:00:00+00:00" true
            "2025-12-24T08:30:00.250000+00:00".

Definition tie_store : store :=
  Store [tie_ballot]
        [Vote.mk "aaaa0001" "v1" "71e00001" "Y" demo_now (_sign "v1" "71e00001" "Y" demo_now);
         Vote.mk "aaaa0002" "v2" "71e00001" "X" demo_now (_sign "v2" "71e00001" "X" demo_now)]
        [EligibleVoter.mk "v1" "71e00001" "2025-12-25T09:00:00.000100+00:00";
         EligibleVoter.mk "v2" "71e00001" "2025-12-25T09:00:01.000100+00:00"].

(** The database of the test suite: a ballot open from one hour ago to two
    hours ahead, created and filled through the API. *)
Definition test_db (options : list string) (voters : list string) : store :=
  fold_left (fun s voter => run (RegisterVoter "2026-06-15T11:30:00.000200+00:00" voter "7e570001") s)
            voters
            (run (CreateBallot "2026-06-15T11:00:00.000100+00:00"
                    "7e570001-aaaa-4bbb-8ccc-dddddddddddd" "Test Vote" "Desc" options
                    "2026-06-15T11:00:00.000000+00:00" "2026-06-15T14:00:00.000000+00:00")
                 empty_store).

(** What relates a ballot to itself after [close_ballot ballot_id]: only the
    flag of the ballot of that id may differ, and it is then false. *)
Definition closed_from (ballot_id : string) (b b' : Ballot.t) : Prop :=
  Ballot.id b' = Ballot.id b
  /\ Ballot.title b' = Ballot.title b
  /\ Ballot.description b' = Ballot.description b
  /\ Ballot.options b' = Ballot.options b
  /\ Ballot.start_time b' = Ballot.start_time b
  /\ Ballot.end_time b' = Ballot.end_time b
  /\ Ballot.created_at b' = Ballot.created_at b
  /\ Ballot.is_active b' = (if (Ballot.id b =? ballot_id)%string then false
                            else Ballot.is_active b).

(** ** Verifying the stored signatures *)

(** What [cmd_verify] reports: either every vote of the ballot verifies (it
    prints their number and returns), or it prints the invalid votes one by
    one and exits with status 1. *)
Inductive verify_report :=
| AllVerified (n : nat)
| InvalidVotes (invalid : list Vote.t).

Definition cmd_verify (ballot_id : string) : M verify_report :=
  votes <- select_votes ballot_id ;;
  let invalid := filter (fun v => negb (verify_vote v)) votes in
  match invalid with
  | [] => ret (AllVerified (List.length votes))
  | _ :: _ => ret (InvalidVotes invalid)
  end.

(** ** Sequences of calls *)

(** The store after the calls of [cs], in order. *)
Definition run_all (cs : list call) (s : store) : store :=
  fold_left (fun s c => run c s) cs s.

(** [b'] is [b] except, possibly, for its flag, which no call sets back to
    true. *)
Definition same_ballot_later (b b' : Ballot.t) : Prop :=
  Ballot.id b' = Ballot.id b
  /\ Ballot.title b' = Ballot.title b
  /\ Ballot.description b' = Ballot.description b
  /\ Ballot.options b' = Ballot.options b
  /\ Ballot.start_time b' = Ballot.start_time b
  /\ Ballot.end_time b' = Ballot.end_time b
  /\ Ballot.created_at b' = Ballot.created_at b
  /\ (Ballot.is_active b' = true -> Ballot.is_active b = true).

(** The key of the table [eligible_voters]. *)
Definition eligible_key (e : EligibleVoter.t) : string * string :=
  (EligibleVoter.voter_id e, EligibleVoter.ballot_id e).

(** A database that satisfies the constraints of [init_db] and holds, on the
    ballot with options [Yes] and [No], a vote for [Yes] and a vote for
    [Maybe]: the tables do not constrain [choice], and a row written by
    another program than this one is read by [tally] and [export_results]
    like any other. *)
Definition edited_store : store :=
  Store [demo_ballot]
        [Vote.mk "5eed0001" "v1" "0a1b2c3d" "Yes" demo_now
                 (_sign "v1" "0a1b2c3d" "Yes" demo_now);
         Vote.mk "5eed0002" "v2" "0a1b2c3d" "Maybe" demo_now
                 (_sign "v2" "0a1b2c3d" "Maybe" demo_now)]
        [EligibleVoter.mk "v1" "0a1b2c3d" "2025-12-25T09:00:00.000100+00:00";
         EligibleVoter.mk "v2" "0a1b2c3d" "2025-12-25T09:00:01.000100+00:00"].

(** ** The times of the specification

    The specification speaks of times; the source holds them as the texts
    that [datetime.isoformat] writes and never reads them back.  The
    definitions of this module are the side of the specification, not of the
    source: [spec_instant] is the instant a text
    [YYYY-MM-DDTHH:MM:SS[.ffffff](+|-)HH:MM] denotes, in microseconds since
    the first day of year 1 in UTC, the way [datetime.fromisoformat] reads
    it. *)
Module SpecTime.














End SpecTime.






(** ** Test vectors of the hash *)

Example sha256_constants :
  List.length SHA256.K = 64
  /\ hd 0%Z SHA256.K = 0x428a2f98%Z /\ last SHA256.K 0%Z = 0xc67178f2%Z
  /\ SHA256.ha SHA256.H0 = 0x6a09e667%Z /\ SHA256.hh SHA256.H0 = 0x5be0cd19%Z.
Proof. vm_compute. repeat split. Qed.

Example sha256_empty :
  SHA256.hexdigest "" =
  "e3b0c44298fc1c149afbf4c8996fb92427ae41e4649b934ca495991b7852b855"%string.
Proof. vm_compute. reflexivity. Qed.

Example sha256_abc :
  SHA256.hexdigest "abc" =
  "ba7816bf8f01cfea414140de5dae2223b00361a396177a9cb410ff61f20015ad"%string.
Proof. vm_compute. reflexivity. Qed.

Example sha256_two_blocks :
  SHA256.hexdigest "abcdbcdecdefdefgefghfghighijhijkijkljklmklmnlmnomnopnopq" =
  "248d6a61d20638b8e5c026930c3e6039a33ce45964ff2167f6ecedd419db06c1"%string.
Proof. vm_compute. reflexivity. Qed.

(** ** Basic facts *)

Lemma ltb_is_not_leb (a b : string) : (a <? b)%string = negb (b <=? a)%string.
Proof.
  unfold String.ltb, String.leb.
  rewrite (String.compare_antisym a b).
  destruct (String.compare b a); reflexivity.
Qed.

Lemma leb_refl (a : string) : (a <=? a)%string = true.
Proof.
  unfold String.leb.
  assert (H : String.compare a a = Eq).
  { induction a as [|c a IH]; [reflexivity|].
    simpl. unfold Ascii.compare. rewrite N.compare_refl. exact IH. }
  rewrite H. reflexivity.
Qed.

Ltac unfold_db :=
  unfold cast_vote, cast_vote_racing, cast_vote_guards, create_ballot, register_voter,
    validate_eligibility, tally, export_results, close_ballot, get_ballot,
    concurrently, bind, ret, raise, select_ballot, insert_ballot, update_ballot_inactive,
    select_eligible, insert_or_ignore_eligible, select_vote, select_votes, insert_vote in *.

(** The guards of [cast_vote] never write. *)
Lemma cast_vote_guards_store (now uuid4 ballot_id voter_id choice : string) (s : store) :
  snd (cast_vote_guards now uuid4 ballot_id voter_id choice s) = s.
Proof.
  unfold_db.
  destruct (find (ballot_has_id ballot_id) (ballots s)) as [b|]; [|reflexivity].
  destruct (Ballot.is_active b); [|reflexivity]. cbn [negb].
  destruct (now <? Ballot.start_time b)%string; [reflexivity|].
  destruct (Ballot.end_time b <? now)%string; [reflexivity|].
  destruct (mem choice (Ballot.options b)); [|reflexivity]. cbn [negb].
  destruct (existsb (eligible_of voter_id ballot_id) (eligible_voters s)); [|reflexivity].
  cbn [negb].
  destruct (existsb (vote_of voter_id ballot_id) (votes s)); reflexivity.
Qed.

(** A rejected INSERT changes nothing. *)
Lemma insert_vote_failure (v : Vote.t) (s s' : store) (e : exn) :
  insert_vote v s = (inl e, s') -> e = IntegrityError /\ s' = s.
Proof.
  unfold insert_vote.
  destruct (_ || _); intros H; inversion H; auto.
Qed.

Lemma cast_vote_unfold (now uuid4 ballot_id voter_id choice : string) (s : store) :
  cast_vote now uuid4 ballot_id voter_id choice s =
  match fst (cast_vote_guards now uuid4 ballot_id voter_id choice s) with
  | inl e => (inl e, s)
  | inr v =>
      match insert_vote v s with
      | (inl e, s') => (inl e, s')
      | (inr _, s') => (inr v, s')
      end
  end.
Proof.
  unfold cast_vote, bind, ret.
  pose proof (cast_vote_guards_store now uuid4 ballot_id voter_id choice s) as Hs.
  destruct (cast_vote_guards now uuid4 ballot_id voter_id choice s) as [[e|v] s0];
    simpl in *; subst s0; [reflexivity|].
  destruct (insert_vote v s) as [[e|[]] s']; reflexivity.
Qed.

(** ** C7: a rejected cast leaves the store as it was *)

(** C7. Whenever [cast_vote] raises, whatever the exception, the store after
    the call is the store before it: no vote row, and nothing else, is
    written. *)
Theorem cast_vote_failure_leaves_store
    (now uuid4 ballot_id voter_id choice : string) (s s' : store) (e : exn) :
  cast_vote now uuid4 ballot_id voter_id choice s = (inl e, s') -> s' = s.
Proof.
  rewrite cast_vote_unfold.
  destruct (fst (cast_vote_guards now uuid4 ballot_id voter_id choice s)) as [e0|v].
  - intros H. inversion H. reflexivity.
  - destruct (insert_vote v s) as [[e1|u] s1] eqn:Hins.
    + intros H. inversion H. subst.
      apply insert_vote_failure in Hins. tauto.
    + intros H. discriminate H.
Qed.

Lemma cast_vote_failure_leaves_store_witness :
  snd (cast_vote demo_now "7e57ab1e-0000-4000-8000-000000000000"
                 "0a1b2c3d" "v1" "Maybe" demo_store) = demo_store.
Proof.
  apply (cast_vote_failure_leaves_store demo_now "7e57ab1e-0000-4000-8000-000000000000"
           "0a1b2c3d" "v1" "Maybe" demo_store _
           (ValueError (InvalidChoice "Maybe" ["Yes"; "No"]))).
  vm_compute. reflexivity.
Defined.

(** ** C2: the order of the guards *)

(** The guards of the source are those of the specification, in its order. *)
Lemma cast_vote_guards_refine (now uuid4 ballot_id voter_id choice : string) (s : store) :
  fst (cast_vote_guards now uuid4 ballot_id voter_id choice s) =
  match first_failure (spec_guards s now ballot_id voter_id choice) with
  | Some (_, e) => inl e
  | None =>
      inr (Vote.mk (short_id uuid4) voter_id ballot_id choice now
                   (_sign voter_id ballot_id choice now))
  end.
Proof.
  unfold_db. unfold first_failure, spec_guards.
  destruct (find (ballot_has_id ballot_id) (ballots s)) as [b|]; [|reflexivity].
  cbn [find fst negb].
  destruct (Ballot.is_active b); [|reflexivity]. cbn [negb].
  rewrite ltb_is_not_leb.
  destruct (Ballot.start_time b <=? now)%string; [|reflexivity]. cbn [negb].
  rewrite ltb_is_not_leb.
  destruct (now <=? Ballot.end_time b)%string; [|reflexivity]. cbn [negb].
  destruct (mem choice (Ballot.options b)); [|reflexivity]. cbn [negb].
  destruct (existsb (eligible_of voter_id ballot_id) (eligible_voters s)); [|reflexivity].
  cbn [negb].
  destruct (existsb (vote_of voter_id ballot_id) (votes s)); reflexivity.
Qed.

Lemma spec_guards_kinds (s : store) (now ballot_id voter_id choice : string) :
  Forall (fun g => spec_error_kind (snd (snd g)) = Some (fst (snd g)))
         (spec_guards s now ballot_id voter_id choice).
Proof.
  unfold spec_guards. repeat constructor.
Qed.

Lemma first_failure_kind (guards : list (bool * (error_kind * exn))) (k : error_kind) (e : exn) :
  Forall (fun g => spec_error_kind (snd (snd g)) = Some (fst (snd g))) guards ->
  first_failure guards = Some (k, e) -> spec_error_kind e = Some k.
Proof.
  unfold first_failure. intros Hall Hfind.
  destruct (find (fun g => negb (fst g)) guards) as [g|] eqn:Hg; [|discriminate].
  apply find_some in Hg. destruct Hg as [Hin _].
  rewrite Forall_forall in Hall. specialize (Hall g Hin).
  simpl in Hfind. inversion Hfind as [Heq]. rewrite Heq in Hall. exact Hall.
Qed.

Lemma append_cancel_l (p a b : string) : (p ++ a)%string = (p ++ b)%string -> a = b.
Proof.
  induction p as [|c p IH]; simpl; intros H; [exact H|].
  injection H as H. auto.
Qed.

(** The texts of the errors of the guards of one call differ from each
    other, whatever the text [repr] gives for the list of options. *)
Lemma guard_texts_differ (repr : list string -> string)
    (s : store) (now ballot_id voter_id choice : string) :
  NoDup (map (fun g => exn_text repr (snd (snd g)))
             (spec_guards s now ballot_id voter_id choice)).
Proof.
  unfold spec_guards. cbn [map snd exn_text message_text].
  repeat (apply NoDup_cons; [cbn [In]; intros Hin|]); [..|apply NoDup_nil];
    repeat (destruct Hin as [Hin|Hin]); try contradiction;
    injection Hin as Hin; simpl in Hin; try discriminate Hin.
  - repeat (injection Hin as Hin). apply append_cancel_l in Hin. discriminate Hin.
  - repeat (injection Hin as Hin). apply append_cancel_l in Hin. discriminate Hin.
Qed.

(** C2. [cast_vote] checks, in this order, that the ballot exists, that it is
    active, that the time window is open (not before its start, not after its
    end), that the choice is declared, that the voter is eligible and that the
    voter has not voted.  The first guard that fails decides the error, which
    has the kind the specification gives to that guard, and leaves the store
    as it was; when no guard fails the vote is built.  The errors of two
    different guards of a call have different texts, so a caller can tell
    them apart. *)
Theorem cast_vote_guard_order (repr : list string -> string)
    (now uuid4 ballot_id voter_id choice : string) (s : store) :
  let guards := spec_guards s now ballot_id voter_id choice in
  match first_failure guards with
  | Some (kind, e) =>
      cast_vote now uuid4 ballot_id voter_id choice s = (inl e, s)
      /\ spec_error_kind e = Some kind
  | None =>
      cast_vote_guards now uuid4 ballot_id voter_id choice s =
      (inr (Vote.mk (short_id uuid4) voter_id ballot_id choice now
                    (_sign voter_id ballot_id choice now)), s)
  end
  /\ NoDup (map (fun g => exn_text repr (snd (snd g))) guards).
Proof.
  intros guards. split; [|apply guard_texts_differ].
  pose proof (cast_vote_guards_refine now uuid4 ballot_id voter_id choice s) as Href.
  pose proof (cast_vote_guards_store now uuid4 ballot_id voter_id choice s) as Hst.
  fold guards in Href.
  destruct (first_failure guards) as [[kind e]|] eqn:Hff.
  - split.
    + rewrite cast_vote_unfold, Href. reflexivity.
    + eapply first_failure_kind; [apply spec_guards_kinds|exact Hff].
  - destruct (cast_vote_guards now uuid4 ballot_id voter_id choice s) as [r s0].
    simpl in *. subst. reflexivity.
Qed.

Lemma cast_vote_guard_order_witness :
  cast_vote demo_now "7e57ab1e-0000-4000-8000-000000000000" "0a1b2c3d" "v2" "Yes" demo_store
  = (inl (ValueError (NotRegistered "v2" "0a1b2c3d")), demo_store).
Proof.
  exact (proj1 (proj1 (cast_vote_guard_order (fun _ => EmptyString)
                         demo_now "7e57ab1e-0000-4000-8000-000000000000"
                         "0a1b2c3d" "v2" "Yes" demo_store))).
Defined.

(** ** C6: the active flag and the time window *)




(** ** C10: closing a ballot *)

Lemma deactivate_closed_from (ballot_id : string) (b : Ballot.t) :
  closed_from ballot_id b (deactivate ballot_id b).
Proof.
  unfold closed_from, deactivate, ballot_has_id.
  destruct (Ballot.id b =? ballot_id)%string; simpl; repeat split; reflexivity.
Qed.

Lemma deactivate_other (ballot_id : string) (l : list Ballot.t) :
  find (ballot_has_id ballot_id) l = None -> map (deactivate ballot_id) l = l.
Proof.
  induction l as [|b l IH]; simpl; intros H; [reflexivity|].
  unfold deactivate at 1.
  destruct (ballot_has_id ballot_id b); [discriminate H|].
  rewrite IH by exact H. reflexivity.
Qed.

Lemma Forall2_map_r {A : Type} (R : A -> A -> Prop) (f : A -> A) (l : list A) :
  (forall x, R x (f x)) -> Forall2 R l (map f l).
Proof.
  intros H. induction l as [|x l IH]; simpl; constructor; auto.
Qed.

(** C10. [close_ballot] returns normally for every [ballot_id], raising
    nothing.  It leaves the votes and the eligibility records as they were;
    when no ballot has that id it leaves the whole store as it was; otherwise
    the ballots are the same, in the same order, with the same fields, except
    that [is_active] is now false for the ballot of that id. *)
Theorem close_ballot_total (ballot_id : string) (s : store) :
  exists s',
    close_ballot ballot_id s = (inr tt, s')
    /\ votes s' = votes s
    /\ eligible_voters s' = eligible_voters s
    /\ Forall2 (closed_from ballot_id) (ballots s) (ballots s')
    /\ (find (ballot_has_id ballot_id) (ballots s) = None -> s' = s).
Proof.
  unfold_db. eexists. split; [reflexivity|]. simpl.
  repeat split.
  - apply Forall2_map_r. apply deactivate_closed_from.
  - intros H. rewrite (deactivate_other _ _ H). destruct s; reflexivity.
Qed.

Lemma close_ballot_total_witness :
  close_ballot "ffffffff" demo_store = (inr tt, demo_store).
Proof.
  destruct (close_ballot_total "ffffffff" demo_store) as [s' [Hrun [_ [_ [_ Hsame]]]]].
  rewrite Hrun. rewrite (Hsame eq_refl). reflexivity.
Defined.

(** ** C8: creating a ballot *)

(** C8, as stated, fails: with two options and a generated id whose first
    eight characters are the id of a stored ballot, [create_ballot] returns no
    ballot, the INSERT is rejected. *)
Lemma create_ballot_id_collision :
  (2 <= List.length ["Yes"; "No"])%nat
  /\ create_ballot demo_now "0a1b2c3d-1111-4222-8333-444444444444" "Roads" ""
       ["Yes"; "No"] "2026-02-01T00:00:00+00:00" "2026-03-01T00:00:00+00:00" demo_store
     = (inl IntegrityError, demo_store)
  /\ ~ exists b s',
         create_ballot demo_now "0a1b2c3d-1111-4222-8333-444444444444" "Roads" ""
           ["Yes"; "No"] "2026-02-01T00:00:00+00:00" "2026-03-01T00:00:00+00:00" demo_store
         = (inr b, s').
Proof.
  assert (Hrun : create_ballot demo_now "0a1b2c3d-1111-4222-8333-444444444444" "Roads" ""
       ["Yes"; "No"] "2026-02-01T00:00:00+00:00" "2026-03-01T00:00:00+00:00" demo_store
     = (inl IntegrityError, demo_store)) by (vm_compute; reflexivity).
  split; [simpl; lia|]. split; [exact Hrun|].
  intros [b [s' H]]. rewrite Hrun in H. discriminate H.
Qed.

(** C8, amended. With fewer than 2 options [create_ballot] fails with an
    error of kind InvalidInput and the store is unchanged.  With at least 2
    options it takes the first eight characters of the generated UUID as id:
    when no stored ballot has that id it returns, and appends to the stored
    ballots, a ballot with that id, [is_active = true] and exactly the given
    title, description, options, start and end times; when a stored ballot
    has that id the INSERT is rejected with a storage integrity error and the
    store is unchanged. *)
Theorem create_ballot_outcome
    (now uuid4 title description : string) (options : list string)
    (start_time end_time : string) (s : store) :
  ((List.length options < 2)%nat ->
     create_ballot now uuid4 title description options start_time end_time s
     = (inl (ValueError TooFewOptions), s)
     /\ fails_with InvalidInput
          (create_ballot now uuid4 title description options start_time end_time s))
  /\ ((2 <= List.length options)%nat ->
      let b := Ballot.mk (short_id uuid4) title description options
                         start_time end_time true now in
      if existsb (ballot_has_id (short_id uuid4)) (ballots s)
      then create_ballot now uuid4 title description options start_time end_time s
           = (inl IntegrityError, s)
      else create_ballot now uuid4 title description options start_time end_time s
           = (inr b, Store (ballots s ++ [b]) (votes s) (eligible_voters s))
           /\ forall b0, In b0 (ballots s) -> Ballot.id b0 <> Ballot.id b).
Proof.
  split.
  - intros Hlen. apply Nat.ltb_lt in Hlen.
    unfold create_ballot. rewrite Hlen. unfold raise. split; [reflexivity|].
    exists (ValueError TooFewOptions). split; reflexivity.
  - intros Hlen b.
    assert (Hge : (List.length options <? 2)%nat = false) by (apply Nat.ltb_ge; exact Hlen).
    unfold create_ballot. rewrite Hge. unfold_db. fold b. cbn [Ballot.id b].
    destruct (existsb (ballot_has_id (short_id uuid4)) (ballots s)) eqn:Hex; [reflexivity|].
    split; [reflexivity|].
    intros b0 Hin Heq.
    assert (Htrue : existsb (ballot_has_id (short_id uuid4)) (ballots s) = true).
    { apply existsb_exists. exists b0. split; [exact Hin|].
      unfold ballot_has_id. apply String.eqb_eq. exact Heq. }
    rewrite Htrue in Hex. discriminate Hex.
Qed.

Lemma create_ballot_outcome_witness :
  create_ballot demo_now "7e57ab1e-0000-4000-8000-000000000000" "Roads" "" ["Only"]
                "2026-02-01T00:00:00+00:00" "2026-03-01T00:00:00+00:00" demo_store
  = (inl (ValueError TooFewOptions), demo_store)
  /\ exists s',
       create_ballot demo_now "7e57ab1e-0000-4000-8000-000000000000" "Roads" ""
                     ["Yes"; "No"] "2026-02-01T00:00:00+00:00" "2026-03-01T00:00:00+00:00"
                     demo_store
       = (inr (Ballot.mk "7e57ab1e" "Roads" "" ["Yes"; "No"] "2026-02-01T00:00:00+00:00"
                         "2026-03-01T00:00:00+00:00" true demo_now), s').
Proof.
  split.
  - refine (proj1 (proj1 (create_ballot_outcome demo_now
              "7e57ab1e-0000-4000-8000-000000000000" "Roads" "" ["Only"]
              "2026-02-01T00:00:00+00:00" "2026-03-01T00:00:00+00:00" demo_store) _)).
    simpl. lia.
  - eexists.
    refine (proj1 (proj2 (create_ballot_outcome demo_now
              "7e57ab1e-0000-4000-8000-000000000000" "Roads" "" ["Yes"; "No"]
              "2026-02-01T00:00:00+00:00" "2026-03-01T00:00:00+00:00" demo_store) _)).
    simpl. lia.
Defined.

(** ** What each call does to the tables *)

Lemma tally_store (ballot_id : string) (s : store) : snd (tally ballot_id s) = s.
Proof.
  unfold_db.
  destruct (find (ballot_has_id ballot_id) (ballots s)) as [b|]; [|reflexivity].
  destruct (list_sum _ =? 0)%nat; [reflexivity|].
  destruct (dict_keys _); reflexivity.
Qed.

Lemma export_results_store (ballot_id fmt : string) (s : store) :
  snd (export_results ballot_id fmt s) = s.
Proof.
  unfold export_results, bind.
  pose proof (tally_store ballot_id s) as Ht.
  destruct (tally ballot_id s) as [[e|r] s0]; simpl in Ht; subst s0; [reflexivity|].
  unfold select_votes, ret, raise.
  destruct (fmt =? "json")%string; [reflexivity|].
  destruct (fmt =? "csv")%string; reflexivity.
Qed.

Lemma cast_vote_store (now uuid4 ballot_id voter_id choice : string) (s : store) :
  run (CastVote now uuid4 ballot_id voter_id choice) s = s
  \/ exists v b,
       cast_vote now uuid4 ballot_id voter_id choice s
       = (inr v, Store (ballots s) (votes s ++ [v]) (eligible_voters s))
       /\ Vote.voter_id v = voter_id /\ Vote.ballot_id v = ballot_id
       /\ Vote.choice v = choice
       /\ existsb (vote_of voter_id ballot_id) (votes s) = false
       /\ find (ballot_has_id ballot_id) (ballots s) = Some b
       /\ mem choice (Ballot.options b) = true.
Proof.
  cbn [run]. rewrite cast_vote_unfold.
  pose proof (cast_vote_guards_refine now uuid4 ballot_id voter_id choice s) as Href.
  unfold first_failure, spec_guards in Href.
  destruct (find (ballot_has_id ballot_id) (ballots s)) as [b|] eqn:Hfind;
    cbn [find fst negb option_map snd] in Href; [|rewrite Href; left; reflexivity].
  destruct (Ballot.is_active b); cbn [find fst negb option_map snd] in Href;
    [|rewrite Href; left; reflexivity].
  destruct (Ballot.start_time b <=? now)%string; cbn [find fst negb option_map snd] in Href;
    [|rewrite Href; left; reflexivity].
  destruct (now <=? Ballot.end_time b)%string; cbn [find fst negb option_map snd] in Href;
    [|rewrite Href; left; reflexivity].
  destruct (mem choice (Ballot.options b)) eqn:Hmem;
    cbn [find fst negb option_map snd] in Href; [|rewrite Href; left; reflexivity].
  destruct (existsb (eligible_of voter_id ballot_id) (eligible_voters s));
    cbn [find fst negb option_map snd] in Href; [|rewrite Href; left; reflexivity].
  destruct (existsb (vote_of voter_id ballot_id) (votes s)) eqn:Hdupe;
    cbn [find fst negb option_map snd] in Href; [rewrite Href; left; reflexivity|].
  rewrite Href. unfold insert_vote. cbn [Vote.id Vote.voter_id Vote.ballot_id].
  rewrite Hdupe, orb_false_r.
  destruct (existsb (vote_has_id (short_id uuid4)) (votes s)); [left; reflexivity|].
  right. eexists. exists b. split; [reflexivity|]. cbn. repeat split; assumption.
Qed.

Lemma run_votes (c : call) (s : store) :
  votes (run c s) = votes s
  \/ exists v b,
       votes (run c s) = votes s ++ [v]
       /\ existsb (vote_of (Vote.voter_id v) (Vote.ballot_id v)) (votes s) = false
       /\ find (ballot_has_id (Vote.ballot_id v)) (ballots s) = Some b
       /\ mem (Vote.choice v) (Ballot.options b) = true.
Proof.
  destruct c; cbn [run].
  - unfold_db. destruct (_ <? 2)%nat; [left; reflexivity|].
    destruct (existsb _ (ballots s)); left; reflexivity.
  - unfold_db. destruct (existsb _ (eligible_voters s)); left; reflexivity.
  - left. reflexivity.
  - destruct (cast_vote_store now uuid4 ballot_id voter_id choice s)
      as [Hsame | [v [b [Hrun [Hvo [Hb [Hc [Hdupe [Hfind Hmem]]]]]]]]].
    + cbn [run] in Hsame. rewrite Hsame. left. reflexivity.
    + right. exists v, b. rewrite Hrun, Hvo, Hb, Hc. cbn. repeat split; assumption.
  - rewrite tally_store. left. reflexivity.
  - rewrite export_results_store. left. reflexivity.
  - left. reflexivity.
  - left. reflexivity.
Qed.

(** ** C1: at most one vote per voter and ballot *)

Lemma vote_of_key (voter_id ballot_id : string) (v : Vote.t) :
  vote_of voter_id ballot_id v = true <-> vote_key v = (voter_id, ballot_id).
Proof.
  unfold vote_of, vote_key. rewrite andb_true_iff, !String.eqb_eq.
  split; [intros [-> ->]; reflexivity|intros H; inversion H; auto].
Qed.

Lemma no_vote_not_in (voter_id ballot_id : string) (l : list Vote.t) :
  existsb (vote_of voter_id ballot_id) l = false ->
  ~ In (voter_id, ballot_id) (map vote_key l).
Proof.
  intros Hex Hin. apply in_map_iff in Hin. destruct Hin as [v [Hkey Hin]].
  assert (Htrue : existsb (vote_of voter_id ballot_id) l = true).
  { apply existsb_exists. exists v. split; [exact Hin|]. apply vote_of_key. exact Hkey. }
  rewrite Htrue in Hex. discriminate Hex.
Qed.

Lemma NoDup_snoc {A : Type} (l : list A) (x : A) :
  NoDup l -> ~ In x l -> NoDup (l ++ [x]).
Proof.
  intros Hl Hx. induction Hl as [|y l Hy Hl IH]; simpl.
  - constructor; [intros []|constructor].
  - constructor.
    + rewrite in_app_iff. intros [H|[H|[]]]; [contradiction|].
      apply Hx. left. symmetry. exact H.
    + apply IH. intros H. apply Hx. right. exact H.
Qed.

(** The storage constraint alone keeps the votes unique, whatever row a
    caller tries to insert and whatever the caller checked before. *)
Lemma insert_vote_unique (v : Vote.t) (s : store) :
  votes_unique s -> votes_unique (snd (insert_vote v s)).
Proof.
  unfold votes_unique, insert_vote. intros Hs.
  destruct (existsb (vote_has_id (Vote.id v)) (votes s)); cbn [orb snd]; [exact Hs|].
  destruct (existsb (vote_of (Vote.voter_id v) (Vote.ballot_id v)) (votes s)) eqn:Hdupe;
    cbn [snd votes]; [exact Hs|].
  rewrite map_app. apply NoDup_snoc; [exact Hs|].
  apply no_vote_not_in. exact Hdupe.
Qed.

Lemma run_unique (c : call) (s : store) : votes_unique s -> votes_unique (run c s).
Proof.
  unfold votes_unique. intros Hs.
  destruct (run_votes c s) as [Hsame | [v [b [Hadd [Hdupe _]]]]].
  - rewrite Hsame. exact Hs.
  - rewrite Hadd, map_app. apply NoDup_snoc; [exact Hs|].
    apply no_vote_not_in. exact Hdupe.
Qed.

Lemma reachable_unique (s : store) : reachable s -> votes_unique s.
Proof.
  induction 1 as [|c s Hs IH].
  - constructor.
  - apply run_unique. exact IH.
Qed.

Lemma unique_at_most_one (voter_id ballot_id : string) (s : store) :
  votes_unique s -> (votes_of_pair voter_id ballot_id s <= 1)%nat.
Proof.
  unfold votes_unique, votes_of_pair.
  induction (votes s) as [|v l IH]; simpl; intros Hnd; [lia|].
  inversion Hnd as [|k ks Hnotin Hnd']. subst.
  destruct (vote_of voter_id ballot_id v) eqn:Hv; [|auto].
  apply vote_of_key in Hv. rewrite Hv in Hnotin. simpl.
  assert (Hnone : filter (vote_of voter_id ballot_id) l = []).
  { destruct (filter (vote_of voter_id ballot_id) l) as [|w ws] eqn:Hf; [reflexivity|].
    exfalso. apply Hnotin.
    assert (Hw : In w (filter (vote_of voter_id ballot_id) l)) by (rewrite Hf; left; reflexivity).
    apply filter_In in Hw. destruct Hw as [Hin Hw]. apply vote_of_key in Hw.
    rewrite <- Hw. apply in_map. exact Hin. }
  rewrite Hnone. simpl. lia.
Qed.

(** A second cast by a voter who has a stored vote on the ballot never
    succeeds; when the five earlier guards hold the error is the one of the
    sixth. *)
Lemma cast_vote_again (now uuid4 ballot_id voter_id choice : string) (s : store) :
  existsb (vote_of voter_id ballot_id) (votes s) = true ->
  exists e,
    cast_vote now uuid4 ballot_id voter_id choice s = (inl e, s)
    /\ (forall ballot,
          find (ballot_has_id ballot_id) (ballots s) = Some ballot ->
          Ballot.is_active ballot = true ->
          (Ballot.start_time ballot <=? now)%string = true ->
          (now <=? Ballot.end_time ballot)%string = true ->
          mem choice (Ballot.options ballot) = true ->
          existsb (eligible_of voter_id ballot_id) (eligible_voters s) = true ->
          e = ValueError (AlreadyVoted voter_id ballot_id)).
Proof.
  intros Hdupe.
  destruct (cast_vote_store now uuid4 ballot_id voter_id choice s)
    as [Hsame | [v [b [_ [_ [_ [_ [Hno _]]]]]]]]; [|rewrite Hno in Hdupe; discriminate Hdupe].
  clear Hsame.
  pose proof (cast_vote_guards_refine now uuid4 ballot_id voter_id choice s) as Href.
  rewrite cast_vote_unfold.
  unfold first_failure, spec_guards in Href. rewrite Hdupe in Href.
  destruct (find (ballot_has_id ballot_id) (ballots s)) as [b|];
    cbn [find fst negb option_map snd] in Href;
    [|rewrite Href; eexists; split; [reflexivity|intros ballot H; discriminate H]].
  destruct (Ballot.is_active b) eqn:Ha; cbn [find fst negb option_map snd] in Href;
    [|rewrite Href; eexists; split; [reflexivity|];
      intros ballot H; inversion H; subst; congruence].
  destruct (Ballot.start_time b <=? now)%string eqn:Hs;
    cbn [find fst negb option_map snd] in Href;
    [|rewrite Href; eexists; split; [reflexivity|];
      intros ballot H; inversion H; subst; congruence].
  destruct (now <=? Ballot.end_time b)%string eqn:He;
    cbn [find fst negb option_map snd] in Href;
    [|rewrite Href; eexists; split; [reflexivity|];
      intros ballot H; inversion H; subst; congruence].
  destruct (mem choice (Ballot.options b)) eqn:Hm;
    cbn [find fst negb option_map snd] in Href;
    [|rewrite Href; eexists; split; [reflexivity|];
      intros ballot H; inversion H; subst; congruence].
  destruct (existsb (eligible_of voter_id ballot_id) (eligible_voters s)) eqn:Hel;
    cbn [find fst negb option_map snd] in Href;
    [|rewrite Href; eexists; split; [reflexivity|];
      intros ballot H; inversion H; subst; congruence].
  rewrite Href. eexists. split; [reflexivity|]. intros. reflexivity.
Qed.

(** A duplicate that appears between the guards and the INSERT is rejected by
    the table's constraint: the call raises the storage error. *)
Lemma cast_vote_racing_duplicate {A : Type} (others : M A)
    (now uuid4 ballot_id voter_id choice : string) (s : store) (v : Vote.t) :
  cast_vote_guards now uuid4 ballot_id voter_id choice s = (inr v, s) ->
  existsb (vote_of voter_id ballot_id) (votes (snd (others s))) = true ->
  cast_vote_racing others now uuid4 ballot_id voter_id choice s
  = (inl IntegrityError, snd (others s)).
Proof.
  intros Hguards Hdupe.
  pose proof (cast_vote_guards_refine now uuid4 ballot_id voter_id choice s) as Href.
  rewrite Hguards in Href. cbn [fst] in Href.
  destruct (first_failure _) as [[k e]|]; [discriminate Href|].
  inversion Href as [Hv]. clear Href.
  unfold cast_vote_racing, bind, concurrently. rewrite Hguards.
  unfold insert_vote. rewrite Hv. cbn [Vote.id Vote.voter_id Vote.ballot_id].
  rewrite Hdupe, orb_true_r. reflexivity.
Qed.

(** C1, as stated, fails: two calls for the same voter and ballot, the second
    of which commits between the guards and the INSERT of the first.  The
    first passed its check on a store without a vote of the pair; its INSERT
    is rejected by the constraint, and what the caller gets is the storage
    error, not the error of kind Conflict. *)
Lemma duplicate_at_commit_is_storage_error :
  let second :=
    cast_vote demo_now "5eed0002-aaaa-4bbb-8ccc-dddddddddddd" "0a1b2c3d" "v1" "No" in
  let outcome :=
    cast_vote_racing second demo_now "5eed0001-aaaa-4bbb-8ccc-dddddddddddd"
                     "0a1b2c3d" "v1" "Yes" demo_store in
  existsb (vote_of "v1" "0a1b2c3d") (votes demo_store) = false
  /\ existsb (vote_of "v1" "0a1b2c3d") (votes (snd (second demo_store))) = true
  /\ fst outcome = inl IntegrityError
  /\ ~ fails_with Conflict outcome.
Proof.
  intros second outcome.
  assert (Hout : fst outcome = inl IntegrityError) by (vm_compute; reflexivity).
  split; [reflexivity|]. split; [vm_compute; reflexivity|]. split; [exact Hout|].
  intros [e [He Hkind]]. rewrite Hout in He. inversion He. subst e. discriminate Hkind.
Qed.

(** C1, amended. In every store the API reaches from an empty database there
    is at most one vote per voter and ballot; every call keeps the votes
    unique, and so does the INSERT of any row at any time, because the table's
    constraint rejects a second row of a pair.  A [cast_vote] for a pair that
    has a stored vote when the call checks it never succeeds and leaves the
    store as it was; when the five earlier guards hold, its error is the one
    of kind Conflict ("already voted").  When the duplicate appears only after
    the check, the INSERT is rejected with the storage integrity error, which
    is what the caller receives, and no row is added. *)
Theorem vote_uniqueness :
  (forall s, reachable s ->
     votes_unique s /\ forall voter_id ballot_id, (votes_of_pair voter_id ballot_id s <= 1)%nat)
  /\ (forall c s, votes_unique s -> votes_unique (run c s))
  /\ (forall v s, votes_unique s -> votes_unique (snd (insert_vote v s)))
  /\ (forall now uuid4 ballot_id voter_id choice s,
        existsb (vote_of voter_id ballot_id) (votes s) = true ->
        exists e,
          cast_vote now uuid4 ballot_id voter_id choice s = (inl e, s)
          /\ (forall ballot,
                find (ballot_has_id ballot_id) (ballots s) = Some ballot ->
                Ballot.is_active ballot = true ->
                (Ballot.start_time ballot <=? now)%string = true ->
                (now <=? Ballot.end_time ballot)%string = true ->
                mem choice (Ballot.options ballot) = true ->
                existsb (eligible_of voter_id ballot_id) (eligible_voters s) = true ->
                e = ValueError (AlreadyVoted voter_id ballot_id)
                /\ spec_error_kind e = Some Conflict))
  /\ (forall (A : Type) (others : M A) now uuid4 ballot_id voter_id choice s v,
        cast_vote_guards now uuid4 ballot_id voter_id choice s = (inr v, s) ->
        existsb (vote_of voter_id ballot_id) (votes (snd (others s))) = true ->
        cast_vote_racing others now uuid4 ballot_id voter_id choice s
        = (inl IntegrityError, snd (others s))).
Proof.
  split; [|split; [|split; [|split]]].
  - intros s Hs. pose proof (reachable_unique s Hs) as Hu.
    split; [exact Hu|]. intros. apply unique_at_most_one. exact Hu.
  - apply run_unique.
  - apply insert_vote_unique.
  - intros now uuid4 ballot_id voter_id choice s Hdupe.
    destruct (cast_vote_again now uuid4 ballot_id voter_id choice s Hdupe) as [e [Hrun He]].
    exists e. split; [exact Hrun|].
    intros ballot H1 H2 H3 H4 H5 H6.
    rewrite (He ballot H1 H2 H3 H4 H5 H6). split; reflexivity.
  - intros. apply cast_vote_racing_duplicate with (v := v); assumption.
Qed.

Lemma vote_uniqueness_witness :
  cast_vote demo_now "5eed0002-aaaa-4bbb-8ccc-dddddddddddd" "0a1b2c3d" "v1" "No" demo_voted
  = (inl (ValueError (AlreadyVoted "v1" "0a1b2c3d")), demo_voted).
Proof.
  destruct (proj1 (proj2 (proj2 (proj2 vote_uniqueness)))
              demo_now "5eed0002-aaaa-4bbb-8ccc-dddddddddddd" "0a1b2c3d" "v1" "No"
              demo_voted) as [e [Hrun He]].
  - vm_compute. reflexivity.
  - rewrite Hrun.
    destruct (He demo_ballot) as [-> _]; vm_compute; reflexivity.
Defined.

(** ** Dictionaries *)

Section Dict.

Context {V : Type}.
Implicit Types (d : dict V) (k : string) (v : V).

Lemma dict_get_set_same d k v : dict_get k (dict_set k v d) = Some v.
Proof.
  induction d as [|[k' v'] d IH]; simpl.
  - rewrite String.eqb_refl. reflexivity.
  - destruct (k' =? k)%string eqn:Hk; simpl; rewrite Hk; auto.
Qed.

Lemma dict_get_set_other d k k' v : k <> k' -> dict_get k' (dict_set k v d) = dict_get k' d.
Proof.
  intros Hne. induction d as [|[k0 v0] d IH]; simpl.
  - apply String.eqb_neq in Hne. rewrite Hne. reflexivity.
  - destruct (k0 =? k)%string eqn:Hk; simpl.
    + apply String.eqb_eq in Hk. subst k0.
      apply String.eqb_neq in Hne. rewrite Hne. reflexivity.
    + destruct (k0 =? k')%string; auto.
Qed.

Lemma dict_get_in d k : In k (dict_keys d) <-> exists v, dict_get k d = Some v.
Proof.
  induction d as [|[k0 v0] d IH]; simpl.
  - split; [intros []|intros [v H]; discriminate H].
  - destruct (k0 =? k)%string eqn:Hk.
    + apply String.eqb_eq in Hk. split; [eauto|auto].
    + apply String.eqb_neq in Hk. rewrite <- IH. tauto.
Qed.

Lemma dict_get_none d k : ~ In k (dict_keys d) <-> dict_get k d = None.
Proof.
  rewrite dict_get_in. destruct (dict_get k d) as [v|].
  - split; [intros H; exfalso; eauto|discriminate].
  - split; [reflexivity|intros _ [v H]; discriminate H].
Qed.

Lemma dict_keys_set_old d k v :
  In k (dict_keys d) -> dict_keys (dict_set k v d) = dict_keys d.
Proof.
  induction d as [|[k0 v0] d IH]; simpl; [intros []|].
  destruct (k0 =? k)%string eqn:Hk; simpl; [reflexivity|].
  apply String.eqb_neq in Hk. intros [H|H]; [contradiction|].
  rewrite IH by exact H. reflexivity.
Qed.

Lemma dict_keys_set_new d k v :
  ~ In k (dict_keys d) -> dict_keys (dict_set k v d) = dict_keys d ++ [k].
Proof.
  induction d as [|[k0 v0] d IH]; simpl; [reflexivity|].
  intros Hnot. destruct (k0 =? k)%string eqn:Hk; simpl.
  - apply String.eqb_eq in Hk. exfalso. apply Hnot. left. exact Hk.
  - rewrite IH; [reflexivity|]. intros H. apply Hnot. right. exact H.
Qed.

Lemma dict_get_map {W : Type} (f : V -> W) d k :
  dict_get k (map (fun '(k0, v0) => (k0, f v0)) d) = option_map f (dict_get k d).
Proof.
  induction d as [|[k0 v0] d IH]; simpl; [reflexivity|].
  destruct (k0 =? k)%string; [reflexivity|exact IH].
Qed.

End Dict.

Lemma in_dec_keys (k : string) (l : list string) : {In k l} + {~ In k l}.
Proof. apply in_dec. apply string_dec. Qed.

(** *** The dictionary of zero counts *)

Lemma init_counts_fold (options : list string) :
  init_counts options = fold_left set_zero options [].
Proof. reflexivity. Qed.

Lemma set_zero_keys_in (l : list string) (d : dict nat) (k : string) :
  In k (dict_keys (fold_left set_zero l d)) <-> In k (dict_keys d) \/ In k l.
Proof.
  revert d. induction l as [|o l IH]; intros d; simpl; [tauto|].
  rewrite IH. unfold set_zero.
  destruct (in_dec_keys o (dict_keys d)) as [Hin|Hnot].
  - rewrite dict_keys_set_old by exact Hin.
    split; [tauto|]. intros [H|[H|H]]; subst; auto.
  - rewrite dict_keys_set_new by exact Hnot. rewrite in_app_iff. simpl.
    split; [tauto|]. tauto.
Qed.

Lemma set_zero_keys_grow (l : list string) (d : dict nat) :
  exists ext, dict_keys (fold_left set_zero l d) = dict_keys d ++ ext.
Proof.
  revert d. induction l as [|o l IH]; intros d; simpl.
  - exists []. rewrite app_nil_r. reflexivity.
  - destruct (IH (set_zero d o)) as [ext Hext]. rewrite Hext. unfold set_zero.
    destruct (in_dec_keys o (dict_keys d)) as [Hin|Hnot].
    + rewrite dict_keys_set_old by exact Hin. exists ext. reflexivity.
    + rewrite dict_keys_set_new by exact Hnot. exists (o :: ext).
      rewrite <- app_assoc. reflexivity.
Qed.

Lemma set_zero_keys_nodup (l : list string) (d : dict nat) :
  NoDup (dict_keys d) -> NoDup (dict_keys (fold_left set_zero l d)).
Proof.
  revert d. induction l as [|o l IH]; intros d Hd; simpl; [exact Hd|].
  apply IH. unfold set_zero.
  destruct (in_dec_keys o (dict_keys d)) as [Hin|Hnot].
  - rewrite dict_keys_set_old by exact Hin. exact Hd.
  - rewrite dict_keys_set_new by exact Hnot. apply NoDup_snoc; assumption.
Qed.

Lemma set_zero_values (l : list string) (d : dict nat) :
  Forall (fun n => n = 0) (dict_values d) ->
  Forall (fun n => n = 0) (dict_values (fold_left set_zero l d)).
Proof.
  revert d. induction l as [|o l IH]; intros d Hd; simpl; [exact Hd|].
  apply IH. unfold set_zero. clear IH.
  induction d as [|[k n] d IHd]; simpl in *.
  - constructor; [reflexivity|constructor].
  - inversion Hd as [|n0 ns Hn Hns]. subst.
    destruct (k =? o)%string; simpl; constructor; auto.
Qed.

Lemma init_counts_get (options : list string) (o : string) :
  In o options -> dict_get o (init_counts options) = Some 0.
Proof.
  intros Hin. rewrite init_counts_fold.
  assert (Hkey : In o (dict_keys (fold_left set_zero options []))).
  { apply set_zero_keys_in. right. exact Hin. }
  apply dict_get_in in Hkey. destruct Hkey as [n Hn]. rewrite Hn. f_equal.
  pose proof (set_zero_values options [] (Forall_nil _)) as Hall.
  rewrite Forall_forall in Hall. apply Hall.
  unfold dict_values. clear Hall Hin.
  induction (fold_left set_zero options []) as [|[k m] d IH]; simpl in *; [discriminate Hn|].
  destruct (k =? o)%string; [left; congruence|right; auto].
Qed.

Lemma list_sum_zero (l : list nat) : Forall (fun n => n = 0) l -> list_sum l = 0.
Proof.
  induction 1 as [|n l Hn Hl IH]; simpl; [reflexivity|]. subst. exact IH.
Qed.

(** ** C5: the tally of a ballot without votes *)

(** C5. For an existing ballot without any stored vote, [tally] returns
    [total_votes = 0] and no winner; every declared option has an entry 0 in
    [counts] and an entry [0.0] in [percentages], and there are no other
    entries. *)
Theorem tally_no_votes (ballot_id : string) (s : store) (ballot : Ballot.t) :
  find (ballot_has_id ballot_id) (ballots s) = Some ballot ->
  filter (vote_on ballot_id) (votes s) = [] ->
  exists r,
    tally ballot_id s = (inr r, s)
    /\ Summary.total_votes r = 0
    /\ Summary.winner r = None
    /\ (forall o, In o (Ballot.options ballot) ->
          dict_get o (Summary.counts r) = Some 0
          /\ dict_get o (Summary.percentages r) = Some FloatZero)
    /\ (forall o n, In (o, n) (Summary.counts r) -> n = 0 /\ In o (Ballot.options ballot))
    /\ (forall o p, In (o, p) (Summary.percentages r) ->
          p = FloatZero /\ In o (Ballot.options ballot)).
Proof.
  intros Hfind Hnone.
  assert (Hzero : Forall (fun n => n = 0) (dict_values (init_counts (Ballot.options ballot)))).
  { rewrite init_counts_fold. apply set_zero_values. constructor. }
  assert (Hkeys : forall o, In o (dict_keys (init_counts (Ballot.options ballot))) ->
                            In o (Ballot.options ballot)).
  { intros o Ho. rewrite init_counts_fold in Ho. apply set_zero_keys_in in Ho.
    destruct Ho as [[]|Ho]. exact Ho. }
  unfold_db. rewrite Hfind, Hnone. cbn [map fold_left].
  rewrite (list_sum_zero _ Hzero). cbn [Nat.eqb].
  eexists. split; [reflexivity|]. cbn.
  split; [reflexivity|]. split; [reflexivity|].
  split; [|split].
  - intros o Ho. split; [apply init_counts_get; exact Ho|].
    rewrite (dict_get_map (percentage 0)), (init_counts_get _ _ Ho). reflexivity.
  - intros o n Hin. split.
    + rewrite Forall_forall in Hzero. apply Hzero.
      unfold dict_values. apply (in_map snd) in Hin. exact Hin.
    + apply Hkeys. unfold dict_keys. apply (in_map fst) in Hin. exact Hin.
  - intros o p Hin. apply in_map_iff in Hin. destruct Hin as [[k n] [Heq Hin]].
    inversion Heq. subst. split; [reflexivity|].
    apply Hkeys. unfold dict_keys. apply (in_map fst) in Hin. exact Hin.
Qed.

Lemma tally_no_votes_witness :
  exists r, tally "0a1b2c3d" demo_store = (inr r, demo_store)
            /\ Summary.total_votes r = 0 /\ Summary.winner r = None.
Proof.
  destruct (tally_no_votes "0a1b2c3d" demo_store demo_ballot eq_refl eq_refl)
    as [r [Hrun [Htotal [Hwin _]]]].
  exists r. auto.
Defined.

(** ** Counting the votes *)

Lemma count_choice_keys (d : dict nat) (c : string) :
  dict_keys (count_choice d c) = dict_keys d.
Proof.
  unfold count_choice. destruct (dict_get c d) as [n|] eqn:Hget; [|reflexivity].
  apply dict_keys_set_old. apply dict_get_in. eauto.
Qed.

Lemma count_choice_get (d : dict nat) (c o : string) :
  dict_get o (count_choice d c) =
  if (c =? o)%string then option_map (fun n => n + 1) (dict_get o d) else dict_get o d.
Proof.
  unfold count_choice. destruct (c =? o)%string eqn:Hco.
  - apply String.eqb_eq in Hco. subst o.
    destruct (dict_get c d) as [n|] eqn:Hget; simpl.
    + apply dict_get_set_same.
    + exact Hget.
  - apply String.eqb_neq in Hco.
    destruct (dict_get c d) as [n|]; [|reflexivity].
    apply dict_get_set_other. exact Hco.
Qed.

Lemma mem_in (c : string) (l : list string) : mem c l = true <-> In c l.
Proof.
  unfold mem. rewrite existsb_exists. split.
  - intros [x [Hin Heq]]. apply String.eqb_eq in Heq. subst. exact Hin.
  - intros Hin. exists c. split; [exact Hin|apply String.eqb_refl].
Qed.

Lemma dict_set_sum (d : dict nat) (c : string) (n m : nat) :
  dict_get c d = Some n ->
  list_sum (dict_values (dict_set c m d)) + n = list_sum (dict_values d) + m.
Proof.
  induction d as [|[k v] d IH]; simpl; [discriminate|].
  destruct (k =? c)%string; simpl.
  - intros H. inversion H. lia.
  - intros H. specialize (IH H). lia.
Qed.

Lemma count_choice_sum (d : dict nat) (c : string) :
  list_sum (dict_values (count_choice d c)) =
  list_sum (dict_values d) + (if mem c (dict_keys d) then 1 else 0).
Proof.
  unfold count_choice. destruct (dict_get c d) as [n|] eqn:Hget.
  - assert (Hmem : mem c (dict_keys d) = true).
    { apply mem_in. apply dict_get_in. eauto. }
    rewrite Hmem. pose proof (dict_set_sum d c n (n + 1) Hget). lia.
  - assert (Hmem : mem c (dict_keys d) = false).
    { apply not_true_is_false. rewrite mem_in. apply dict_get_none. exact Hget. }
    rewrite Hmem. lia.
Qed.

Lemma fold_count_keys (choices : list string) (d : dict nat) :
  dict_keys (fold_left count_choice choices d) = dict_keys d.
Proof.
  revert d. induction choices as [|c l IH]; intros d; simpl; [reflexivity|].
  rewrite IH. apply count_choice_keys.
Qed.

Lemma fold_count_get (choices : list string) (d : dict nat) (o : string) :
  dict_get o (fold_left count_choice choices d) =
  option_map (fun n => n + List.length (filter (fun c => (c =? o)%string) choices))
             (dict_get o d).
Proof.
  revert d. induction choices as [|c l IH]; intros d; simpl.
  - destruct (dict_get o d); simpl; [f_equal; lia|reflexivity].
  - rewrite IH, count_choice_get.
    destruct (c =? o)%string; destruct (dict_get o d); simpl; try reflexivity.
    f_equal. lia.
Qed.

Lemma fold_count_sum (choices : list string) (d : dict nat) :
  list_sum (dict_values (fold_left count_choice choices d)) =
  list_sum (dict_values d)
  + List.length (filter (fun c => mem c (dict_keys d)) choices).
Proof.
  revert d. induction choices as [|c l IH]; intros d; simpl; [lia|].
  rewrite IH, count_choice_sum, count_choice_keys.
  destruct (mem c (dict_keys d)); simpl; lia.
Qed.

Lemma filter_choice_length (o : string) (l : list Vote.t) :
  List.length (filter (fun c => (c =? o)%string) (map Vote.choice l))
  = List.length (filter (fun v => (Vote.choice v =? o)%string) l).
Proof.
  induction l as [|v l IH]; simpl; [reflexivity|].
  destruct (Vote.choice v =? o)%string; simpl; rewrite IH; reflexivity.
Qed.

(** The counts of [tally] are the numbers of stored votes. *)
Lemma tally_counts (ballot_id : string) (s : store) (ballot : Ballot.t) (o : string) :
  In o (Ballot.options ballot) ->
  dict_get o (fold_left count_choice
                (map Vote.choice (filter (vote_on ballot_id) (votes s)))
                (init_counts (Ballot.options ballot)))
  = Some (votes_for ballot_id o s).
Proof.
  intros Ho. rewrite fold_count_get, (init_counts_get _ _ Ho). simpl.
  rewrite filter_choice_length. reflexivity.
Qed.

(** *** [max] returns the first of the greatest *)

Lemma max_by_first (key : string -> nat) (rest : list string) :
  forall (first : string) (pre mid : list string),
    (forall x, In x pre -> key x < key first) ->
    (forall x, In x mid -> key x <= key first) ->
    exists pre' post',
      pre ++ first :: mid ++ rest = pre' ++ max_by key first rest :: post'
      /\ (forall x, In x pre' -> key x < key (max_by key first rest))
      /\ (forall x, In x post' -> key x <= key (max_by key first rest)).
Proof.
  unfold max_by.
  induction rest as [|x rest IH]; intros first pre mid Hpre Hmid; simpl.
  - exists pre, mid. rewrite app_nil_r. auto.
  - destruct (key first <? key x)%nat eqn:Hlt.
    + apply Nat.ltb_lt in Hlt.
      destruct (IH x (pre ++ first :: mid) []) as [pre' [post' [Heq [H1 H2]]]].
      * intros y Hy. apply in_app_iff in Hy. destruct Hy as [Hy|[Hy|Hy]].
        -- specialize (Hpre y Hy). lia.
        -- subst y. exact Hlt.
        -- specialize (Hmid y Hy). lia.
      * intros y [].
      * exists pre', post'. split; [|auto].
        rewrite <- Heq. simpl. rewrite <- app_assoc. reflexivity.
    + apply Nat.ltb_ge in Hlt.
      destruct (IH first pre (mid ++ [x])) as [pre' [post' [Heq [H1 H2]]]].
      * exact Hpre.
      * intros y Hy. apply in_app_iff in Hy. destruct Hy as [Hy|[Hy|[]]].
        -- auto.
        -- subst y. exact Hlt.
      * exists pre', post'. split; [|auto].
        rewrite <- Heq. rewrite <- app_assoc. reflexivity.
Qed.

Lemma NoDup_split_unique {A : Type} (x : A) (a b a' b' : list A) :
  NoDup (a ++ x :: b) -> a ++ x :: b = a' ++ x :: b' -> a = a'.
Proof.
  revert a'. induction a as [|y a IH]; intros a' Hnd Heq.
  - destruct a' as [|z a']; [reflexivity|].
    simpl in Heq, Hnd. injection Heq as Hz Hb. subst z.
    inversion Hnd as [|? ? Hnot _]. exfalso. apply Hnot.
    rewrite Hb. apply in_elt.
  - destruct a' as [|z a']; simpl in Heq, Hnd.
    + injection Heq as Hy Hb. subst y. inversion Hnd as [|? ? Hnot _].
      exfalso. apply Hnot. apply in_elt.
    + injection Heq as Hy Hb. subst z. inversion Hnd as [|? ? _ Hnd'].
      f_equal. apply IH; assumption.
Qed.

Lemma in_split_first (w : string) (l : list string) :
  In w l -> exists pre post, l = pre ++ w :: post /\ ~ In w pre.
Proof.
  induction l as [|x l IH]; [intros []|].
  intros Hin. destruct (string_dec x w) as [->|Hne].
  - exists [], l. split; [reflexivity|intros []].
  - destruct Hin as [Heq|Hin]; [contradiction|].
    destruct (IH Hin) as [pre [post [Hl Hnot]]].
    exists (x :: pre), post. subst l. split; [reflexivity|].
    intros [H|H]; [contradiction|auto].
Qed.

(** The keys of the counts are the options in declared order: what comes
    before the first occurrence of an option comes before it among the keys. *)
Lemma init_counts_keys_order (pre post : list string) (w : string) :
  ~ In w pre ->
  exists kpre kpost,
    dict_keys (init_counts (pre ++ w :: post)) = kpre ++ w :: kpost
    /\ (forall o, In o pre -> In o kpre).
Proof.
  intros Hnot. rewrite init_counts_fold, fold_left_app. simpl.
  set (d1 := fold_left set_zero pre []).
  assert (Hkeys1 : forall o, In o (dict_keys d1) <-> In o pre).
  { intros o. unfold d1. rewrite set_zero_keys_in. simpl. tauto. }
  destruct (set_zero_keys_grow post (set_zero d1 w)) as [ext Hext].
  rewrite Hext. unfold set_zero at 1.
  rewrite dict_keys_set_new by (rewrite Hkeys1; exact Hnot).
  exists (dict_keys d1), ext. rewrite <- app_assoc. split; [reflexivity|].
  intros o Ho. apply Hkeys1. exact Ho.
Qed.

Lemma filter_length_pos {A : Type} (f : A -> bool) (l : list A) (x : A) :
  In x l -> f x = true -> 1 <= List.length (filter f l).
Proof.
  intros Hin Hf.
  assert (H : In x (filter f l)) by (apply filter_In; auto).
  destruct (filter f l); [destruct H|simpl; lia].
Qed.

(** [tally] on an existing ballot, with the counts made explicit. *)
Lemma tally_found (ballot_id : string) (s : store) (ballot : Ballot.t) :
  find (ballot_has_id ballot_id) (ballots s) = Some ballot ->
  let counts :=
    fold_left count_choice (map Vote.choice (filter (vote_on ballot_id) (votes s)))
              (init_counts (Ballot.options ballot)) in
  let total := list_sum (dict_values counts) in
  total = List.length (filter (fun c => mem c (Ballot.options ballot))
                              (map Vote.choice (filter (vote_on ballot_id) (votes s))))
  /\ tally ballot_id s =
     match total, dict_keys counts with
     | O, _ =>
         (inr (Summary.mk ballot_id (Ballot.title ballot) total counts
                 (map (fun '(opt, cnt) => (opt, percentage total cnt)) counts) None), s)
     | S _, [] => (inl (ValueError MaxOfEmpty), s)
     | S _, k :: ks =>
         (inr (Summary.mk ballot_id (Ballot.title ballot) total counts
                 (map (fun '(opt, cnt) => (opt, percentage total cnt)) counts)
                 (Some (max_by (counts_get counts) k ks))), s)
     end.
Proof.
  intros Hfind counts total. split.
  - unfold total, counts. rewrite fold_count_sum.
    rewrite list_sum_zero by (rewrite init_counts_fold; apply set_zero_values; constructor).
    simpl. f_equal. apply filter_ext. intros c.
    destruct (mem c (Ballot.options ballot)) eqn:Hm.
    + apply mem_in. rewrite init_counts_fold. apply set_zero_keys_in. right.
      apply mem_in. exact Hm.
    + apply not_true_is_false. rewrite mem_in, init_counts_fold, set_zero_keys_in.
      intros [[]|H]. apply mem_in in H. congruence.
  - unfold_db. rewrite Hfind. fold counts. fold total.
    destruct total; [reflexivity|]. cbn [Nat.eqb].
    destruct (dict_keys counts); reflexivity.
Qed.

(** ** C4: the winner *)

(** C4. For an existing ballot with at least one stored vote for a declared
    option, [tally] returns a winner [w]; the count of every declared option
    is its number of stored votes; no declared option has more votes than
    [w], and every option declared before the first occurrence of [w] has
    strictly fewer.  So [w] is the option with the greatest count and, among
    several with that count, the earliest declared. *)
Theorem tally_winner (ballot_id : string) (s : store) (ballot : Ballot.t) :
  find (ballot_has_id ballot_id) (ballots s) = Some ballot ->
  (exists v, In v (votes s) /\ Vote.ballot_id v = ballot_id
             /\ In (Vote.choice v) (Ballot.options ballot)) ->
  exists r w pre post,
    tally ballot_id s = (inr r, s)
    /\ Summary.winner r = Some w
    /\ (forall o, In o (Ballot.options ballot) ->
          dict_get o (Summary.counts r) = Some (votes_for ballot_id o s))
    /\ Ballot.options ballot = pre ++ w :: post
    /\ ~ In w pre
    /\ (forall o, In o pre -> votes_for ballot_id o s < votes_for ballot_id w s)
    /\ (forall o, In o post -> votes_for ballot_id o s <= votes_for ballot_id w s).
Proof.
  intros Hfind [v [Hin [Hb Hc]]].
  destruct (tally_found ballot_id s ballot Hfind) as [Htotal Hrun].
  set (counts := fold_left count_choice
                   (map Vote.choice (filter (vote_on ballot_id) (votes s)))
                   (init_counts (Ballot.options ballot))) in *.
  set (total := list_sum (dict_values counts)) in *.
  assert (Hkeys : dict_keys counts = dict_keys (init_counts (Ballot.options ballot))).
  { unfold counts. apply fold_count_keys. }
  assert (Hkin : forall o, In o (dict_keys counts) <-> In o (Ballot.options ballot)).
  { intros o. rewrite Hkeys, init_counts_fold, set_zero_keys_in. simpl. tauto. }
  assert (Hcg : forall o, In o (Ballot.options ballot) ->
                          counts_get counts o = votes_for ballot_id o s).
  { intros o Ho. unfold counts_get, counts. rewrite (tally_counts _ _ _ _ Ho). reflexivity. }
  assert (Hpos : 1 <= total).
  { rewrite Htotal. apply filter_length_pos with (x := Vote.choice v).
    - apply in_map. apply filter_In. split; [exact Hin|].
      unfold vote_on. apply String.eqb_eq. exact Hb.
    - apply mem_in. exact Hc. }
  destruct total as [|t]; [lia|].
  destruct (dict_keys counts) as [|k ks] eqn:Hk.
  { exfalso. apply (Hkin (Vote.choice v)) in Hc. destruct Hc. }
  destruct (max_by_first (counts_get counts) ks k [] [])
    as [kpre [kpost [Hsplit [Hlt Hle]]]]; [intros x []|intros x []|].
  simpl in Hsplit.
  set (w := max_by (counts_get counts) k ks) in *.
  assert (Hw : In w (Ballot.options ballot)).
  { apply Hkin. rewrite Hsplit. apply in_elt. }
  destruct (in_split_first w _ Hw) as [pre [post [Hopts Hnot]]].
  destruct (init_counts_keys_order pre post w Hnot) as [ipre [ipost [Hisplit Hsub]]].
  rewrite <- Hopts, <- Hkeys, Hsplit in Hisplit.
  assert (Hnd : NoDup (kpre ++ w :: kpost)).
  { rewrite <- Hsplit, Hkeys, init_counts_fold. apply set_zero_keys_nodup. constructor. }
  pose proof (NoDup_split_unique w kpre kpost ipre ipost Hnd Hisplit) as Hsame.
  subst ipre.
  eexists. exists w, pre, post.
  split; [exact Hrun|]. cbn [Summary.winner Summary.counts].
  split; [reflexivity|].
  split; [intros o Ho; apply tally_counts; exact Ho|].
  split; [exact Hopts|]. split; [exact Hnot|]. split.
  - intros o Ho. rewrite <- (Hcg w Hw), <- (Hcg o).
    + apply Hlt. apply Hsub. exact Ho.
    + rewrite Hopts. apply in_or_app. left. exact Ho.
  - intros o Ho.
    assert (Hoin : In o (Ballot.options ballot)).
    { rewrite Hopts. apply in_or_app. right. right. exact Ho. }
    rewrite <- (Hcg w Hw), <- (Hcg o Hoin).
    apply Hkin in Hoin. rewrite Hsplit in Hoin.
    apply in_app_iff in Hoin. destruct Hoin as [H|[H|H]].
    + specialize (Hlt o H). lia.
    + subst o. lia.
    + apply Hle. exact H.
Qed.

Lemma tally_winner_witness :
  exists r w pre post,
    tally "71e00001" tie_store = (inr r, tie_store)
    /\ Summary.winner r = Some w
    /\ (forall o, In o ["X"; "Y"] ->
          dict_get o (Summary.counts r) = Some (votes_for "71e00001" o tie_store))
    /\ ["X"; "Y"] = pre ++ w :: post
    /\ ~ In w pre
    /\ (forall o, In o pre -> votes_for "71e00001" o tie_store < votes_for "71e00001" w tie_store)
    /\ (forall o, In o post ->
          votes_for "71e00001" o tie_store <= votes_for "71e00001" w tie_store).
Proof.
  apply (tally_winner "71e00001" tie_store tie_ballot eq_refl).
  exists (Vote.mk "aaaa0001" "v1" "71e00001" "Y" demo_now (_sign "v1" "71e00001" "Y" demo_now)).
  split; [left; reflexivity|]. split; [reflexivity|]. right. left. reflexivity.
Defined.

(** The tie-break scenario of the specification: options X and Y, one vote
    each, the winner is X. *)
Example tally_tie_break :
  option_map Summary.winner
    (match fst (tally "71e00001" tie_store) with inr r => Some r | inl _ => None end)
  = Some (Some "X").
Proof. vm_compute. reflexivity. Qed.

(** ** Invariants of the reachable stores *)

Lemma find_app {A : Type} (f : A -> bool) (l l' : list A) :
  find f (l ++ l') = match find f l with Some x => Some x | None => find f l' end.
Proof.
  induction l as [|x l IH]; simpl; [reflexivity|].
  destruct (f x); [reflexivity|exact IH].
Qed.

Lemma find_deactivate (ballot_id closed : string) (l : list Ballot.t) :
  find (ballot_has_id ballot_id) (map (deactivate closed) l)
  = option_map (deactivate closed) (find (ballot_has_id ballot_id) l).
Proof.
  induction l as [|b l IH]; simpl; [reflexivity|].
  assert (Hid : ballot_has_id ballot_id (deactivate closed b) = ballot_has_id ballot_id b).
  { unfold deactivate. destruct (ballot_has_id closed b); reflexivity. }
  rewrite Hid. destruct (ballot_has_id ballot_id b); [reflexivity|exact IH].
Qed.

Lemma deactivate_options (closed : string) (b : Ballot.t) :
  Ballot.options (deactivate closed b) = Ballot.options b.
Proof.
  unfold deactivate. destruct (ballot_has_id closed b); reflexivity.
Qed.

(** No call removes a ballot or changes its options. *)
Lemma run_find (c : call) (s : store) (ballot_id : string) (b : Ballot.t) :
  find (ballot_has_id ballot_id) (ballots s) = Some b ->
  exists b', find (ballot_has_id ballot_id) (ballots (run c s)) = Some b'
             /\ Ballot.options b' = Ballot.options b.
Proof.
  intros Hfind. destruct c; cbn [run].
  - unfold_db. destruct (_ <? 2)%nat; [exists b; auto|].
    destruct (existsb _ (ballots s)); cbn [snd ballots]; [exists b; auto|].
    rewrite find_app, Hfind. exists b. auto.
  - unfold_db. destruct (existsb _ (eligible_voters s)); exists b; auto.
  - exists b. auto.
  - destruct (cast_vote_store now uuid4 ballot_id0 voter_id choice s)
      as [Hsame | [v [b0 [Hrun _]]]].
    + cbn [run] in Hsame. rewrite Hsame. exists b. auto.
    + rewrite Hrun. exists b. auto.
  - rewrite tally_store. exists b. auto.
  - rewrite export_results_store. exists b. auto.
  - unfold_db. cbn [snd ballots]. rewrite find_deactivate, Hfind. simpl.
    eexists. split; [reflexivity|apply deactivate_options].
  - exists b. auto.
Qed.

Lemma run_declared (c : call) (s : store) : choices_declared s -> choices_declared (run c s).
Proof.
  unfold choices_declared. intros Hs v Hv.
  assert (Hold : forall v0, In v0 (votes s) ->
            exists b, find (ballot_has_id (Vote.ballot_id v0)) (ballots (run c s)) = Some b
                      /\ In (Vote.choice v0) (Ballot.options b)).
  { intros v0 Hv0. destruct (Hs v0 Hv0) as [b [Hfind Hin]].
    destruct (run_find c s _ b Hfind) as [b' [Hfind' Hopts]].
    exists b'. rewrite Hopts. auto. }
  destruct (run_votes c s) as [Hsame | [v1 [b [Hadd [_ [Hfind Hmem]]]]]].
  - rewrite Hsame in Hv. auto.
  - rewrite Hadd in Hv. apply in_app_iff in Hv. destruct Hv as [Hv|[Hv|[]]]; [auto|].
    subst v1. destruct (run_find c s _ b Hfind) as [b' [Hfind' Hopts]].
    exists b'. rewrite Hopts. split; [exact Hfind'|apply mem_in; exact Hmem].
Qed.

Lemma reachable_declared (s : store) : reachable s -> choices_declared s.
Proof.
  induction 1 as [|c s Hs IH].
  - intros v [].
  - apply run_declared. exact IH.
Qed.

(** ** C9: the JSON summary and the CSV rows agree *)

(** [tally] returns for every existing ballot, and its total is the number of
    votes on the ballot for a declared option. *)
Lemma tally_returns (ballot_id : string) (s : store) (ballot : Ballot.t) :
  find (ballot_has_id ballot_id) (ballots s) = Some ballot ->
  exists r,
    tally ballot_id s = (inr r, s)
    /\ Summary.total_votes r =
       List.length (filter (fun c => mem c (Ballot.options ballot))
                           (map Vote.choice (filter (vote_on ballot_id) (votes s)))).
Proof.
  intros Hfind.
  destruct (tally_found ballot_id s ballot Hfind) as [Htotal Hrun].
  set (counts := fold_left count_choice
                   (map Vote.choice (filter (vote_on ballot_id) (votes s)))
                   (init_counts (Ballot.options ballot))) in *.
  set (total := list_sum (dict_values counts)) in *.
  destruct total as [|t] eqn:Ht.
  - eexists. split; [exact Hrun|]. exact Htotal.
  - destruct (dict_keys counts) as [|k ks] eqn:Hk.
    + exfalso.
      assert (Hnone : forall c, mem c (Ballot.options ballot) = false).
      { intros c. apply not_true_is_false. rewrite mem_in. intros Hc.
        assert (Hin : In c (dict_keys counts)).
        { unfold counts. rewrite fold_count_keys, init_counts_fold, set_zero_keys_in.
          right. exact Hc. }
        rewrite Hk in Hin. destruct Hin. }
      rewrite (filter_ext _ (fun _ => false) Hnone) in Htotal.
      clear - Htotal.
      induction (map Vote.choice (filter (vote_on ballot_id) (votes s))) as [|c l IH];
        simpl in Htotal; [discriminate Htotal|auto].
    + eexists. split; [exact Hrun|]. exact Htotal.
Qed.

Lemma filter_all {A : Type} (f : A -> bool) (l : list A) :
  (forall x, In x l -> f x = true) -> filter f l = l.
Proof.
  induction l as [|x l IH]; simpl; intros H; [reflexivity|].
  rewrite (H x) by (left; reflexivity). f_equal. apply IH. auto.
Qed.

(** C9, as stated, fails: [total_votes] counts the votes for the declared
    options only, the CSV document has a row for every vote on the ballot.
    In [edited_store], whose keys are unique as [init_db] demands, the JSON
    summary has [total_votes] 1 and the CSV document has 2 rows after its
    header. *)
Lemma export_total_counts_declared_only :
  NoDup (map Ballot.id (ballots edited_store))
  /\ NoDup (map Vote.id (votes edited_store))
  /\ votes_unique edited_store
  /\ NoDup (map eligible_key (eligible_voters edited_store))
  /\ find (ballot_has_id "0a1b2c3d") (ballots edited_store) = Some demo_ballot
  /\ match fst (export_results "0a1b2c3d" "json" edited_store),
           fst (export_results "0a1b2c3d" "csv" edited_store) with
     | inr (JsonDocument summary _), inr csv =>
         Summary.total_votes summary = 1 /\ List.length (csv_data_rows csv) = 2
     | _, _ => False
     end.
Proof.
  assert (Hnodup : forall (A : Type) (x y : A), x <> y -> NoDup [x; y]).
  { intros A x y Hxy. constructor; [intros [H|[]]; congruence|].
    constructor; [intros []|constructor]. }
  split; [repeat constructor; intros []|].
  split; [apply Hnodup; discriminate|].
  split; [apply Hnodup; discriminate|].
  split; [apply Hnodup; discriminate|].
  split; [reflexivity|].
  vm_compute. split; reflexivity.
Qed.

(** C9, amended. In every store, for every existing ballot, both exports
    return; the CSV document has one row after its header for every vote on
    the ballot, and [total_votes] of the summary of the JSON document is the
    number of those votes whose choice is an option of the ballot, at most
    the number of rows.  The two numbers are equal when every vote on the
    ballot is for one of its options, and this is so in every store the API
    reaches from an empty database. *)
Theorem export_total_is_csv_rows (ballot_id : string) (s : store) (ballot : Ballot.t) :
  find (ballot_has_id ballot_id) (ballots s) = Some ballot ->
  exists summary vs rows,
    export_results ballot_id "json" s = (inr (JsonDocument summary vs), s)
    /\ export_results ballot_id "csv" s = (inr (CsvDocument (csv_header :: rows)), s)
    /\ csv_data_rows (CsvDocument (csv_header :: rows)) = rows
    /\ List.length rows = List.length (filter (vote_on ballot_id) (votes s))
    /\ Summary.total_votes summary
       = List.length (filter (fun v => mem (Vote.choice v) (Ballot.options ballot))
                             (filter (vote_on ballot_id) (votes s)))
    /\ Summary.total_votes summary <= List.length rows
    /\ ((forall v, In v (votes s) -> Vote.ballot_id v = ballot_id ->
                   In (Vote.choice v) (Ballot.options ballot)) ->
        Summary.total_votes summary = List.length rows)
    /\ (reachable s -> Summary.total_votes summary = List.length rows).
Proof.
  intros Hfind.
  destruct (tally_returns ballot_id s ballot Hfind) as [r [Hrun Htotal]].
  set (on_ballot := filter (vote_on ballot_id) (votes s)) in *.
  exists r, on_ballot, (map csv_row on_ballot).
  assert (Hcount : Summary.total_votes r
                   = List.length (filter (fun v => mem (Vote.choice v) (Ballot.options ballot))
                                         on_ballot)).
  { rewrite Htotal. clear. induction on_ballot as [|v l IH]; [reflexivity|].
    cbn [map filter]. destruct (mem (Vote.choice v) (Ballot.options ballot)); cbn [List.length];
      rewrite IH; reflexivity. }
  assert (Hdeclared : (forall v, In v (votes s) -> Vote.ballot_id v = ballot_id ->
                                 In (Vote.choice v) (Ballot.options ballot)) ->
                      Summary.total_votes r = List.length (map csv_row on_ballot)).
  { intros Hall. rewrite Hcount, length_map. f_equal. apply filter_all.
    intros v Hv. apply filter_In in Hv. destruct Hv as [Hv Hon].
    apply mem_in. apply Hall; [exact Hv|].
    unfold vote_on in Hon. apply String.eqb_eq in Hon. exact Hon. }
  unfold export_results, bind. rewrite Hrun. unfold select_votes, ret. cbn.
  fold on_ballot.
  split; [reflexivity|]. split; [reflexivity|]. split; [reflexivity|].
  split; [apply length_map|]. split; [exact Hcount|].
  split; [rewrite Hcount, length_map; apply filter_length_le|].
  split; [exact Hdeclared|].
  intros Hreach. apply Hdeclared. intros v Hv Hon.
  destruct (reachable_declared s Hreach v Hv) as [b [Hb Hin]].
  rewrite Hon, Hfind in Hb. inversion Hb. subst b. exact Hin.
Qed.

Lemma export_total_is_csv_rows_witness :
  let s :=
    run (CastVote demo_now "5eed0001-aaaa-4bbb-8ccc-dddddddddddd" "0a1b2c3d" "v1" "Yes")
      (run (RegisterVoter "2025-12-25T09:00:00.000100+00:00" "v1" "0a1b2c3d")
         (run (CreateBallot "2025-12-24T08:30:00.250000+00:00"
                 "0a1b2c3d-1111-4222-8333-444444444444" "Budget" "" ["Yes"; "No"]
                 "2026-01-01T00:00:00+00:00" "2026-12-31T00:00:00+00:00")
            empty_store)) in
  exists summary vs rows,
    export_results "0a1b2c3d" "json" s = (inr (JsonDocument summary vs), s)
    /\ export_results "0a1b2c3d" "csv" s = (inr (CsvDocument (csv_header :: rows)), s)
    /\ csv_data_rows (CsvDocument (csv_header :: rows)) = rows
    /\ Summary.total_votes summary = List.length rows.
Proof.
  intros s.
  destruct (export_total_is_csv_rows "0a1b2c3d" s demo_ballot)
    as [summary [vs [rows [Hjson [Hcsv [Hrows [_ [_ [_ [_ Hreach]]]]]]]]]].
  { vm_compute. reflexivity. }
  exists summary, vs, rows.
  split; [exact Hjson|]. split; [exact Hcsv|]. split; [exact Hrows|].
  apply Hreach. unfold s. repeat apply reachable_run. apply reachable_empty.
Defined.

(** ** C3: signatures *)

Lemma hexdigest_length (data : string) : String.length (SHA256.hexdigest data) = 64.
Proof.
  unfold SHA256.hexdigest.
  generalize (SHA256.digest (SHA256.bytes_of_string data)). intros st.
  reflexivity.
Qed.

(** A vote built by [cast_vote] carries the hash of its own fields. *)
Lemma cast_vote_signed (now uuid4 ballot_id voter_id choice : string) (s s' : store)
    (v : Vote.t) :
  cast_vote now uuid4 ballot_id voter_id choice s = (inr v, s') ->
  v = Vote.mk (short_id uuid4) voter_id ballot_id choice now
              (_sign voter_id ballot_id choice now).
Proof.
  rewrite cast_vote_unfold, cast_vote_guards_refine.
  destruct (first_failure _) as [[k e]|]; [discriminate|].
  destruct (insert_vote _ s) as [[e|u] s1]; [discriminate|].
  intros H. inversion H. reflexivity.
Qed.

Lemma verify_vote_cast (now uuid4 ballot_id voter_id choice : string) (s s' : store)
    (v : Vote.t) :
  cast_vote now uuid4 ballot_id voter_id choice s = (inr v, s') -> verify_vote v = true.
Proof.
  intros H. apply cast_vote_signed in H. subst v.
  unfold verify_vote. cbn [Vote.voter_id Vote.ballot_id Vote.choice Vote.timestamp Vote.signature].
  apply String.eqb_refl.
Qed.





(** *** Digests are hexadecimal *)

Lemma hexdigit_in (x : Z) : In (SHA256.hexdigit x) hex_alphabet.
Proof.
  unfold SHA256.hexdigit.
  assert (Hd : (0 <= x mod 16 < 16)%Z) by (apply Z.mod_pos_bound; lia).
  set (d := (x mod 16)%Z) in *.
  assert (Hcases : (d = 0 \/ d = 1 \/ d = 2 \/ d = 3 \/ d = 4 \/ d = 5 \/ d = 6 \/ d = 7
                    \/ d = 8 \/ d = 9 \/ d = 10 \/ d = 11 \/ d = 12 \/ d = 13 \/ d = 14
                    \/ d = 15)%Z) by lia.
  clearbody d.
  repeat (destruct Hcases as [Hcases|Hcases]; [subst d; cbv; tauto|]).
  subst d. cbv. tauto.
Qed.

(** [cast_vote] returns the signed vote when every guard holds and the
    generated id is new. *)
Lemma cast_vote_success (now uuid4 ballot_id voter_id choice : string) (s : store)
    (ballot : Ballot.t) :
  find (ballot_has_id ballot_id) (ballots s) = Some ballot ->
  Ballot.is_active ballot = true ->
  (Ballot.start_time ballot <=? now)%string = true ->
  (now <=? Ballot.end_time ballot)%string = true ->
  mem choice (Ballot.options ballot) = true ->
  existsb (eligible_of voter_id ballot_id) (eligible_voters s) = true ->
  existsb (vote_of voter_id ballot_id) (votes s) = false ->
  existsb (vote_has_id (short_id uuid4)) (votes s) = false ->
  let vote := Vote.mk (short_id uuid4) voter_id ballot_id choice now
                      (_sign voter_id ballot_id choice now) in
  cast_vote now uuid4 ballot_id voter_id choice s
  = (inr vote, Store (ballots s) (votes s ++ [vote]) (eligible_voters s)).
Proof.
  intros Hfind Hactive Hstart Hend Hmem Helig Hdupe Hid vote.
  rewrite cast_vote_unfold, cast_vote_guards_refine.
  unfold first_failure, spec_guards.
  rewrite Hfind, Hactive, Hstart, Hend, Hmem, Helig, Hdupe.
  cbn [find fst negb option_map]. fold vote.
  unfold insert_vote. cbn [Vote.id Vote.voter_id Vote.ballot_id vote].
  rewrite Hid, Hdupe. reflexivity.
Qed.



(** ** Scenarios of the test suite *)

Example test_cast_vote :
  match fst (cast_vote demo_now "5eed0001-aaaa-4bbb-8ccc-dddddddddddd" "7e570001" "alice"
                       "Yes" (test_db ["Yes"; "No"] ["alice"])) with
  | inr vote =>
      Vote.voter_id vote = "alice" /\ Vote.choice vote = "Yes"
      /\ String.length (Vote.signature vote) = 64
  | inl _ => False
  end.
Proof. vm_compute. repeat split. Qed.

Example test_double_vote_prevented :
  let s := run (CastVote demo_now "5eed0001-aaaa-4bbb-8ccc-dddddddddddd" "7e570001" "bob" "Yes")
               (test_db ["Yes"; "No"] ["bob"]) in
  fst (cast_vote demo_now "5eed0002-aaaa-4bbb-8ccc-dddddddddddd" "7e570001" "bob" "No" s)
  = inl (ValueError (AlreadyVoted "bob" "7e570001")).
Proof. vm_compute. reflexivity. Qed.

Example test_ineligible_voter_rejected :
  fst (cast_vote demo_now "5eed0001-aaaa-4bbb-8ccc-dddddddddddd" "7e570001" "stranger" "Yes"
                 (test_db ["Yes"; "No"] []))
  = inl (ValueError (NotRegistered "stranger" "7e570001")).
Proof. vm_compute. reflexivity. Qed.

Example test_invalid_choice_rejected :
  fst (cast_vote demo_now "5eed0001-aaaa-4bbb-8ccc-dddddddddddd" "7e570001" "voter" "Maybe"
                 (test_db ["Yes"; "No"] ["voter"]))
  = inl (ValueError (InvalidChoice "Maybe" ["Yes"; "No"])).
Proof. vm_compute. reflexivity. Qed.

Example test_tally :
  let s :=
    run (CastVote demo_now "5eed0003-aaaa-4bbb-8ccc-dddddddddddd" "7e570001" "v2" "B")
      (run (CastVote demo_now "5eed0002-aaaa-4bbb-8ccc-dddddddddddd" "7e570001" "v1" "A")
         (run (CastVote demo_now "5eed0001-aaaa-4bbb-8ccc-dddddddddddd" "7e570001" "v0" "A")
            (test_db ["A"; "B"; "C"] ["v0"; "v1"; "v2"]))) in
  match fst (tally "7e570001" s) with
  | inr result =>
      Summary.total_votes result = 3
      /\ Summary.counts result = [("A", 2); ("B", 1); ("C", 0)]
      /\ Summary.winner result = Some "A"
  | inl _ => False
  end.
Proof. vm_compute. repeat split. Qed.

Example test_close_ballot :
  let s := run (CloseBallot "7e570001") (test_db ["Yes"; "No"] ["v1"]) in
  fst (get_ballot "7e570001" s)
  = inr (Some (Ballot.mk "7e570001" "Test Vote" "Desc" ["Yes"; "No"]
                         "2026-06-15T11:00:00.000000+00:00"
                         "2026-06-15T14:00:00.000000+00:00" false
                         "2026-06-15T11:00:00.000100+00:00"))
  /\ fst (cast_vote demo_now "5eed0001-aaaa-4bbb-8ccc-dddddddddddd" "7e570001" "v1" "Yes" s)
     = inl (ValueError (BallotClosed "7e570001")).
Proof. vm_compute. split; reflexivity. Qed.

(** ** Further properties of the API *)

(** *** Eligibility *)

(** X1. [register_voter] always returns, checks nothing about the ballot and
    touches neither ballots nor votes; after it the voter is eligible for the
    ballot; the eligibility of every other pair is as before; and registering
    the same pair again, at any later time, changes nothing (the first
    registration and its date are kept). *)
Theorem register_voter_idempotent (now now' voter_id ballot_id : string) (s : store) :
  let s1 := snd (register_voter now voter_id ballot_id s) in
  fst (register_voter now voter_id ballot_id s) = inr tt
  /\ ballots s1 = ballots s /\ votes s1 = votes s
  /\ validate_eligibility voter_id ballot_id s1 = (inr true, s1)
  /\ register_voter now' voter_id ballot_id s1 = (inr tt, s1)
  /\ (forall v b, (v, b) <> (voter_id, ballot_id) ->
        fst (validate_eligibility v b s1) = fst (validate_eligibility v b s)).
Proof.
  unfold register_voter, insert_or_ignore_eligible, validate_eligibility, select_eligible.
  cbn [EligibleVoter.voter_id EligibleVoter.ballot_id].
  assert (Hself : eligible_of voter_id ballot_id (EligibleVoter.mk voter_id ballot_id now) = true).
  { unfold eligible_of. cbn. rewrite !String.eqb_refl. reflexivity. }
  destruct (existsb (eligible_of voter_id ballot_id) (eligible_voters s)) eqn:Hex;
    cbn [fst snd ballots votes eligible_voters].
  - rewrite Hex. repeat split.
  - rewrite existsb_app. cbn [existsb]. rewrite Hself, Hex. cbn.
    repeat split.
    intros v b Hne. rewrite existsb_app. cbn [existsb].
    assert (Hother : eligible_of v b (EligibleVoter.mk voter_id ballot_id now) = false).
    { unfold eligible_of. cbn. apply andb_false_iff.
      destruct (string_dec voter_id v) as [->|Hv].
      - right. apply String.eqb_neq. intros ->. apply Hne. reflexivity.
      - left. apply String.eqb_neq. exact Hv. }
    rewrite Hother, !orb_false_r. reflexivity.
Qed.

(** *** What a call does, table by table *)

(** Everything that holds when [cast_vote] returns a vote. *)
Lemma cast_vote_inversion (now uuid4 ballot_id voter_id choice : string) (s s' : store)
    (v : Vote.t) :
  cast_vote now uuid4 ballot_id voter_id choice s = (inr v, s') ->
  exists ballot,
    find (ballot_has_id ballot_id) (ballots s) = Some ballot
    /\ Ballot.is_active ballot = true
    /\ (Ballot.start_time ballot <=? now)%string = true
    /\ (now <=? Ballot.end_time ballot)%string = true
    /\ mem choice (Ballot.options ballot) = true
    /\ existsb (eligible_of voter_id ballot_id) (eligible_voters s) = true
    /\ existsb (vote_of voter_id ballot_id) (votes s) = false
    /\ existsb (vote_has_id (short_id uuid4)) (votes s) = false
    /\ v = Vote.mk (short_id uuid4) voter_id ballot_id choice now
                   (_sign voter_id ballot_id choice now)
    /\ s' = Store (ballots s) (votes s ++ [v]) (eligible_voters s).
Proof.
  rewrite cast_vote_unfold, cast_vote_guards_refine.
  unfold first_failure, spec_guards.
  destruct (find (ballot_has_id ballot_id) (ballots s)) as [b|];
    cbn [find fst negb option_map snd]; [|discriminate].
  destruct (Ballot.is_active b) eqn:Ha; cbn [find fst negb option_map snd]; [|discriminate].
  destruct (Ballot.start_time b <=? now)%string eqn:Hs;
    cbn [find fst negb option_map snd]; [|discriminate].
  destruct (now <=? Ballot.end_time b)%string eqn:He;
    cbn [find fst negb option_map snd]; [|discriminate].
  destruct (mem choice (Ballot.options b)) eqn:Hm;
    cbn [find fst negb option_map snd]; [|discriminate].
  destruct (existsb (eligible_of voter_id ballot_id) (eligible_voters s)) eqn:Hel;
    cbn [find fst negb option_map snd]; [|discriminate].
  destruct (existsb (vote_of voter_id ballot_id) (votes s)) eqn:Hd;
    cbn [find fst negb option_map snd]; [discriminate|].
  unfold insert_vote. cbn [Vote.id Vote.voter_id Vote.ballot_id].
  rewrite Hd, orb_false_r.
  destruct (existsb (vote_has_id (short_id uuid4)) (votes s)) eqn:Hid; [discriminate|].
  intros H. inversion H. subst. exists b. repeat split; assumption.
Qed.

Lemma run_all_cons (c : call) (cs : list call) (s : store) :
  run_all (c :: cs) s = run_all cs (run c s).
Proof. reflexivity. Qed.

(** A property kept by every call is kept by every sequence of calls. *)
Lemma run_all_keeps (P : store -> Prop) :
  (forall c s, P s -> P (run c s)) -> forall cs s, P s -> P (run_all cs s).
Proof.
  intros Hstep cs. induction cs as [|c cs IH]; intros s Hs; [exact Hs|].
  rewrite run_all_cons. apply IH. apply Hstep. exact Hs.
Qed.

Lemma run_eligible (c : call) (s : store) :
  eligible_voters (run c s) = eligible_voters s
  \/ exists e,
       eligible_voters (run c s) = eligible_voters s ++ [e]
       /\ ~ In (eligible_key e) (map eligible_key (eligible_voters s)).
Proof.
  destruct c; cbn [run].
  - unfold_db. destruct (_ <? 2)%nat; [left; reflexivity|].
    destruct (existsb _ (ballots s)); left; reflexivity.
  - unfold_db. cbn [EligibleVoter.voter_id EligibleVoter.ballot_id].
    destruct (existsb (eligible_of voter_id ballot_id) (eligible_voters s)) eqn:Hex;
      [left; reflexivity|].
    right. eexists. split; [reflexivity|].
    intros Hin. apply in_map_iff in Hin. destruct Hin as [e [Hkey Hin]].
    assert (Htrue : existsb (eligible_of voter_id ballot_id) (eligible_voters s) = true).
    { apply existsb_exists. exists e. split; [exact Hin|].
      unfold eligible_key in Hkey. cbn in Hkey. inversion Hkey as [[Hv Hb]].
      unfold eligible_of. rewrite !String.eqb_refl. reflexivity. }
    rewrite Htrue in Hex. discriminate Hex.
  - left. reflexivity.
  - destruct (cast_vote_store now uuid4 ballot_id voter_id choice s)
      as [Hsame | [v [b [Hrun _]]]].
    + cbn [run] in Hsame. rewrite Hsame. left. reflexivity.
    + rewrite Hrun. left. reflexivity.
  - rewrite tally_store. left. reflexivity.
  - rewrite export_results_store. left. reflexivity.
  - left. reflexivity.
  - left. reflexivity.
Qed.

(** X2. Eligibility is permanent: a voter who is eligible for a ballot stays
    eligible after any sequence of calls of the API, no call removes a
    registration. *)
Theorem eligibility_is_permanent (cs : list call) (voter_id ballot_id : string) (s : store) :
  validate_eligibility voter_id ballot_id s = (inr true, s) ->
  validate_eligibility voter_id ballot_id (run_all cs s) = (inr true, run_all cs s).
Proof.
  unfold validate_eligibility, select_eligible.
  intros H. inversion H as [Hel]. rewrite Hel. f_equal. f_equal.
  revert Hel. apply (run_all_keeps
    (fun s => existsb (eligible_of voter_id ballot_id) (eligible_voters s) = true)).
  clear. intros c s Hs.
  destruct (run_eligible c s) as [Hsame | [e [Hadd _]]].
  - rewrite Hsame. exact Hs.
  - rewrite Hadd, existsb_app, Hs. reflexivity.
Qed.

Lemma eligibility_is_permanent_witness :
  validate_eligibility "v1" "0a1b2c3d"
    (run_all [CloseBallot "0a1b2c3d";
              RegisterVoter demo_now "v2" "0a1b2c3d";
              CastVote demo_now "5eed0001-aaaa-4bbb-8ccc-dddddddddddd" "0a1b2c3d" "v1" "Yes"]
             demo_store)
  = (inr true,
     run_all [CloseBallot "0a1b2c3d";
              RegisterVoter demo_now "v2" "0a1b2c3d";
              CastVote demo_now "5eed0001-aaaa-4bbb-8ccc-dddddddddddd" "0a1b2c3d" "v1" "Yes"]
             demo_store).
Proof.
  apply (eligibility_is_permanent _ "v1" "0a1b2c3d" demo_store). reflexivity.
Defined.

Lemma run_ballots (c : call) (s : store) :
  ballots (run c s) = ballots s
  \/ (exists b, ballots (run c s) = ballots s ++ [b]
                /\ existsb (ballot_has_id (Ballot.id b)) (ballots s) = false)
  \/ (exists closed, ballots (run c s) = map (deactivate closed) (ballots s)).
Proof.
  destruct c; cbn [run].
  - unfold_db. destruct (_ <? 2)%nat; [left; reflexivity|].
    cbn [Ballot.id].
    destruct (existsb (ballot_has_id (short_id uuid4)) (ballots s)) eqn:Hex;
      [left; reflexivity|].
    right. left. eexists. split; [reflexivity|exact Hex].
  - unfold_db. destruct (existsb _ (eligible_voters s)); left; reflexivity.
  - left. reflexivity.
  - destruct (cast_vote_store now uuid4 ballot_id voter_id choice s)
      as [Hsame | [v [b [Hrun _]]]].
    + cbn [run] in Hsame. rewrite Hsame. left. reflexivity.
    + rewrite Hrun. left. reflexivity.
  - rewrite tally_store. left. reflexivity.
  - rewrite export_results_store. left. reflexivity.
  - right. right. exists ballot_id. reflexivity.
  - left. reflexivity.
Qed.

(** Only a returning [cast_vote] adds a vote. *)
Lemma run_votes_cast (c : call) (s : store) :
  votes (run c s) = votes s
  \/ exists now uuid4 ballot_id voter_id choice v,
       c = CastVote now uuid4 ballot_id voter_id choice
       /\ cast_vote now uuid4 ballot_id voter_id choice s = (inr v, run c s).
Proof.
  destruct (run_votes c s) as [Hsame | [v [b [Hadd _]]]]; [left; exact Hsame|].
  destruct c; cbn [run] in *;
    try (exfalso; apply (f_equal (@List.length Vote.t)) in Hadd;
         rewrite length_app in Hadd; simpl in Hadd;
         first [ rewrite tally_store in Hadd | rewrite export_results_store in Hadd | idtac ];
         lia).
  - exfalso. revert Hadd. unfold_db. destruct (_ <? 2)%nat; cbn.
    + intros H. apply (f_equal (@List.length Vote.t)) in H. rewrite length_app in H. simpl in H. lia.
    + destruct (existsb _ (ballots s)); cbn; intros H;
        apply (f_equal (@List.length Vote.t)) in H; rewrite length_app in H; simpl in H; lia.
  - exfalso. revert Hadd. unfold_db. destruct (existsb _ (eligible_voters s)); cbn; intros H;
      apply (f_equal (@List.length Vote.t)) in H; rewrite length_app in H; simpl in H; lia.
  - right. exists now, uuid4, ballot_id, voter_id, choice.
    destruct (cast_vote now uuid4 ballot_id voter_id choice s) as [[e|v0] s0] eqn:Hrun.
    + exfalso. pose proof Hrun as Hrun'.
      rewrite cast_vote_unfold in Hrun'.
      destruct (fst (cast_vote_guards now uuid4 ballot_id voter_id choice s)) as [e0|v1].
      * inversion Hrun'. subst s0. cbn in Hadd.
        apply (f_equal (@List.length Vote.t)) in Hadd. rewrite length_app in Hadd.
        simpl in Hadd. lia.
      * destruct (insert_vote v1 s) as [[e1|u] s1] eqn:Hins; [|discriminate Hrun'].
        apply insert_vote_failure in Hins. destruct Hins as [_ ->].
        inversion Hrun'. subst s0. cbn in Hadd.
        apply (f_equal (@List.length Vote.t)) in Hadd. rewrite length_app in Hadd.
        simpl in Hadd. lia.
    + exists v0. split; reflexivity.
Qed.

Lemma deactivate_later (closed : string) (b : Ballot.t) :
  same_ballot_later b (deactivate closed b).
Proof.
  unfold same_ballot_later, deactivate.
  destruct (ballot_has_id closed b); cbn; repeat split; auto. discriminate.
Qed.

Lemma same_ballot_later_refl (b : Ballot.t) : same_ballot_later b b.
Proof. unfold same_ballot_later. repeat split; auto. Qed.

Lemma same_ballot_later_trans (b1 b2 b3 : Ballot.t) :
  same_ballot_later b1 b2 -> same_ballot_later b2 b3 -> same_ballot_later b1 b3.
Proof.
  unfold same_ballot_later.
  intros [H1 [H2 [H3 [H4 [H5 [H6 [H7 H8]]]]]]] [G1 [G2 [G3 [G4 [G5 [G6 [G7 G8]]]]]]].
  repeat split; try congruence. auto.
Qed.

Lemma run_ballot_later (c : call) (s : store) (ballot_id : string) (b : Ballot.t) :
  find (ballot_has_id ballot_id) (ballots s) = Some b ->
  exists b', find (ballot_has_id ballot_id) (ballots (run c s)) = Some b'
             /\ same_ballot_later b b'.
Proof.
  intros Hfind.
  destruct (run_ballots c s) as [Hsame | [[b0 [Hadd _]] | [closed Hclose]]].
  - rewrite Hsame. exists b. split; [exact Hfind|apply same_ballot_later_refl].
  - rewrite Hadd, find_app, Hfind. exists b. split; [reflexivity|apply same_ballot_later_refl].
  - rewrite Hclose, find_deactivate, Hfind. cbn. eexists. split; [reflexivity|].
    apply deactivate_later.
Qed.

Lemma run_all_ballot_later (cs : list call) (s : store) (ballot_id : string) (b : Ballot.t) :
  find (ballot_has_id ballot_id) (ballots s) = Some b ->
  exists b', find (ballot_has_id ballot_id) (ballots (run_all cs s)) = Some b'
             /\ same_ballot_later b b'.
Proof.
  revert s b. induction cs as [|c cs IH]; intros s b Hfind.
  - exists b. split; [exact Hfind|apply same_ballot_later_refl].
  - rewrite run_all_cons.
    destruct (run_ballot_later c s ballot_id b Hfind) as [b1 [Hfind1 Hlater1]].
    destruct (IH _ _ Hfind1) as [b2 [Hfind2 Hlater2]].
    exists b2. split; [exact Hfind2|].
    eapply same_ballot_later_trans; eassumption.
Qed.

(** *** Ballots and votes over time *)

(** X13. Whatever calls follow, a stored ballot stays stored under its id
    with the same title, description, options, window and creation time; its
    flag can only go from active to closed, never back. *)
Theorem ballots_only_close (cs : list call) (s : store) (ballot_id : string) (b : Ballot.t) :
  get_ballot ballot_id s = (inr (Some b), s) ->
  exists b',
    get_ballot ballot_id (run_all cs s) = (inr (Some b'), run_all cs s)
    /\ same_ballot_later b b'.
Proof.
  unfold get_ballot, select_ballot. intros H. inversion H as [Hfind].
  destruct (run_all_ballot_later cs s ballot_id b Hfind) as [b' [Hfind' Hlater]].
  exists b'. rewrite Hfind'. split; [reflexivity|exact Hlater].
Qed.

Lemma ballots_only_close_witness :
  exists b',
    get_ballot "0a1b2c3d"
      (run_all [CloseBallot "0a1b2c3d"; RegisterVoter demo_now "v2" "0a1b2c3d"] demo_store)
    = (inr (Some b'),
       run_all [CloseBallot "0a1b2c3d"; RegisterVoter demo_now "v2" "0a1b2c3d"] demo_store)
    /\ same_ballot_later demo_ballot b'.
Proof.
  apply (ballots_only_close _ demo_store "0a1b2c3d" demo_ballot). reflexivity.
Defined.

(** X12. Votes are only ever appended: after any sequence of calls the votes
    stored before are all still there, unchanged and in the same order, before
    the new ones. *)
Theorem votes_append_only (cs : list call) (s : store) :
  exists new, votes (run_all cs s) = votes s ++ new.
Proof.
  revert s. induction cs as [|c cs IH]; intros s.
  - exists []. rewrite app_nil_r. reflexivity.
  - rewrite run_all_cons. destruct (IH (run c s)) as [new Hnew]. rewrite Hnew.
    destruct (run_votes c s) as [Hsame | [v [b [Hadd _]]]].
    + rewrite Hsame. exists new. reflexivity.
    + rewrite Hadd, <- app_assoc. exists ([v] ++ new). reflexivity.
Qed.

(** *** Closed ballots *)

Lemma find_has_id (ballot_id : string) (l : list Ballot.t) (b : Ballot.t) :
  find (ballot_has_id ballot_id) l = Some b -> ballot_has_id ballot_id b = true.
Proof. intros H. apply find_some in H. tauto. Qed.

Lemma close_ballot_closes (ballot_id : string) (s : store) (b : Ballot.t) :
  find (ballot_has_id ballot_id) (ballots s) = Some b ->
  exists b', find (ballot_has_id ballot_id) (ballots (run (CloseBallot ballot_id) s)) = Some b'
             /\ Ballot.is_active b' = false
             /\ Ballot.title b' = Ballot.title b
             /\ Ballot.options b' = Ballot.options b.
Proof.
  intros Hfind. cbn [run]. unfold_db. cbn [snd ballots].
  rewrite find_deactivate, Hfind. cbn [option_map].
  eexists. split; [reflexivity|].
  unfold deactivate. rewrite (find_has_id _ _ _ Hfind). cbn. auto.
Qed.

Lemma run_all_stays_closed (cs : list call) (s : store) (ballot_id : string) (b : Ballot.t) :
  find (ballot_has_id ballot_id) (ballots s) = Some b ->
  Ballot.is_active b = false ->
  exists b', find (ballot_has_id ballot_id) (ballots (run_all cs s)) = Some b'
             /\ Ballot.is_active b' = false
             /\ Ballot.title b' = Ballot.title b
             /\ Ballot.options b' = Ballot.options b.
Proof.
  intros Hfind Hclosed.
  destruct (run_all_ballot_later cs s ballot_id b Hfind)
    as [b' [Hfind' [_ [Ht [_ [Ho [_ [_ [_ Hact]]]]]]]]].
  exists b'. split; [exact Hfind'|]. split; [|auto].
  destruct (Ballot.is_active b') eqn:Hb'; [|reflexivity].
  specialize (Hact eq_refl). congruence.
Qed.

(** X3. Closing is final: once [close_ballot] has run on an existing ballot,
    every [cast_vote] on that ballot fails with the error "Ballot ... is
    closed.", whatever the voter, the choice and the time, and whatever calls
    were made in between; nothing reopens a ballot. *)
Theorem closed_ballot_rejects_votes (cs : list call) (s : store) (b : Ballot.t)
    (now uuid4 ballot_id voter_id choice : string) :
  get_ballot ballot_id s = (inr (Some b), s) ->
  let s' := run_all cs (run (CloseBallot ballot_id) s) in
  cast_vote now uuid4 ballot_id voter_id choice s'
  = (inl (ValueError (BallotClosed ballot_id)), s').
Proof.
  intros H. cbv zeta. unfold get_ballot, select_ballot in H. inversion H as [Hfind].
  destruct (close_ballot_closes ballot_id s b Hfind) as [b1 [Hfind1 [Hclosed1 _]]].
  destruct (run_all_stays_closed cs _ ballot_id b1 Hfind1 Hclosed1)
    as [b2 [Hfind2 [Hclosed2 _]]].
  rewrite cast_vote_unfold, cast_vote_guards_refine.
  unfold first_failure, spec_guards. rewrite Hfind2, Hclosed2. reflexivity.
Qed.

Lemma closed_ballot_rejects_votes_witness :
  let s' := run_all [RegisterVoter demo_now "v2" "0a1b2c3d"]
                    (run (CloseBallot "0a1b2c3d") demo_store) in
  cast_vote demo_now "5eed0001-aaaa-4bbb-8ccc-dddddddddddd" "0a1b2c3d" "v1" "Yes" s'
  = (inl (ValueError (BallotClosed "0a1b2c3d")), s').
Proof.
  apply (closed_ballot_rejects_votes [RegisterVoter demo_now "v2" "0a1b2c3d"]
           demo_store demo_ballot).
  reflexivity.
Defined.

Lemma run_votes_closed (c : call) (s : store) (ballot_id : string) (b : Ballot.t) :
  find (ballot_has_id ballot_id) (ballots s) = Some b ->
  Ballot.is_active b = false ->
  filter (vote_on ballot_id) (votes (run c s)) = filter (vote_on ballot_id) (votes s).
Proof.
  intros Hfind Hclosed.
  destruct (run_votes_cast c s)
    as [Hsame | [now [uuid4 [bid [voter [choice [v [_ Hrun]]]]]]]].
  - rewrite Hsame. reflexivity.
  - apply cast_vote_inversion in Hrun.
    destruct Hrun as [b0 [Hfind0 [Hactive0 [_ [_ [_ [_ [_ [_ [Hv Hs']]]]]]]]]].
    rewrite Hs'. cbn [votes]. rewrite filter_app. cbn [filter].
    assert (Hoff : vote_on ballot_id v = false).
    { subst v. unfold vote_on. cbn [Vote.ballot_id]. apply String.eqb_neq. intros Heq.
      subst bid. rewrite Hfind in Hfind0. inversion Hfind0. subst b0. congruence. }
    rewrite Hoff, app_nil_r. reflexivity.
Qed.

Lemma run_all_votes_closed (cs : list call) (s : store) (ballot_id : string) (b : Ballot.t) :
  find (ballot_has_id ballot_id) (ballots s) = Some b ->
  Ballot.is_active b = false ->
  filter (vote_on ballot_id) (votes (run_all cs s)) = filter (vote_on ballot_id) (votes s).
Proof.
  revert s b. induction cs as [|c cs IH]; intros s b Hfind Hclosed; [reflexivity|].
  rewrite run_all_cons.
  destruct (run_all_stays_closed [c] s ballot_id b Hfind Hclosed) as [b1 [Hfind1 [Hclosed1 _]]].
  cbn in Hfind1.
  rewrite (IH _ _ Hfind1 Hclosed1). apply (run_votes_closed c s ballot_id b Hfind Hclosed).
Qed.

(** The result of [tally] depends on the title and the options of the ballot
    and on the votes on the ballot only. *)
Lemma tally_depends (ballot_id : string) (s s' : store) (b b' : Ballot.t) :
  find (ballot_has_id ballot_id) (ballots s) = Some b ->
  find (ballot_has_id ballot_id) (ballots s') = Some b' ->
  Ballot.title b' = Ballot.title b ->
  Ballot.options b' = Ballot.options b ->
  map Vote.choice (filter (vote_on ballot_id) (votes s'))
  = map Vote.choice (filter (vote_on ballot_id) (votes s)) ->
  fst (tally ballot_id s') = fst (tally ballot_id s).
Proof.
  intros Hfind Hfind' Htitle Hopts Hvotes.
  destruct (tally_found ballot_id s b Hfind) as [_ Hrun].
  destruct (tally_found ballot_id s' b' Hfind') as [_ Hrun'].
  rewrite Hrun, Hrun', Hvotes, Hopts, Htitle.
  destruct (list_sum _); [reflexivity|].
  destruct (dict_keys _); reflexivity.
Qed.

(** X4. When the calls of the API run one after the other, each to its end
    before the next begins, the tally of a closed ballot is final: after
    [close_ballot] on an existing ballot, [tally] returns the same summary as
    before the closing, and keeps returning it after any further such calls.
    (A [cast_vote] that is under way while [close_ballot] commits is not such
    a call: see [close_ballot_during_cast_vote].) *)
Theorem closed_ballot_tally_final (cs : list call) (s : store) (b : Ballot.t)
    (ballot_id : string) :
  get_ballot ballot_id s = (inr (Some b), s) ->
  fst (tally ballot_id (run_all cs (run (CloseBallot ballot_id) s)))
  = fst (tally ballot_id s).
Proof.
  unfold get_ballot, select_ballot. intros H. inversion H as [Hfind].
  destruct (close_ballot_closes ballot_id s b Hfind) as [b1 [Hfind1 [Hclosed1 [Ht1 Ho1]]]].
  destruct (run_all_stays_closed cs _ ballot_id b1 Hfind1 Hclosed1)
    as [b2 [Hfind2 [_ [Ht2 Ho2]]]].
  apply (tally_depends ballot_id s _ b b2 Hfind Hfind2); [congruence|congruence|].
  rewrite (run_all_votes_closed cs _ ballot_id b1 Hfind1 Hclosed1). reflexivity.
Qed.

Lemma closed_ballot_tally_final_witness :
  fst (tally "71e00001"
         (run_all [RegisterVoter demo_now "v3" "71e00001";
                   CastVote demo_now "5eed0003-aaaa-4bbb-8ccc-dddddddddddd" "71e00001" "v3" "Y"]
                  (run (CloseBallot "71e00001") tie_store)))
  = fst (tally "71e00001" tie_store).
Proof.
  apply (closed_ballot_tally_final _ tie_store tie_ballot "71e00001"). reflexivity.
Defined.

(** The calls above run one after the other.  A [cast_vote] whose guards were
    evaluated before [close_ballot] committed writes its vote after it: the
    closed ballot gets a vote, and its tally goes from no winner to a
    winner. *)
Example close_ballot_during_cast_vote :
  let closed := run (CloseBallot "0a1b2c3d") demo_store in
  let raced :=
    cast_vote_racing (close_ballot "0a1b2c3d") demo_now
                     "5eed0001-aaaa-4bbb-8ccc-dddddddddddd" "0a1b2c3d" "v1" "Yes" demo_store in
  ballots (snd raced) = ballots closed
  /\ option_map Ballot.is_active (find (ballot_has_id "0a1b2c3d") (ballots (snd raced)))
     = Some false
  /\ votes closed = []
  /\ votes (snd raced) = [Vote.mk "5eed0001" "v1" "0a1b2c3d" "Yes" demo_now
                                  (_sign "v1" "0a1b2c3d" "Yes" demo_now)]
  /\ match fst (tally "0a1b2c3d" closed), fst (tally "0a1b2c3d" (snd raced)) with
     | inr before, inr after =>
         Summary.winner before = None /\ Summary.winner after = Some "Yes"
     | _, _ => False
     end.
Proof. vm_compute. repeat split. Qed.

Lemma deactivate_twice (a b : string) (x : Ballot.t) :
  deactivate a (deactivate b x) = deactivate b (deactivate a x).
Proof.
  unfold deactivate, ballot_has_id.
  destruct (Ballot.id x =? a)%string eqn:Ha, (Ballot.id x =? b)%string eqn:Hb;
    cbn [Ballot.id]; rewrite ?Ha, ?Hb; reflexivity.
Qed.

Lemma deactivate_again (a : string) (x : Ballot.t) :
  deactivate a (deactivate a x) = deactivate a x.
Proof.
  unfold deactivate, ballot_has_id.
  destruct (Ballot.id x =? a)%string eqn:Ha; cbn [Ballot.id]; rewrite ?Ha; reflexivity.
Qed.

(** X5. Closing is idempotent and closings commute: closing a ballot twice
    leaves the store as closing it once, and closing two ballots in either
    order leaves the same store. *)
Theorem close_ballot_idempotent (a b : string) (s : store) :
  run (CloseBallot a) (run (CloseBallot a) s) = run (CloseBallot a) s
  /\ run (CloseBallot a) (run (CloseBallot b) s) = run (CloseBallot b) (run (CloseBallot a) s).
Proof.
  cbn [run]. unfold_db. cbn [snd ballots votes eligible_voters].
  rewrite !map_map. split; f_equal; apply map_ext; intros x.
  - apply deactivate_again.
  - apply deactivate_twice.
Qed.

(** *** Keys *)

Lemma deactivate_id (closed : string) (b : Ballot.t) :
  Ballot.id (deactivate closed b) = Ballot.id b.
Proof. unfold deactivate. destruct (ballot_has_id closed b); reflexivity. Qed.

Lemma no_ballot_not_in (ballot_id : string) (l : list Ballot.t) :
  existsb (ballot_has_id ballot_id) l = false -> ~ In ballot_id (map Ballot.id l).
Proof.
  intros Hex Hin. apply in_map_iff in Hin. destruct Hin as [b [Hid Hin]].
  assert (Htrue : existsb (ballot_has_id ballot_id) l = true).
  { apply existsb_exists. exists b. split; [exact Hin|].
    unfold ballot_has_id. apply String.eqb_eq. exact Hid. }
  rewrite Htrue in Hex. discriminate Hex.
Qed.

Lemma no_vote_id_not_in (vote_id : string) (l : list Vote.t) :
  existsb (vote_has_id vote_id) l = false -> ~ In vote_id (map Vote.id l).
Proof.
  intros Hex Hin. apply in_map_iff in Hin. destruct Hin as [v [Hid Hin]].
  assert (Htrue : existsb (vote_has_id vote_id) l = true).
  { apply existsb_exists. exists v. split; [exact Hin|].
    unfold vote_has_id. apply String.eqb_eq. exact Hid. }
  rewrite Htrue in Hex. discriminate Hex.
Qed.

(** X14. In every store the API reaches from an empty database the keys of
    the three tables are unique: no two ballots have the same id, no two
    votes have the same id, and no pair of voter and ballot is registered
    twice. *)
Theorem reachable_keys_unique (s : store) :
  reachable s ->
  NoDup (map Ballot.id (ballots s))
  /\ NoDup (map Vote.id (votes s))
  /\ NoDup (map eligible_key (eligible_voters s)).
Proof.
  induction 1 as [|c s Hs [IHb [IHv IHe]]].
  - repeat split; constructor.
  - split; [|split].
    + destruct (run_ballots c s) as [Hsame | [[b [Hadd Hnew]] | [closed Hclose]]].
      * rewrite Hsame. exact IHb.
      * rewrite Hadd, map_app. apply NoDup_snoc; [exact IHb|].
        apply no_ballot_not_in. exact Hnew.
      * rewrite Hclose, map_map.
        rewrite (map_ext _ Ballot.id (deactivate_id closed)). exact IHb.
    + destruct (run_votes_cast c s)
        as [Hsame | [now [uuid4 [bid [voter [choice [v [_ Hrun]]]]]]]].
      * rewrite Hsame. exact IHv.
      * apply cast_vote_inversion in Hrun.
        destruct Hrun as [b0 [_ [_ [_ [_ [_ [_ [_ [Hid [Hv Hs']]]]]]]]]].
        rewrite Hs'. cbn [votes]. rewrite map_app. apply NoDup_snoc; [exact IHv|].
        apply no_vote_id_not_in. subst v. exact Hid.
    + destruct (run_eligible c s) as [Hsame | [e [Hadd Hnew]]].
      * rewrite Hsame. exact IHe.
      * rewrite Hadd, map_app. apply NoDup_snoc; assumption.
Qed.

Lemma reachable_keys_unique_witness :
  let s :=
    run (CastVote demo_now "5eed0003-aaaa-4bbb-8ccc-dddddddddddd" "71e00001" "v1" "X")
      (run (CastVote demo_now "5eed0002-aaaa-4bbb-8ccc-dddddddddddd" "0a1b2c3d" "v2" "No")
         (run (CastVote demo_now "5eed0001-aaaa-4bbb-8ccc-dddddddddddd" "0a1b2c3d" "v1" "Yes")
            (run (RegisterVoter "2025-12-25T09:00:02.000100+00:00" "v1" "71e00001")
               (run (RegisterVoter "2025-12-25T09:00:01.000100+00:00" "v2" "0a1b2c3d")
                  (run (RegisterVoter "2025-12-25T09:00:00.000100+00:00" "v1" "0a1b2c3d")
                     (run (CreateBallot "2025-12-24T08:31:00.250000+00:00"
                             "71e00001-1111-4222-8333-444444444444" "Tie" "" ["X"; "Y"]
                             "2026-01-01T00:00:00+00:00" "2026-12-31T00:00:00+00:00")
                        (run (CreateBallot "2025-12-24T08:30:00.250000+00:00"
                                "0a1b2c3d-1111-4222-8333-444444444444" "Budget" ""
                                ["Yes"; "No"]
                                "2026-01-01T00:00:00+00:00" "2026-12-31T00:00:00+00:00")
                           empty_store))))))) in
  (map Ballot.id (ballots s) = ["0a1b2c3d"; "71e00001"]
   /\ map Vote.id (votes s) = ["5eed0001"; "5eed0002"; "5eed0003"]
   /\ map eligible_key (eligible_voters s)
      = [("v1", "0a1b2c3d"); ("v2", "0a1b2c3d"); ("v1", "71e00001")])
  /\ NoDup (map Ballot.id (ballots s))
  /\ NoDup (map Vote.id (votes s))
  /\ NoDup (map eligible_key (eligible_voters s)).
Proof.
  intros s. split.
  - vm_compute. repeat split.
  - apply reachable_keys_unique. unfold s. repeat apply reachable_run. apply reachable_empty.
Defined.

(** *** Casting *)

(** X7. Whenever [cast_vote] returns a vote, every guard of the source held:
    the ballot exists and is active, the text of the current time is between
    the texts [start_time] and [end_time] in the order of Python's [str]
    (which is not the order of the times they write when the texts differ in
    offset or in precision), the choice is one of its options, the voter is
    registered for it and had no vote on it.  The returned vote carries the
    given voter, ballot, choice and time and verifies; it is the only change
    of the store (appended to the votes), and from then on the voter has one
    vote on the ballot. *)
Theorem cast_vote_accepts_only (now uuid4 ballot_id voter_id choice : string)
    (s s' : store) (v : Vote.t) :
  cast_vote now uuid4 ballot_id voter_id choice s = (inr v, s') ->
  (exists ballot,
     get_ballot ballot_id s = (inr (Some ballot), s)
     /\ Ballot.is_active ballot = true
     /\ (Ballot.start_time ballot <=? now)%string = true
     /\ (now <=? Ballot.end_time ballot)%string = true
     /\ In choice (Ballot.options ballot))
  /\ validate_eligibility voter_id ballot_id s = (inr true, s)
  /\ votes_of_pair voter_id ballot_id s = 0
  /\ Vote.voter_id v = voter_id /\ Vote.ballot_id v = ballot_id
  /\ Vote.choice v = choice /\ Vote.timestamp v = now
  /\ verify_vote v = true
  /\ s' = Store (ballots s) (votes s ++ [v]) (eligible_voters s)
  /\ votes_of_pair voter_id ballot_id s' = 1.
Proof.
  intros Hrun. pose proof (verify_vote_cast _ _ _ _ _ _ _ _ Hrun) as Hverify.
  apply cast_vote_inversion in Hrun.
  destruct Hrun as [b [Hfind [Ha [Hs [He [Hm [Hel [Hd [Hid [Hv Hs']]]]]]]]]].
  assert (Hzero : filter (vote_of voter_id ballot_id) (votes s) = []).
  { destruct (filter (vote_of voter_id ballot_id) (votes s)) as [|w ws] eqn:Hf; [reflexivity|].
    assert (Hw : In w (filter (vote_of voter_id ballot_id) (votes s)))
      by (rewrite Hf; left; reflexivity).
    apply filter_In in Hw. destruct Hw as [Hin Hw].
    assert (Htrue : existsb (vote_of voter_id ballot_id) (votes s) = true)
      by (apply existsb_exists; exists w; auto).
    rewrite Htrue in Hd. discriminate Hd. }
  split.
  { exists b. unfold get_ballot, select_ballot. rewrite Hfind.
    repeat split; try assumption. apply mem_in. exact Hm. }
  unfold validate_eligibility, select_eligible, votes_of_pair. rewrite Hel, Hzero.
  split; [reflexivity|]. split; [reflexivity|].
  rewrite Hs'. cbn [votes]. rewrite filter_app, Hzero. subst v. cbn [filter app].
  unfold vote_of. cbn [Vote.voter_id Vote.ballot_id Vote.choice Vote.timestamp].
  rewrite !String.eqb_refl. cbn [andb List.length].
  repeat split. exact Hverify.
Qed.

Lemma cast_vote_accepts_only_witness :
  votes_of_pair "v1" "0a1b2c3d" demo_voted = 1.
Proof.
  refine (proj2 (proj2 (proj2 (proj2 (proj2 (proj2 (proj2 (proj2 (proj2
            (cast_vote_accepts_only demo_now "5eed0001-aaaa-4bbb-8ccc-dddddddddddd"
               "0a1b2c3d" "v1" "Yes" demo_store demo_voted
               (Vote.mk "5eed0001" "v1" "0a1b2c3d" "Yes" demo_now
                        (_sign "v1" "0a1b2c3d" "Yes" demo_now)) _)))))))))).
  vm_compute. reflexivity.
Defined.

(** *** Creating and reading a ballot *)

Lemma find_none_of_existsb (ballot_id : string) (l : list Ballot.t) :
  existsb (ballot_has_id ballot_id) l = false -> find (ballot_has_id ballot_id) l = None.
Proof.
  induction l as [|b l IH]; simpl; [reflexivity|].
  destruct (ballot_has_id ballot_id b); [discriminate|exact IH].
Qed.

(** X9. A ballot returned by [create_ballot] is what [get_ballot] returns for
    its id afterwards; it was under no id before; the answer of [get_ballot]
    for every other id, the votes and the registrations are as before the
    creation. *)
Theorem create_then_get_ballot (now uuid4 title description : string)
    (options : list string) (start_time end_time : string) (s s' : store) (b : Ballot.t) :
  create_ballot now uuid4 title description options start_time end_time s = (inr b, s') ->
  get_ballot (Ballot.id b) s' = (inr (Some b), s')
  /\ get_ballot (Ballot.id b) s = (inr None, s)
  /\ (forall other, other <> Ballot.id b ->
        fst (get_ballot other s') = fst (get_ballot other s))
  /\ votes s' = votes s
  /\ eligible_voters s' = eligible_voters s.
Proof.
  unfold create_ballot. destruct (_ <? 2)%nat; [discriminate|].
  unfold_db. cbn [Ballot.id].
  destruct (existsb (ballot_has_id (short_id uuid4)) (ballots s)) eqn:Hex; [discriminate|].
  intros H. inversion H. subst. clear H. cbn [Ballot.id ballots votes eligible_voters].
  pose proof (find_none_of_existsb _ _ Hex) as Hnone.
  split; [|split; [|split; [|split]]]; try reflexivity.
  - rewrite find_app, Hnone. cbn [find]. unfold ballot_has_id at 1. cbn [Ballot.id].
    rewrite String.eqb_refl. reflexivity.
  - rewrite Hnone. reflexivity.
  - intros other Hne. cbn [fst]. rewrite find_app.
    destruct (find (ballot_has_id other) (ballots s)); [reflexivity|].
    cbn [find]. unfold ballot_has_id. cbn [Ballot.id].
    assert (Hoff : (short_id uuid4 =? other)%string = false).
    { apply String.eqb_neq. intros Heq. apply Hne. symmetry. exact Heq. }
    rewrite Hoff. reflexivity.
Qed.

Lemma create_then_get_ballot_witness :
  exists b s',
    create_ballot demo_now "7e57ab1e-0000-4000-8000-000000000000" "Roads" "" ["Yes"; "No"]
                  "2026-02-01T00:00:00+00:00" "2026-03-01T00:00:00+00:00" demo_store
    = (inr b, s')
    /\ get_ballot (Ballot.id b) s' = (inr (Some b), s').
Proof.
  eexists. eexists. split; [vm_compute; reflexivity|].
  refine (proj1 (create_then_get_ballot demo_now "7e57ab1e-0000-4000-8000-000000000000"
                   "Roads" "" ["Yes"; "No"] "2026-02-01T00:00:00+00:00"
                   "2026-03-01T00:00:00+00:00" demo_store _ _ _)).
  vm_compute. reflexivity.
Defined.

(** *** Export *)

(** X8. [export_results] on a ballot that is not stored raises "Ballot ...
    not found." whatever the format, also an unknown one; on a stored ballot
    an unknown format raises "Unknown format ..."; and on a stored ballot the
    formats json and csv always return, in any store: the JSON document holds
    the summary of [tally] and the votes on the ballot in stored order, the
    CSV document the header and one row per such vote in the same order.
    Nothing is written in any case. *)
Theorem export_results_outcome (ballot_id fmt : string) (s : store) :
  (get_ballot ballot_id s = (inr None, s) ->
     export_results ballot_id fmt s = (inl (ValueError (BallotNotFound ballot_id)), s))
  /\ (forall b, get_ballot ballot_id s = (inr (Some b), s) ->
        (fmt <> "json" -> fmt <> "csv" ->
           export_results ballot_id fmt s = (inl (ValueError (UnknownFormat fmt)), s))
        /\ exists summary,
             tally ballot_id s = (inr summary, s)
             /\ export_results ballot_id "json" s
                = (inr (JsonDocument summary (filter (vote_on ballot_id) (votes s))), s)
             /\ export_results ballot_id "csv" s
                = (inr (CsvDocument
                          (csv_header :: map csv_row (filter (vote_on ballot_id) (votes s)))),
                   s)).
Proof.
  unfold get_ballot, select_ballot. split.
  - intros H. inversion H as [Hfind].
    unfold export_results, tally, bind, select_ballot, raise. rewrite Hfind. reflexivity.
  - intros b H. inversion H as [Hfind].
    destruct (tally_returns ballot_id s b Hfind) as [r [Hrun _]].
    split.
    + intros Hj Hc. unfold export_results, bind. rewrite Hrun.
      unfold select_votes, ret, raise.
      apply String.eqb_neq in Hj. apply String.eqb_neq in Hc. rewrite Hj, Hc. reflexivity.
    + exists r. split; [exact Hrun|].
      unfold export_results, bind. rewrite Hrun. unfold select_votes, ret. cbn.
      split; reflexivity.
Qed.

Lemma export_results_outcome_witness :
  export_results "ffffffff" "xml" demo_store
  = (inl (ValueError (BallotNotFound "ffffffff")), demo_store)
  /\ export_results "0a1b2c3d" "xml" demo_store
     = (inl (ValueError (UnknownFormat "xml")), demo_store).
Proof.
  split.
  - apply (proj1 (export_results_outcome "ffffffff" "xml" demo_store)). reflexivity.
  - apply (proj1 (proj2 (export_results_outcome "0a1b2c3d" "xml" demo_store)
                    demo_ballot eq_refl)); discriminate.
Defined.

(** *** Signatures *)

Lemma append_assoc (a b c : string) : ((a ++ b) ++ c)%string = (a ++ (b ++ c))%string.
Proof.
  induction a as [|x a IH]; simpl; [reflexivity|]. rewrite IH. reflexivity.
Qed.

(** X11. The signature does not record where one field ends and the next
    begins: moving a part that follows a colon from the end of one field to
    the start of the next (voter to ballot, ballot to choice, choice to
    timestamp) gives the same signature, so [verify_vote] gives the same
    answer for the two votes although two of their fields differ. *)
Theorem sign_field_boundaries (vote_id a b c d t signature : string) :
  verify_vote (Vote.mk vote_id (a ++ ":" ++ b) c d t signature)
  = verify_vote (Vote.mk vote_id a (b ++ ":" ++ c) d t signature)
  /\ verify_vote (Vote.mk vote_id a (b ++ ":" ++ c) d t signature)
     = verify_vote (Vote.mk vote_id a b (c ++ ":" ++ d) t signature)
  /\ verify_vote (Vote.mk vote_id a b (c ++ ":" ++ d) t signature)
     = verify_vote (Vote.mk vote_id a b c (d ++ ":" ++ t) signature).
Proof.
  unfold verify_vote, _sign, raw.
  cbn [Vote.voter_id Vote.ballot_id Vote.choice Vote.timestamp Vote.signature].
  rewrite !append_assoc. repeat split.
Qed.

(** *** Verification of a ballot's votes *)

Lemma reachable_verified (s : store) :
  reachable s -> forall v, In v (votes s) -> verify_vote v = true.
Proof.
  induction 1 as [|c s Hs IH]; [intros v []|].
  intros v Hv.
  destruct (run_votes_cast c s)
    as [Hsame | [now [uuid4 [bid [voter [choice [v0 [_ Hrun]]]]]]]].
  - rewrite Hsame in Hv. auto.
  - pose proof (verify_vote_cast _ _ _ _ _ _ _ _ Hrun) as Hverify.
    apply cast_vote_inversion in Hrun.
    destruct Hrun as [b0 [_ [_ [_ [_ [_ [_ [_ [_ [_ Hs']]]]]]]]]].
    rewrite Hs' in Hv. cbn [votes] in Hv. apply in_app_iff in Hv.
    destruct Hv as [Hv|[Hv|[]]]; [auto|]. subst v. exact Hverify.
Qed.

(** X10. In every store the API reaches from an empty database, [cmd_verify]
    finds no invalid vote on any ballot: it reports all the votes on the
    ballot as verified, by their number, and does not exit with an error. *)
Theorem cmd_verify_reachable (ballot_id : string) (s : store) :
  reachable s ->
  cmd_verify ballot_id s
  = (inr (AllVerified (List.length (filter (vote_on ballot_id) (votes s)))), s).
Proof.
  intros Hreach. unfold cmd_verify, bind, select_votes, ret.
  assert (Hnone : filter (fun v => negb (verify_vote v)) (filter (vote_on ballot_id) (votes s))
                  = []).
  { destruct (filter _ (filter _ _)) as [|w ws] eqn:Hf; [reflexivity|].
    assert (Hw : In w (filter (fun v => negb (verify_vote v))
                              (filter (vote_on ballot_id) (votes s))))
      by (rewrite Hf; left; reflexivity).
    apply filter_In in Hw. destruct Hw as [Hin Hbad].
    apply filter_In in Hin. destruct Hin as [Hin _].
    rewrite (reachable_verified s Hreach w Hin) in Hbad. discriminate Hbad. }
  rewrite Hnone. reflexivity.
Qed.

Lemma cmd_verify_reachable_witness :
  let s :=
    run (CastVote demo_now "5eed0001-aaaa-4bbb-8ccc-dddddddddddd" "0a1b2c3d" "v1" "Yes")
      (run (RegisterVoter "2025-12-25T09:00:00.000100+00:00" "v1" "0a1b2c3d")
         (run (CreateBallot "2025-12-24T08:30:00.250000+00:00"
                 "0a1b2c3d-1111-4222-8333-444444444444" "Budget" "" ["Yes"; "No"]
                 "2026-01-01T00:00:00+00:00" "2026-12-31T00:00:00+00:00")
            empty_store)) in
  cmd_verify "0a1b2c3d" s
  = (inr (AllVerified (List.length (filter (vote_on "0a1b2c3d") (votes s)))), s).
Proof.
  intros s. apply cmd_verify_reachable.
  unfold s. repeat apply reachable_run. apply reachable_empty.
Defined.

(** *** More on the tally *)

(** The summary of an existing ballot, field by field. *)
Lemma tally_summary (ballot_id : string) (s : store) (ballot : Ballot.t) :
  find (ballot_has_id ballot_id) (ballots s) = Some ballot ->
  exists r,
    tally ballot_id s = (inr r, s)
    /\ Summary.counts r
       = fold_left count_choice (map Vote.choice (filter (vote_on ballot_id) (votes s)))
                   (init_counts (Ballot.options ballot))
    /\ Summary.total_votes r = list_sum (dict_values (Summary.counts r))
    /\ Summary.total_votes r
       = List.length (filter (fun c => mem c (Ballot.options ballot))
                             (map Vote.choice (filter (vote_on ballot_id) (votes s))))
    /\ (Summary.total_votes r = 0 -> Summary.winner r = None)
    /\ (Summary.total_votes r <> 0 ->
        exists k ks, dict_keys (Summary.counts r) = k :: ks
                     /\ Summary.winner r = Some (max_by (counts_get (Summary.counts r)) k ks)).
Proof.
  intros Hfind.
  destruct (tally_returns ballot_id s ballot Hfind) as [r [Hrun _]].
  destruct (tally_found ballot_id s ballot Hfind) as [Htotal Hrun'].
  rewrite Hrun in Hrun'.
  set (counts := fold_left count_choice
                   (map Vote.choice (filter (vote_on ballot_id) (votes s)))
                   (init_counts (Ballot.options ballot))) in *.
  exists r. split; [exact Hrun|].
  destruct (list_sum (dict_values counts)) as [|t] eqn:Ht.
  - injection Hrun' as Hr. subst r. cbn.
    repeat split; auto. intros H. contradiction.
  - destruct (dict_keys counts) as [|k ks] eqn:Hk; [discriminate Hrun'|].
    injection Hrun' as Hr. subst r. cbn.
    repeat split; auto.
    + intros H. discriminate H.
    + intros _. exists k, ks. split; [exact Hk|reflexivity].
Qed.

Lemma votes_for_choices (ballot_id o : string) (s : store) :
  votes_for ballot_id o s
  = List.length (filter (fun c => (c =? o)%string)
                        (map Vote.choice (filter (vote_on ballot_id) (votes s)))).
Proof. unfold votes_for. rewrite filter_choice_length. reflexivity. Qed.

Lemma votes_for_pos (ballot_id o : string) (s : store) :
  1 <= votes_for ballot_id o s ->
  exists v, In v (votes s) /\ Vote.ballot_id v = ballot_id /\ Vote.choice v = o.
Proof.
  unfold votes_for. intros Hpos.
  destruct (filter _ (filter (vote_on ballot_id) (votes s))) as [|v l] eqn:Hf;
    [simpl in Hpos; lia|].
  assert (Hv : In v (filter (fun v => (Vote.choice v =? o)%string)
                            (filter (vote_on ballot_id) (votes s))))
    by (rewrite Hf; left; reflexivity).
  apply filter_In in Hv. destruct Hv as [Hv Hc].
  apply filter_In in Hv. destruct Hv as [Hv Hb].
  exists v. unfold vote_on in Hb. rewrite String.eqb_eq in Hb, Hc. auto.
Qed.

(** A winner is a declared option and no declared option has more votes. *)
Lemma tally_winner_bound (ballot_id : string) (s : store) (ballot : Ballot.t)
    (r : Summary.t) (w : string) :
  find (ballot_has_id ballot_id) (ballots s) = Some ballot ->
  tally ballot_id s = (inr r, s) ->
  Summary.winner r = Some w ->
  In w (Ballot.options ballot)
  /\ forall o, In o (Ballot.options ballot) ->
       votes_for ballot_id o s <= votes_for ballot_id w s.
Proof.
  intros Hfind Hrun Hwin.
  destruct (tally_summary ballot_id s ballot Hfind) as [r0 [Hrun0 [Hcounts [_ [_ [Hnone Hsome]]]]]].
  rewrite Hrun in Hrun0. inversion Hrun0. subst r0. clear Hrun0.
  destruct (Nat.eq_dec (Summary.total_votes r) 0) as [Hz|Hnz];
    [rewrite (Hnone Hz) in Hwin; discriminate Hwin|].
  destruct (Hsome Hnz) as [k [ks [Hkeys Hw]]]. rewrite Hwin in Hw. injection Hw as Hw'.
  destruct (max_by_first (counts_get (Summary.counts r)) ks k [] [])
    as [pre [post [Hsplit [Hlt Hle]]]]; [intros x []|intros x []|].
  simpl in Hsplit. rewrite <- Hw' in Hsplit, Hlt, Hle.
  assert (Hkin : forall o, In o (dict_keys (Summary.counts r)) <-> In o (Ballot.options ballot)).
  { intros o. rewrite Hcounts, fold_count_keys, init_counts_fold, set_zero_keys_in.
    simpl. tauto. }
  assert (Hcg : forall o, In o (Ballot.options ballot) ->
                          counts_get (Summary.counts r) o = votes_for ballot_id o s).
  { intros o Ho. unfold counts_get. rewrite Hcounts, (tally_counts _ _ _ _ Ho). reflexivity. }
  assert (Hwin_in : In w (Ballot.options ballot)).
  { apply Hkin. rewrite Hkeys, Hsplit. apply in_elt. }
  split; [exact Hwin_in|].
  intros o Ho. rewrite <- (Hcg o Ho), <- (Hcg w Hwin_in).
  apply Hkin in Ho. rewrite Hkeys, Hsplit in Ho. apply in_app_iff in Ho.
  destruct Ho as [Ho|[Ho|Ho]].
  - specialize (Hlt o Ho). lia.
  - subst o. lia.
  - apply Hle. exact Ho.
Qed.

(** X16. For an existing ballot, in any store, [tally] returns a summary;
    its total is the number of votes on the ballot for a declared option
    (votes for anything else are not counted); it has no winner exactly when
    that total is 0; and a winner is always a declared option that has at
    least one vote. *)
Theorem tally_winner_none_iff (ballot_id : string) (s : store) (ballot : Ballot.t) :
  get_ballot ballot_id s = (inr (Some ballot), s) ->
  exists r,
    tally ballot_id s = (inr r, s)
    /\ Summary.total_votes r
       = List.length (filter (fun v => mem (Vote.choice v) (Ballot.options ballot))
                             (filter (vote_on ballot_id) (votes s)))
    /\ (Summary.winner r = None <-> Summary.total_votes r = 0)
    /\ (forall w, Summary.winner r = Some w ->
          In w (Ballot.options ballot) /\ 1 <= votes_for ballot_id w s).
Proof.
  unfold get_ballot, select_ballot. intros H. inversion H as [Hfind].
  destruct (tally_summary ballot_id s ballot Hfind)
    as [r [Hrun [Hcounts [_ [Htotal [Hnone Hsome]]]]]].
  exists r. split; [exact Hrun|]. split; [|split].
  - rewrite Htotal. clear.
    induction (filter (vote_on ballot_id) (votes s)) as [|v l IH]; [reflexivity|].
    cbn [map filter]. destruct (mem (Vote.choice v) (Ballot.options ballot)); cbn; rewrite IH;
      reflexivity.
  - split; [|exact Hnone].
    intros Hw. destruct (Nat.eq_dec (Summary.total_votes r) 0) as [Hz|Hnz]; [exact Hz|].
    destruct (Hsome Hnz) as [k [ks [_ Hw']]]. rewrite Hw in Hw'. discriminate Hw'.
  - intros w Hw.
    destruct (tally_winner_bound ballot_id s ballot r w Hfind Hrun Hw) as [Hin Hmax].
    split; [exact Hin|].
    destruct (Nat.eq_dec (Summary.total_votes r) 0) as [Hz|Hnz];
      [rewrite (Hnone Hz) in Hw; discriminate Hw|].
    rewrite Htotal in Hnz.
    destruct (filter (fun c => mem c (Ballot.options ballot))
                     (map Vote.choice (filter (vote_on ballot_id) (votes s))))
      as [|c l] eqn:Hf; [simpl in Hnz; lia|].
    assert (Hc : In c (filter (fun c => mem c (Ballot.options ballot))
                              (map Vote.choice (filter (vote_on ballot_id) (votes s)))))
      by (rewrite Hf; left; reflexivity).
    apply filter_In in Hc. destruct Hc as [Hc Hm]. apply mem_in in Hm.
    specialize (Hmax c Hm).
    assert (Hpos : 1 <= votes_for ballot_id c s).
    { rewrite votes_for_choices. apply filter_length_pos with (x := c); [exact Hc|].
      apply String.eqb_refl. }
    lia.
Qed.

Lemma tally_winner_none_iff_witness :
  exists r,
    tally "71e00001" tie_store = (inr r, tie_store)
    /\ Summary.total_votes r
       = List.length (filter (fun v => mem (Vote.choice v) (Ballot.options tie_ballot))
                             (filter (vote_on "71e00001") (votes tie_store)))
    /\ (Summary.winner r = None <-> Summary.total_votes r = 0)
    /\ (forall w, Summary.winner r = Some w ->
          In w (Ballot.options tie_ballot) /\ 1 <= votes_for "71e00001" w tie_store).
Proof.
  apply (tally_winner_none_iff "71e00001" tie_store tie_ballot). reflexivity.
Defined.

(** X15. A unanimous ballot: when an existing ballot has at least one vote
    and all the votes on it are for the same declared option, that option is
    the winner, wherever it stands among the options. *)
Theorem tally_unanimous (ballot_id choice : string) (s : store) (ballot : Ballot.t) :
  get_ballot ballot_id s = (inr (Some ballot), s) ->
  In choice (Ballot.options ballot) ->
  (exists v, In v (votes s) /\ Vote.ballot_id v = ballot_id) ->
  (forall v, In v (votes s) -> Vote.ballot_id v = ballot_id -> Vote.choice v = choice) ->
  exists r, tally ballot_id s = (inr r, s) /\ Summary.winner r = Some choice.
Proof.
  unfold get_ballot, select_ballot. intros H Hchoice [v [Hv Hb]] Hall.
  inversion H as [Hfind].
  destruct (tally_summary ballot_id s ballot Hfind)
    as [r [Hrun [_ [_ [Htotal [Hnone Hsome]]]]]].
  exists r. split; [exact Hrun|].
  assert (Hnz : Summary.total_votes r <> 0).
  { rewrite Htotal.
    assert (1 <= List.length
                   (filter (fun c => mem c (Ballot.options ballot))
                           (map Vote.choice (filter (vote_on ballot_id) (votes s))))).
    { apply filter_length_pos with (x := Vote.choice v).
      - apply in_map. apply filter_In. split; [exact Hv|].
        unfold vote_on. apply String.eqb_eq. exact Hb.
      - apply mem_in. rewrite (Hall v Hv Hb). exact Hchoice. }
    lia. }
  destruct (Hsome Hnz) as [k [ks [_ Hw]]].
  set (w := max_by (counts_get (Summary.counts r)) k ks) in *.
  destruct (tally_winner_bound ballot_id s ballot r w Hfind Hrun Hw) as [_ Hmax].
  specialize (Hmax choice Hchoice).
  assert (Hpos : 1 <= votes_for ballot_id choice s).
  { rewrite votes_for_choices. apply filter_length_pos with (x := Vote.choice v).
    - apply in_map. apply filter_In. split; [exact Hv|].
      unfold vote_on. apply String.eqb_eq. exact Hb.
    - apply String.eqb_eq. apply (Hall v Hv Hb). }
  destruct (votes_for_pos ballot_id w s) as [v' [Hv' [Hb' Hc']]]; [lia|].
  rewrite Hw. f_equal. rewrite <- Hc'. apply (Hall v' Hv' Hb').
Qed.

Lemma tally_unanimous_witness :
  exists r, tally "0a1b2c3d" demo_voted = (inr r, demo_voted)
            /\ Summary.winner r = Some "Yes".
Proof.
  apply (tally_unanimous "0a1b2c3d" "Yes" demo_voted demo_ballot).
  - vm_compute. reflexivity.
  - left. reflexivity.
  - exists (Vote.mk "5eed0001" "v1" "0a1b2c3d" "Yes" demo_now
                    (_sign "v1" "0a1b2c3d" "Yes" demo_now)).
    split; [vm_compute; left; reflexivity|reflexivity].
  - intros v Hv _. vm_compute in Hv. destruct Hv as [Hv|[]]. subst v. reflexivity.
Defined.

Lemma tally_missing (ballot_id : string) (s : store) :
  find (ballot_has_id ballot_id) (ballots s) = None ->
  tally ballot_id s = (inl (ValueError (BallotNotFound ballot_id)), s).
Proof.
  intros Hfind. unfold tally, bind, select_ballot, raise. rewrite Hfind. reflexivity.
Qed.

(** X6. A vote counts once, for its choice, on its ballot: when [cast_vote]
    returns, the tally of the ballot has one vote more in total and one more
    for the chosen option, the counts of the other options are as before, and
    the tally of every other ballot is as before. *)
Theorem cast_vote_counts_once (now uuid4 ballot_id voter_id choice : string)
    (s s' : store) (v : Vote.t) :
  cast_vote now uuid4 ballot_id voter_id choice s = (inr v, s') ->
  (exists r r',
     tally ballot_id s = (inr r, s)
     /\ tally ballot_id s' = (inr r', s')
     /\ Summary.total_votes r' = Summary.total_votes r + 1
     /\ dict_get choice (Summary.counts r')
        = option_map (fun n => n + 1) (dict_get choice (Summary.counts r))
     /\ (exists n, dict_get choice (Summary.counts r) = Some n)
     /\ (forall o, o <> choice ->
           dict_get o (Summary.counts r') = dict_get o (Summary.counts r)))
  /\ (forall other, other <> ballot_id -> fst (tally other s') = fst (tally other s)).
Proof.
  intros Hrun. apply cast_vote_inversion in Hrun.
  destruct Hrun as [b [Hfind [_ [_ [_ [Hm [_ [_ [_ [Hv Hs']]]]]]]]]].
  assert (Hfind' : find (ballot_has_id ballot_id) (ballots s') = Some b)
    by (rewrite Hs'; exact Hfind).
  assert (Hon : vote_on ballot_id v = true).
  { subst v. unfold vote_on. cbn [Vote.ballot_id]. apply String.eqb_refl. }
  assert (Hchoice : Vote.choice v = choice) by (subst v; reflexivity).
  split.
  - destruct (tally_summary ballot_id s b Hfind) as [r [Hr [Hc [Ht _]]]].
    destruct (tally_summary ballot_id s' b Hfind') as [r' [Hr' [Hc' [Ht' _]]]].
    exists r, r'. split; [exact Hr|]. split; [exact Hr'|].
    assert (Hstep : Summary.counts r' = count_choice (Summary.counts r) choice).
    { rewrite Hc', Hc, Hs'. cbn [votes]. rewrite filter_app. cbn [filter].
      rewrite Hon, map_app, fold_left_app. cbn [map fold_left]. rewrite Hchoice.
      reflexivity. }
    assert (Hkey : In choice (dict_keys (Summary.counts r))).
    { rewrite Hc, fold_count_keys, init_counts_fold. apply set_zero_keys_in. right.
      apply mem_in. exact Hm. }
    split; [|split; [|split]].
    + rewrite Ht', Ht, Hstep, count_choice_sum.
      apply mem_in in Hkey. rewrite Hkey. reflexivity.
    + rewrite Hstep, count_choice_get, String.eqb_refl. reflexivity.
    + apply dict_get_in. exact Hkey.
    + intros o Ho. rewrite Hstep, count_choice_get.
      assert (Hoff : (choice =? o)%string = false).
      { apply String.eqb_neq. intros Heq. apply Ho. symmetry. exact Heq. }
      rewrite Hoff. reflexivity.
  - intros other Hne.
    assert (Hoff : vote_on other v = false).
    { subst v. unfold vote_on. cbn [Vote.ballot_id]. apply String.eqb_neq.
      intros Heq. apply Hne. symmetry. exact Heq. }
    destruct (find (ballot_has_id other) (ballots s)) as [b0|] eqn:Hother.
    + apply (tally_depends other s s' b0 b0 Hother); try reflexivity.
      * rewrite Hs'. exact Hother.
      * rewrite Hs'. cbn [votes]. rewrite filter_app. cbn [filter].
        rewrite Hoff, app_nil_r. reflexivity.
    + rewrite (tally_missing other s Hother).
      rewrite (tally_missing other s'); [reflexivity|]. rewrite Hs'. exact Hother.
Qed.

Lemma cast_vote_counts_once_witness :
  exists r r',
    tally "0a1b2c3d" demo_store = (inr r, demo_store)
    /\ tally "0a1b2c3d" demo_voted = (inr r', demo_voted)
    /\ Summary.total_votes r' = Summary.total_votes r + 1.
Proof.
  destruct (proj1 (cast_vote_counts_once demo_now "5eed0001-aaaa-4bbb-8ccc-dddddddddddd"
                     "0a1b2c3d" "v1" "Yes" demo_store demo_voted
                     (Vote.mk "5eed0001" "v1" "0a1b2c3d" "Yes" demo_now
                              (_sign "v1" "0a1b2c3d" "Yes" demo_now))
                     ltac:(vm_compute; reflexivity)))
    as [r [r' [Hr [Hr' [Ht _]]]]].
  exists r, r'. auto.
Defined.

(** *** The order of the vote rows *)

Lemma filter_permutation {A : Type} (f : A -> bool) (l l' : list A) :
  Permutation l l' -> Permutation (filter f l) (filter f l').
Proof.
  induction 1 as [|x l l' Hp IH|x y l|l1 l2 l3 H12 IH12 H23 IH23]; simpl.
  - constructor.
  - destruct (f x); [constructor|]; exact IH.
  - destruct (f x), (f y); try apply Permutation_refl.
    + apply perm_swap.
  - eapply Permutation_trans; eassumption.
Qed.

Lemma dict_ext (d1 d2 : dict nat) :
  dict_keys d1 = dict_keys d2 ->
  NoDup (dict_keys d1) ->
  (forall k, In k (dict_keys d1) -> dict_get k d1 = dict_get k d2) ->
  d1 = d2.
Proof.
  revert d2. induction d1 as [|[k1 v1] d1 IH]; intros [|[k2 v2] d2] Hkeys Hnd Hget;
    try discriminate Hkeys; [reflexivity|].
  cbn in Hkeys. injection Hkeys as Hk Hkeys. subst k2.
  cbn in Hnd. inversion Hnd as [|? ? Hnot Hnd']. subst.
  pose proof (Hget k1 (or_introl eq_refl)) as Hhead.
  cbn in Hhead. rewrite String.eqb_refl in Hhead. injection Hhead as Hv. subst v2.
  f_equal. apply IH; [exact Hkeys|exact Hnd'|].
  intros k Hk. specialize (Hget k (or_intror Hk)). cbn in Hget.
  assert (Hne : (k1 =? k)%string = false).
  { apply String.eqb_neq. intros Heq. subst k. contradiction. }
  rewrite Hne in Hget. exact Hget.
Qed.

Lemma fold_count_permutation (cs cs' : list string) (d : dict nat) :
  NoDup (dict_keys d) -> Permutation cs cs' ->
  fold_left count_choice cs d = fold_left count_choice cs' d.
Proof.
  intros Hnd Hperm. apply dict_ext.
  - rewrite !fold_count_keys. reflexivity.
  - rewrite fold_count_keys. exact Hnd.
  - intros k _. rewrite !fold_count_get.
    rewrite (Permutation_length (filter_permutation (fun c => (c =? k)%string) _ _ Hperm)).
    reflexivity.
Qed.

(** X17. The summary of [tally] does not depend on the order in which the
    vote rows are stored or read: two stores with the same ballots whose vote
    rows are the same up to their order give the same result, error or
    summary, for every ballot. *)
Theorem tally_order_independent (ballot_id : string) (s s' : store) :
  ballots s' = ballots s ->
  Permutation (votes s) (votes s') ->
  fst (tally ballot_id s') = fst (tally ballot_id s).
Proof.
  intros Hballots Hperm.
  destruct (find (ballot_has_id ballot_id) (ballots s)) as [b|] eqn:Hfind.
  - assert (Hfind' : find (ballot_has_id ballot_id) (ballots s') = Some b)
      by (rewrite Hballots; exact Hfind).
    destruct (tally_found ballot_id s b Hfind) as [_ Hrun].
    destruct (tally_found ballot_id s' b Hfind') as [_ Hrun'].
    rewrite Hrun, Hrun'.
    rewrite (fold_count_permutation
               (map Vote.choice (filter (vote_on ballot_id) (votes s')))
               (map Vote.choice (filter (vote_on ballot_id) (votes s)))).
    + destruct (list_sum _); [reflexivity|]. destruct (dict_keys _); reflexivity.
    + rewrite init_counts_fold. apply set_zero_keys_nodup. constructor.
    + apply Permutation_map. apply filter_permutation. apply Permutation_sym. exact Hperm.
  - rewrite (tally_missing ballot_id s Hfind).
    rewrite (tally_missing ballot_id s'); [reflexivity|]. rewrite Hballots. exact Hfind.
Qed.

Lemma tally_order_independent_witness :
  fst (tally "71e00001" (Store (ballots tie_store) (rev (votes tie_store))
                               (eligible_voters tie_store)))
  = fst (tally "71e00001" tie_store).
Proof.
  apply tally_order_independent; [reflexivity|].
  cbn [votes]. apply Permutation_rev.
Defined.

(** *** From creation to the first vote *)

Lemma create_ballot_inversion (now uuid4 title description : string)
    (options : list string) (start_time end_time : string) (s s' : store) (b : Ballot.t) :
  create_ballot now uuid4 title description options start_time end_time s = (inr b, s') ->
  b = Ballot.mk (short_id uuid4) title description options start_time end_time true now
  /\ find (ballot_has_id (short_id uuid4)) (ballots s) = None
  /\ s' = Store (ballots s ++ [b]) (votes s) (eligible_voters s).
Proof.
  unfold create_ballot. destruct (_ <? 2)%nat; [discriminate|].
  unfold_db. cbn [Ballot.id].
  destruct (existsb (ballot_has_id (short_id uuid4)) (ballots s)) eqn:Hex; [discriminate|].
  intros H. inversion H. subst. repeat split. apply find_none_of_existsb. exact Hex.
Qed.

(** When all the votes on a ballot are for one declared option and there is
    one at least, the summary has that winner. *)
Lemma tally_only_choice (ballot_id choice : string) (s : store) (ballot : Ballot.t)
    (v : Vote.t) :
  find (ballot_has_id ballot_id) (ballots s) = Some ballot ->
  In choice (Ballot.options ballot) ->
  In v (votes s) -> Vote.ballot_id v = ballot_id ->
  (forall v', In v' (votes s) -> Vote.ballot_id v' = ballot_id -> Vote.choice v' = choice) ->
  exists r, tally ballot_id s = (inr r, s)
            /\ Summary.winner r = Some choice
            /\ Summary.total_votes r
               = List.length (filter (vote_on ballot_id) (votes s)).
Proof.
  intros Hfind Hchoice Hv Hb Hall.
  destruct (tally_summary ballot_id s ballot Hfind)
    as [r [Hrun [_ [_ [Htotal [Hnone Hsome]]]]]].
  exists r. split; [exact Hrun|].
  assert (Hcounted : filter (fun c => mem c (Ballot.options ballot))
                            (map Vote.choice (filter (vote_on ballot_id) (votes s)))
                     = map Vote.choice (filter (vote_on ballot_id) (votes s))).
  { apply filter_all. intros c Hc. apply in_map_iff in Hc. destruct Hc as [v' [Hc Hv']].
    apply filter_In in Hv'. destruct Hv' as [Hv' Hon].
    unfold vote_on in Hon. apply String.eqb_eq in Hon.
    subst c. rewrite (Hall v' Hv' Hon). apply mem_in. exact Hchoice. }
  rewrite Hcounted, length_map in Htotal.
  assert (Hin : In v (filter (vote_on ballot_id) (votes s))).
  { apply filter_In. split; [exact Hv|]. unfold vote_on. apply String.eqb_eq. exact Hb. }
  assert (Hnz : Summary.total_votes r <> 0).
  { rewrite Htotal. destruct (filter (vote_on ballot_id) (votes s)); [destruct Hin|].
    discriminate. }
  split; [|exact Htotal].
  destruct (Hsome Hnz) as [k [ks [_ Hw]]].
  set (w := max_by (counts_get (Summary.counts r)) k ks) in *.
  destruct (tally_winner_bound ballot_id s ballot r w Hfind Hrun Hw) as [_ Hmax].
  specialize (Hmax choice Hchoice).
  assert (Hpos : 1 <= votes_for ballot_id choice s).
  { rewrite votes_for_choices. apply filter_length_pos with (x := Vote.choice v).
    - apply in_map. exact Hin.
    - apply String.eqb_eq. apply (Hall v Hv Hb). }
  destruct (votes_for_pos ballot_id w s) as [v' [Hv' [Hb' Hc']]]; [lia|].
  rewrite Hw. f_equal. rewrite <- Hc'. apply (Hall v' Hv' Hb').
Qed.

(** X18. From creation to the first vote: in a store the API has reached,
    after [create_ballot] has returned a ballot and [register_voter] has
    registered a voter for it, a [cast_vote] of that voter for a declared
    option, at a time within the window and with a vote id not yet used,
    returns a vote that verifies, and the tally of the ballot then counts
    exactly that vote and names its choice as the winner. *)
Theorem create_register_cast
    (created uuid_b title description : string) (options : list string)
    (start_time end_time registered voter_id now uuid_v choice : string)
    (s s1 : store) (b : Ballot.t) :
  reachable s ->
  create_ballot created uuid_b title description options start_time end_time s = (inr b, s1) ->
  (start_time <=? now)%string = true ->
  (now <=? end_time)%string = true ->
  In choice options ->
  existsb (vote_has_id (short_id uuid_v)) (votes s) = false ->
  let s2 := snd (register_voter registered voter_id (Ballot.id b) s1) in
  exists v s3 r,
    cast_vote now uuid_v (Ballot.id b) voter_id choice s2 = (inr v, s3)
    /\ verify_vote v = true
    /\ tally (Ballot.id b) s3 = (inr r, s3)
    /\ Summary.total_votes r = 1
    /\ Summary.winner r = Some choice.
Proof.
  intros Hreach Hcreate Hstart Hend Hchoice Hfresh. cbv zeta.
  apply create_ballot_inversion in Hcreate. destruct Hcreate as [Hb [Hnone Hs1]].
  assert (Hid : Ballot.id b = short_id uuid_b) by (subst b; reflexivity).
  rewrite Hid.
  (* no vote of the store is on the new ballot *)
  assert (Hnovote : forall v, In v (votes s) -> Vote.ballot_id v <> short_id uuid_b).
  { intros v Hv Heq. destruct (reachable_declared s Hreach v Hv) as [b0 [Hfind0 _]].
    rewrite Heq, Hnone in Hfind0. discriminate Hfind0. }
  set (s2 := snd (register_voter registered voter_id (short_id uuid_b) s1)).
  assert (Hballots : ballots s2 = ballots s ++ [b]).
  { unfold s2, register_voter, insert_or_ignore_eligible.
    destruct (existsb _ (eligible_voters s1)); cbn [snd ballots]; rewrite Hs1; reflexivity. }
  assert (Hvotes : votes s2 = votes s).
  { unfold s2, register_voter, insert_or_ignore_eligible.
    destruct (existsb _ (eligible_voters s1)); cbn [snd votes]; rewrite Hs1; reflexivity. }
  assert (Helig : existsb (eligible_of voter_id (short_id uuid_b)) (eligible_voters s2) = true).
  { unfold s2, register_voter, insert_or_ignore_eligible.
    cbn [EligibleVoter.voter_id EligibleVoter.ballot_id].
    destruct (existsb (eligible_of voter_id (short_id uuid_b)) (eligible_voters s1)) eqn:Hex;
      cbn [snd eligible_voters]; [exact Hex|].
    rewrite existsb_app. cbn [existsb]. unfold eligible_of at 2.
    cbn [EligibleVoter.voter_id EligibleVoter.ballot_id].
    rewrite !String.eqb_refl. cbn. apply orb_true_r. }
  assert (Hfind : find (ballot_has_id (short_id uuid_b)) (ballots s2) = Some b).
  { rewrite Hballots, find_app, Hnone. cbn [find]. unfold ballot_has_id.
    rewrite Hid, String.eqb_refl. reflexivity. }
  assert (Hnodupe : existsb (vote_of voter_id (short_id uuid_b)) (votes s2) = false).
  { rewrite Hvotes. apply not_true_is_false. intros Htrue.
    apply existsb_exists in Htrue. destruct Htrue as [v [Hv Hof]].
    unfold vote_of in Hof. apply andb_true_iff in Hof. destruct Hof as [_ Hof].
    apply String.eqb_eq in Hof. exact (Hnovote v Hv Hof). }
  pose proof (cast_vote_success now uuid_v (short_id uuid_b) voter_id choice s2 b Hfind) as Hcast.
  rewrite Hvotes in Hcast.
  assert (Hopts : Ballot.options b = options) by (subst b; reflexivity).
  assert (Hmem : mem choice (Ballot.options b) = true)
    by (apply mem_in; rewrite Hopts; exact Hchoice).
  specialize (Hcast ltac:(subst b; reflexivity) ltac:(subst b; exact Hstart)
                    ltac:(subst b; exact Hend) Hmem Helig).
  rewrite Hvotes in Hnodupe. specialize (Hcast Hnodupe Hfresh). cbv zeta in Hcast.
  set (v := Vote.mk (short_id uuid_v) voter_id (short_id uuid_b) choice now
                    (_sign voter_id (short_id uuid_b) choice now)) in *.
  set (s3 := Store (ballots s2) (votes s ++ [v]) (eligible_voters s2)) in *.
  assert (Hall : forall v', In v' (votes s3) -> Vote.ballot_id v' = short_id uuid_b ->
                            Vote.choice v' = choice).
  { intros v' Hv' Hb'. cbn [s3 votes] in Hv'. apply in_app_iff in Hv'.
    destruct Hv' as [Hv'|[Hv'|[]]]; [exfalso; exact (Hnovote v' Hv' Hb')|].
    subst v'. reflexivity. }
  destruct (tally_only_choice (short_id uuid_b) choice s3 b v) as [r [Hr [Hw Ht]]].
  - exact Hfind.
  - rewrite Hopts. exact Hchoice.
  - cbn [s3 votes]. apply in_or_app. right. left. reflexivity.
  - reflexivity.
  - exact Hall.
  - exists v, s3, r. split; [exact Hcast|].
    split; [exact (verify_vote_cast _ _ _ _ _ _ _ _ Hcast)|].
    split; [exact Hr|]. split; [|exact Hw].
    rewrite Ht. cbn [s3 votes]. rewrite filter_app.
    assert (Hnone_on : filter (vote_on (short_id uuid_b)) (votes s) = []).
    { destruct (filter (vote_on (short_id uuid_b)) (votes s)) as [|w ws] eqn:Hf; [reflexivity|].
      assert (Hw' : In w (filter (vote_on (short_id uuid_b)) (votes s)))
        by (rewrite Hf; left; reflexivity).
      apply filter_In in Hw'. destruct Hw' as [Hin Hon].
      unfold vote_on in Hon. apply String.eqb_eq in Hon.
      exfalso. exact (Hnovote w Hin Hon). }
    rewrite Hnone_on. cbn [filter app]. unfold vote_on. cbn [v Vote.ballot_id].
    rewrite String.eqb_refl. reflexivity.
Qed.

Lemma create_register_cast_witness :
  exists v s3 r,
    cast_vote demo_now "5eed0001-aaaa-4bbb-8ccc-dddddddddddd" "7e570001" "alice" "Yes"
              (test_db ["Yes"; "No"] ["alice"]) = (inr v, s3)
    /\ verify_vote v = true
    /\ tally "7e570001" s3 = (inr r, s3)
    /\ Summary.total_votes r = 1
    /\ Summary.winner r = Some "Yes".
Proof.
  refine (create_register_cast
            "2026-06-15T11:00:00.000100+00:00" "7e570001-aaaa-4bbb-8ccc-dddddddddddd"
            "Test Vote" "Desc" ["Yes"; "No"]
            "2026-06-15T11:00:00.000000+00:00" "2026-06-15T14:00:00.000000+00:00"
            "2026-06-15T11:30:00.000200+00:00" "alice" demo_now
            "5eed0001-aaaa-4bbb-8ccc-dddddddddddd" "Yes" empty_store
            (Store [Ballot.mk "7e570001" "Test Vote" "Desc" ["Yes"; "No"]
                              "2026-06-15T11:00:00.000000+00:00"
                              "2026-06-15T14:00:00.000000+00:00" true
                              "2026-06-15T11:00:00.000100+00:00"] [] [])
            (Ballot.mk "7e570001" "Test Vote" "Desc" ["Yes"; "No"]
                       "2026-06-15T11:00:00.000000+00:00"
                       "2026-06-15T14:00:00.000000+00:00" true
                       "2026-06-15T11:00:00.000100+00:00")
            reachable_empty _ _ _ _ _); try reflexivity.
  left. reflexivity.
Defined.

(** X19. When every guard of [cast_vote] holds, the outcome depends on the
    generated vote id alone: if its first eight characters are the id of a
    stored vote, the INSERT is rejected with the storage integrity error and
    nothing is stored although the voter was entitled to vote; otherwise the
    signed vote is returned and appended to the votes. *)
Theorem cast_vote_when_guards_hold (now uuid4 ballot_id voter_id choice : string)
    (s : store) (ballot : Ballot.t) :
  get_ballot ballot_id s = (inr (Some ballot), s) ->
  Ballot.is_active ballot = true ->
  (Ballot.start_time ballot <=? now)%string = true ->
  (now <=? Ballot.end_time ballot)%string = true ->
  In choice (Ballot.options ballot) ->
  validate_eligibility voter_id ballot_id s = (inr true, s) ->
  existsb (vote_of voter_id ballot_id) (votes s) = false ->
  let vote := Vote.mk (short_id uuid4) voter_id ballot_id choice now
                      (_sign voter_id ballot_id choice now) in
  cast_vote now uuid4 ballot_id voter_id choice s
  = if existsb (vote_has_id (short_id uuid4)) (votes s)
    then (inl IntegrityError, s)
    else (inr vote, Store (ballots s) (votes s ++ [vote]) (eligible_voters s)).
Proof.
  unfold get_ballot, select_ballot, validate_eligibility, select_eligible.
  intros Hget Hactive Hstart Hend Hchoice Hel Hdupe. cbv zeta.
  inversion Hget as [Hfind]. inversion Hel as [Helig].
  apply mem_in in Hchoice.
  destruct (existsb (vote_has_id (short_id uuid4)) (votes s)) eqn:Hid.
  - rewrite cast_vote_unfold, cast_vote_guards_refine.
    unfold first_failure, spec_guards.
    rewrite Hfind, Hactive, Hstart, Hend, Hchoice, Helig, Hdupe.
    cbn [find fst negb option_map]. unfold insert_vote. cbn [Vote.id Vote.voter_id Vote.ballot_id].
    rewrite Hid. reflexivity.
  - apply (cast_vote_success now uuid4 ballot_id voter_id choice s ballot); assumption.
Qed.

Lemma cast_vote_when_guards_hold_witness :
  cast_vote demo_now "aaaa0001-aaaa-4bbb-8ccc-dddddddddddd" "71e00001" "v3" "X"
            (run (RegisterVoter demo_now "v3" "71e00001") tie_store)
  = (inl IntegrityError, run (RegisterVoter demo_now "v3" "71e00001") tie_store).
Proof.
  refine (cast_vote_when_guards_hold demo_now "aaaa0001-aaaa-4bbb-8ccc-dddddddddddd"
            "71e00001" "v3" "X" (run (RegisterVoter demo_now "v3" "71e00001") tie_store)
            tie_ballot _ _ _ _ _ _ _); try reflexivity.
  left. reflexivity.
Defined.

(** X20. The signature of every vote returned by [cast_vote] is a text of
    exactly 64 characters, each one of [0-9a-f]. *)
Theorem signature_is_hex64 (now uuid4 ballot_id voter_id choice : string)
    (s s' : store) (v : Vote.t) :
  cast_vote now uuid4 ballot_id voter_id choice s = (inr v, s') ->
  String.length (Vote.signature v) = 64
  /\ Forall (fun c => In c hex_alphabet) (list_ascii_of_string (Vote.signature v)).
Proof.
  intros Hrun. apply cast_vote_signed in Hrun. subst v. cbn [Vote.signature].
  unfold _sign. split; [apply hexdigest_length|].
  unfold SHA256.hexdigest.
  generalize (SHA256.digest
                (SHA256.bytes_of_string (raw voter_id ballot_id choice now))).
  intros st. unfold SHA256.hex_of_state, SHA256.hex8. cbn [list_ascii_of_string].
  repeat (apply Forall_cons; [apply hexdigit_in|]). apply Forall_nil.
Qed.

Lemma signature_is_hex64_witness :
  String.length (_sign "v1" "0a1b2c3d" "Yes" demo_now) = 64.
Proof.
  exact (proj1 (signature_is_hex64 demo_now "5eed0001-aaaa-4bbb-8ccc-dddddddddddd"
                  "0a1b2c3d" "v1" "Yes" demo_store demo_voted
                  (Vote.mk "5eed0001" "v1" "0a1b2c3d" "Yes" demo_now
                           (_sign "v1" "0a1b2c3d" "Yes" demo_now))
                  ltac:(vm_compute; reflexivity))).
Defined.

(** *** A vote is final *)

Lemma run_pair_votes (c : call) (s : store) (voter_id ballot_id : string) :
  existsb (vote_of voter_id ballot_id) (votes s) = true ->
  filter (vote_of voter_id ballot_id) (votes (run c s))
  = filter (vote_of voter_id ballot_id) (votes s).
Proof.
  intros Hhas.
  destruct (run_votes c s) as [Hsame | [v [b [Hadd [Hnew _]]]]].
  - rewrite Hsame. reflexivity.
  - rewrite Hadd, filter_app. cbn [filter].
    destruct (vote_of voter_id ballot_id v) eqn:Hv; [|apply app_nil_r].
    apply vote_of_key in Hv. unfold vote_key in Hv. inversion Hv as [[Hvo Hb]].
    rewrite Hvo, Hb, Hhas in Hnew. discriminate Hnew.
Qed.

Lemma existsb_of_filter {A : Type} (f : A -> bool) (l : list A) (x : A) :
  filter f l = [x] -> existsb f l = true.
Proof.
  intros Hf. apply existsb_exists. exists x.
  assert (Hx : In x (filter f l)) by (rewrite Hf; left; reflexivity).
  apply filter_In in Hx. exact Hx.
Qed.

Lemma run_all_pair_votes (cs : list call) (s : store) (voter_id ballot_id : string)
    (v : Vote.t) :
  filter (vote_of voter_id ballot_id) (votes s) = [v] ->
  filter (vote_of voter_id ballot_id) (votes (run_all cs s)) = [v].
Proof.
  revert s. induction cs as [|c cs IH]; intros s Hs; [exact Hs|].
  rewrite run_all_cons. apply IH.
  rewrite run_pair_votes; [exact Hs|]. apply (existsb_of_filter _ _ v). exact Hs.
Qed.

(** X21. A vote is final: once [cast_vote] has returned a vote, whatever
    calls follow, that vote stays the one stored vote of the voter on the
    ballot, unchanged, and every further [cast_vote] of that voter on that
    ballot fails and stores nothing. *)
Theorem vote_is_final (now uuid4 ballot_id voter_id choice : string) (s s' : store)
    (v : Vote.t) (cs : list call) (now2 uuid2 choice2 : string) :
  cast_vote now uuid4 ballot_id voter_id choice s = (inr v, s') ->
  filter (vote_of voter_id ballot_id) (votes (run_all cs s')) = [v]
  /\ exists e,
       cast_vote now2 uuid2 ballot_id voter_id choice2 (run_all cs s')
       = (inl e, run_all cs s').
Proof.
  intros Hrun. apply cast_vote_inversion in Hrun.
  destruct Hrun as [b [_ [_ [_ [_ [_ [_ [Hd [_ [Hv Hs']]]]]]]]]].
  assert (Hone : filter (vote_of voter_id ballot_id) (votes s') = [v]).
  { rewrite Hs'. cbn [votes]. rewrite filter_app. cbn [filter].
    assert (Hzero : filter (vote_of voter_id ballot_id) (votes s) = []).
    { destruct (filter (vote_of voter_id ballot_id) (votes s)) as [|w ws] eqn:Hf;
        [reflexivity|].
      exfalso.
      assert (Hw : In w (filter (vote_of voter_id ballot_id) (votes s)))
        by (rewrite Hf; left; reflexivity).
      apply filter_In in Hw.
      assert (Htrue : existsb (vote_of voter_id ballot_id) (votes s) = true)
        by (apply existsb_exists; exists w; exact Hw).
      rewrite Htrue in Hd. discriminate Hd. }
    rewrite Hzero. subst v. unfold vote_of. cbn [Vote.voter_id Vote.ballot_id].
    rewrite !String.eqb_refl. reflexivity. }
  pose proof (run_all_pair_votes cs s' voter_id ballot_id v Hone) as Hlater.
  split; [exact Hlater|].
  destruct (cast_vote_again now2 uuid2 ballot_id voter_id choice2 (run_all cs s'))
    as [e [He _]].
  - apply (existsb_of_filter _ _ v). exact Hlater.
  - exists e. exact He.
Qed.

Lemma vote_is_final_witness :
  filter (vote_of "v1" "0a1b2c3d")
         (votes (run_all [RegisterVoter demo_now "v2" "0a1b2c3d";
                          CastVote demo_now "5eed0002-aaaa-4bbb-8ccc-dddddddddddd"
                                   "0a1b2c3d" "v1" "No"] demo_voted))
  = [Vote.mk "5eed0001" "v1" "0a1b2c3d" "Yes" demo_now
             (_sign "v1" "0a1b2c3d" "Yes" demo_now)].
Proof.
  refine (proj1 (vote_is_final demo_now "5eed0001-aaaa-4bbb-8ccc-dddddddddddd"
                   "0a1b2c3d" "v1" "Yes" demo_store demo_voted _ _
                   demo_now "5eed0003-aaaa-4bbb-8ccc-dddddddddddd" "No" _)).
  vm_compute. reflexivity.
Defined.
